(** * EDF parser ([edf.py]): shallow embedding and verified properties

    The development follows the layout of the source file:

    - [Py]: the fragment of the Python 3 runtime that [edf.py] relies on
      (dynamic values, exceptions, slicing, [int()], [float()], [hex()],
      [struct.unpack], IEEE binary64 arithmetic through [SpecFloat]);
    - module-level helpers ([byte_array_to_string], [string_to_numerical],
      [numerical_to_hex_string]);
    - one module per class: [Scaler], [EdfHeader], [Signal], [EdfRecording];
    - the properties of the decoder.

    Methods mutate their receiver and may raise; they are embedded in a
    state-and-exception monad [M S A := S -> outcome A * S] in which the
    state reached when an exception escapes is kept, as in Python. *)

From Stdlib Require Import ZArith List String Ascii Bool Lia.
From Stdlib.Strings Require Import Byte.
From Stdlib Require Import Floats.SpecFloat HexadecimalString.
From Stdlib Require HexadecimalN HexadecimalPos.
From stdpp Require Import base gmap strings list.

Local Open Scope Z_scope.

(** ** The Python runtime fragment *)

Module Py.

(** Exception classes that can escape from [edf.py].  [Exception] is the
    bare [Exception] raised by [EdfHeader.parse]; [StructError] is
    [struct.error]. *)
Inductive exn : Set :=
| Exception | ValueError | TypeError | KeyError | AttributeError
| OverflowError | ZeroDivisionError | StructError.

Inductive outcome (A : Type) : Type :=
| Returns (a : A)
| Raises (e : exn).
Arguments Returns {A} a.
Arguments Raises {A} e.


Definition obind {A B} (o : outcome A) (k : A -> outcome B) : outcome B :=
  match o with
  | Returns a => k a
  | Raises e => Raises e
  end.

Definition of_option {A} (e : exn) (o : option A) : outcome A :=
  match o with
  | Some a => Returns a
  | None => Raises e
  end.

(** State and exceptions: a method on a receiver of type [S]. *)
Definition M (S A : Type) : Type := S -> outcome A * S.

Definition ret {S A} (a : A) : M S A := fun s => (Returns a, s).
Definition raise {S A} (e : exn) : M S A := fun s => (Raises e, s).
Definition bind {S A B} (m : M S A) (k : A -> M S B) : M S B :=
  fun s =>
    match m s with
    | (Returns a, s') => k a s'
    | (Raises e, s') => (Raises e, s')
    end.
Definition get {S} : M S S := fun s => (Returns s, s).
Definition lift {S A} (o : outcome A) : M S A := fun s => (o, s).

(** Python binary64 floats. *)
Definition float : Set := spec_float.
Definition prec : Z := 53.
Definition emax : Z := 1024.

(** Dynamic values that reach the numeric and formatting code. *)
Inductive value : Set :=
| VNone
| VInt (z : Z)
| VFloat (f : float)
| VStr (s : string).

(** [bool(v)] *)
Definition truthy (v : value) : bool :=
  match v with
  | VNone => false
  | VInt z => negb (z =? 0)
  | VFloat (S754_zero _) => false
  | VFloat _ => true
  | VStr s => negb (String.eqb s "")
  end.

(** *** Slicing: [l[start:stop]] with optional, possibly negative bounds *)

Definition slice_bound (len : Z) (dflt : Z) (b : option Z) : Z :=
  match b with
  | None => dflt
  | Some i => if i <? 0 then Z.max 0 (i + len) else Z.min i len
  end.

Definition slice {A} (l : list A) (start stop : option Z) : list A :=
  let len := Z.of_nat (length l) in
  let lo := slice_bound len 0 start in
  let hi := slice_bound len len stop in
  take (Z.to_nat (hi - lo)) (drop (Z.to_nat lo) l).

(** *** Characters *)

Definition codes_of_bytes (b : list byte) : list Z :=
  map (fun x => Z.of_N (Byte.to_N x)) b.

Definition codes_of_str (s : string) : list Z :=
  map (fun c => Z.of_N (N_of_ascii c)) (list_ascii_of_string s).

(** [Py_ISSPACE]: the C-level white space used by [bytes.strip], [int]
    and [float]. *)
Definition is_space (c : Z) : bool := ((9 <=? c) && (c <=? 13)) || (c =? 32).

(** [Py_UNICODE_ISSPACE] on code points below 256, used by [str.strip]. *)
Definition is_unicode_space (c : Z) : bool :=
  is_space c || ((28 <=? c) && (c <=? 31)) || (c =? 133) || (c =? 160).

Definition is_digit (c : Z) : bool := (48 <=? c) && (c <=? 57).

Fixpoint lstrip_with {A} (sp : A -> bool) (l : list A) : list A :=
  match l with
  | [] => []
  | c :: l' => if sp c then lstrip_with sp l' else l
  end.

Definition strip_with {A} (sp : A -> bool) (l : list A) : list A :=
  rev (lstrip_with sp (rev (lstrip_with sp l))).

(** [s.strip()] on a [str] whose code points are below 256. *)
Definition str_strip (s : string) : string :=
  string_of_list_ascii
    (strip_with (fun c => is_unicode_space (Z.of_N (N_of_ascii c)))
       (list_ascii_of_string s)).

(** [b.strip()] on [bytes]. *)
Definition bytes_strip (b : list byte) : list byte :=
  strip_with (fun x => is_space (Z.of_N (Byte.to_N x))) b.

(** [_PyUnicode_TransformDecimalAndSpaceToASCII]: what [int(str)] and
    [float(str)] do to a [str] before parsing.  An ASCII string is left
    as it is; otherwise Unicode spaces become blanks and the first other
    character above 126 is replaced by ['?'], which ends the text. *)
Fixpoint transform_codes (cs : list Z) : list Z :=
  match cs with
  | [] => []
  | c :: cs' =>
      if c <? 127 then c :: transform_codes cs'
      else if is_unicode_space c then 32 :: transform_codes cs'
      else [63]
  end.

Definition ascii_codes_of_str (s : string) : list Z :=
  let cs := codes_of_str s in
  if forallb (fun c => c <? 128) cs then cs else transform_codes cs.

(** *** Decimal literals *)

Fixpoint span {A} (p : A -> bool) (l : list A) : list A * list A :=
  match l with
  | [] => ([], [])
  | c :: l' =>
      if p c then let '(a, b) := span p l' in (c :: a, b) else ([], l)
  end.

Definition digits_value (ds : list Z) : Z :=
  fold_left (fun acc d => if is_digit d then acc * 10 + (d - 48) else acc) ds 0.

Definition split_sign (cs : list Z) : bool * list Z :=
  match cs with
  | 43 :: r => (false, r)
  | 45 :: r => (true, r)
  | _ => (false, cs)
  end.

(** A run of digits and underscores is well formed when it is not empty,
    does not start or end with an underscore and has no two underscores
    in a row ([long_from_string_base]). *)
Fixpoint digit_run_ok (prev : Z) (l : list Z) : bool :=
  match l with
  | [] => negb (prev =? 95)
  | c :: l' =>
      if c =? 95 then negb (prev =? 95) && digit_run_ok c l'
      else digit_run_ok c l'
  end.

(** [int(text)] in base 10 on the characters of [text]:
    [ws* [+-]? digit (_? digit)* ws*].  The texts parsed by [edf.py] are
    fields of at most 80 characters, far below the interpreter's limit on
    the number of digits. *)
Definition parse_int (cs : list Z) : option Z :=
  let '(neg, r) := split_sign (lstrip_with is_space cs) in
  let '(run, rest) := span (fun c => is_digit c || (c =? 95)) r in
  match run with
  | [] => None
  | c :: _ =>
      if negb (c =? 95) && digit_run_ok 0 run && forallb is_space rest
      then Some (if neg then - digits_value run else digits_value run)
      else None
  end.

(** The correctly rounded binary64 value of [(-1)^neg * m * 10^e10]. *)
Definition float_of_decimal (neg : bool) (m e10 : Z) : float :=
  match m with
  | Zpos p =>
      if 0 <=? e10
      then binary_round prec emax neg (p * Z.to_pos (10 ^ e10)) 0
      else SFdiv prec emax (S754_finite neg p 0)
             (S754_finite false (Z.to_pos (10 ^ (- e10))) 0)
  | _ => S754_zero neg
  end.

(** [_Py_string_to_number_with_underscores]: underscores may only stand
    between two digits; they are removed before the text is parsed. *)
Fixpoint strip_underscores (prev : Z) (l : list Z) : option (list Z) :=
  match l with
  | [] => if prev =? 95 then None else Some []
  | c :: l' =>
      if c =? 95 then
        if is_digit prev then strip_underscores c l' else None
      else if (prev =? 95) && negb (is_digit c) then None
      else option_map (cons c) (strip_underscores c l')
  end.

Definition lower (c : Z) : Z := if (65 <=? c) && (c <=? 90) then c + 32 else c.

Definition codes_eqb (a b : list Z) : bool :=
  (length a =? length b)%nat && forallb (fun '(x, y) => x =? y) (combine a b).

(** [_Py_parse_inf_or_nan], required to consume the whole text. *)
Definition parse_inf_or_nan (cs : list Z) : option float :=
  let '(neg, r) := split_sign cs in
  let w := map lower r in
  if codes_eqb w (codes_of_str "inf") || codes_eqb w (codes_of_str "infinity")
  then Some (S754_infinity neg)
  else if codes_eqb w (codes_of_str "nan") then Some S754_nan
  else None.

(** [_Py_dg_strtod], required to consume the whole text:
    [[+-]? (digit+ [. digit*] | . digit+) ([eE] [+-]? digit+)?]. *)
Definition parse_decimal_float (cs : list Z) : option float :=
  let '(neg, r) := split_sign cs in
  let '(ip, r1) := span is_digit r in
  let '(fp, r2) :=
    match r1 with
    | 46 :: t => span is_digit t
    | _ => ([], r1)
    end in
  match ip ++ fp with
  | [] => parse_inf_or_nan cs
  | ds =>
      let m := digits_value ds in
      let shift := Z.of_nat (length fp) in
      match r2 with
      | [] => Some (float_of_decimal neg m (- shift))
      | c :: t =>
          if (c =? 101) || (c =? 69) then
            let '(eneg, t') := split_sign t in
            let '(ed, r3) := span is_digit t' in
            match ed, r3 with
            | _ :: _, [] =>
                let e := digits_value ed in
                Some (float_of_decimal neg m ((if eneg then - e else e) - shift))
            | _, _ => None
            end
          else None
      end
  end.

(** [float(text)] on the characters of [text]. *)
Definition parse_float (cs : list Z) : option float :=
  match strip_with is_space cs with
  | [] => None
  | body =>
      if existsb (fun c => c =? 95) body
      then match strip_underscores 0 body with
           | Some body' => parse_decimal_float body'
           | None => None
           end
      else parse_decimal_float body
  end.

(** *** Numbers *)

(** [float(z)] for an [int]; too large an integer raises. *)
Definition float_of_Z (z : Z) : outcome float :=
  match binary_normalize prec emax z 0 false with
  | S754_infinity _ => Raises OverflowError
  | f => Returns f
  end.

(** [int(f)] for a [float]: truncation towards zero. *)
Definition Z_of_float (f : float) : outcome Z :=
  match f with
  | S754_nan => Raises ValueError
  | S754_infinity _ => Raises OverflowError
  | S754_zero _ => Returns 0
  | S754_finite s m e =>
      let a := Z.shiftl (Zpos m) e in
      Returns (if s then - a else a)
  end.

(** [int(v)] *)
Definition int (v : value) : outcome Z :=
  match v with
  | VNone => Raises TypeError
  | VInt z => Returns z
  | VFloat f => Z_of_float f
  | VStr s => of_option ValueError (parse_int (ascii_codes_of_str s))
  end.

(** [float(v)] *)
Definition to_float (v : value) : outcome float :=
  match v with
  | VNone => Raises TypeError
  | VInt z => float_of_Z z
  | VFloat f => Returns f
  | VStr s => of_option ValueError (parse_float (ascii_codes_of_str s))
  end.

(** [int(b)] and [float(b)] on [bytes]. *)
Definition int_of_bytes (b : list byte) : option Z :=
  parse_int (codes_of_bytes b).
Definition float_of_bytes (b : list byte) : option float :=
  parse_float (codes_of_bytes b).

Definition is_zero (f : float) : bool :=
  match f with
  | S754_zero _ => true
  | _ => false
  end.

(** The operand of an arithmetic operator whose other operand is a
    [float]: an [int] is converted, anything else is a [TypeError]. *)
Definition float_operand (v : value) : outcome float :=
  match v with
  | VInt z => float_of_Z z
  | VFloat f => Returns f
  | _ => Raises TypeError
  end.

(** [a / b] with [from __future__ import division]. *)
Definition truediv (a b : value) : outcome value :=
  match a, b with
  | VInt x, VInt y =>
      if y =? 0 then Raises ZeroDivisionError
      else
        match x with
        | 0 => Returns (VFloat (S754_zero (y <? 0)))
        | _ =>
            match SFdiv prec emax
                    (S754_finite (x <? 0) (Z.to_pos (Z.abs x)) 0)
                    (S754_finite (y <? 0) (Z.to_pos (Z.abs y)) 0) with
            | S754_infinity _ => Raises OverflowError
            | q => Returns (VFloat q)
            end
        end
  | VNone, _ | VStr _, _ | _, VNone | _, VStr _ => Raises TypeError
  | _, _ =>
      obind (float_operand a) (fun x =>
      obind (float_operand b) (fun y =>
      if is_zero y then Raises ZeroDivisionError
      else Returns (VFloat (SFdiv prec emax x y))))
  end.

(** [math.isclose(v, 0)] with the default tolerances ([rel_tol = 1e-09],
    [abs_tol = 0.0]): [abs(v) <= 1e-09 * abs(v)], which holds exactly
    when [v] is zero.  An [int] too large for a [float] overflows. *)
Definition isclose_zero (v : value) : outcome bool :=
  match v with
  | VInt z => obind (float_of_Z z) (fun f => Returns (is_zero f))
  | VFloat f => Returns (is_zero f)
  | _ => Raises TypeError
  end.

(** ['%.3f' % f] read back by [float()]: [f] rounded to three decimals,
    ties on the exact binary value going to the even digit. *)
Definition round3 (f : float) : float :=
  match f with
  | S754_finite s m e =>
      let num := Zpos m * 1000 in
      let n :=
        if 0 <=? e then Z.shiftl num e
        else
          let den := Z.shiftl 1 (- e) in
          let q := num / den in
          let r := num mod den in
          match 2 * r ?= den with
          | Lt => q
          | Gt => q + 1
          | Eq => if Z.even q then q else q + 1
          end in
      float_of_decimal s n (-3)
  | _ => f
  end.

(** [hex(n)] *)
Definition hex_digits (n : Z) : string :=
  NilZero.string_of_uint (N.to_hex_uint (Z.to_N n)).

Definition hex (v : value) : outcome string :=
  match v with
  | VInt n =>
      Returns (if n <? 0
               then String.append "-0x" (hex_digits (- n))
               else String.append "0x" (hex_digits n))
  | _ => Raises TypeError
  end.

(** *** [struct] *)

(** [struct.Struct("w0s w1s ...").unpack(buf)]: consecutive byte strings of
    the given widths; the buffer must have exactly the total width. *)
Fixpoint split_widths (ws : list Z) (buf : list byte) : list (list byte) :=
  match ws with
  | [] => []
  | w :: ws' => take (Z.to_nat w) buf :: split_widths ws' (drop (Z.to_nat w) buf)
  end.

Definition sum_Z (l : list Z) : Z := fold_right Z.add 0 l.

Definition unpack_s (ws : list Z) (buf : list byte) : outcome (list (list byte)) :=
  if Z.of_nat (length buf) =? sum_Z ws
  then Returns (split_widths ws buf)
  else Raises StructError.

(** One ['h']: a signed 16-bit integer, least significant byte first (the
    native order of the little-endian hosts the parser runs on). *)
Definition int16 (lo hi : byte) : Z :=
  let u := Z.of_N (Byte.to_N lo) + 256 * Z.of_N (Byte.to_N hi) in
  if u <? 32768 then u else u - 65536.

Fixpoint decode_h (buf : list byte) : list Z :=
  match buf with
  | lo :: hi :: rest => int16 lo hi :: decode_h rest
  | _ => []
  end.

(** [struct.Struct("h " * n).unpack(buf)]; a non-positive repetition
    count gives the empty format. *)
Definition unpack_h (n : Z) (buf : list byte) : outcome (list Z) :=
  if Z.of_nat (length buf) =? 2 * Z.max n 0
  then Returns (decode_h buf)
  else Raises StructError.

End Py.

Import Py.

Declare Scope py_scope.
Delimit Scope py_scope with py.
Notation "'let*' x ':=' c 'in' k" := (Py.bind c (fun x => k))
  (at level 10, x pattern, c at level 100, k at level 200) : py_scope.
Notation "c ';;;' k" := (Py.bind c (fun _ => k))
  (at level 100, k at level 200, right associativity) : py_scope.
Local Open Scope py_scope.

(** ** Module-level constants and helpers of [edf.py] *)

Definition SIGNAL_HEADER_FIELDS : list string :=
  ["Label"; "Transducer Type"; "Physical dimension"; "Physical minimum";
   "Physical maximum"; "Digital minimum"; "Digital maximum";
   "Prefiltering"; "Samples"; "Reserved"]%string.

Definition SIGNAL_HEADER_FIELDS_SIZE : list Z := [16; 80; 8; 8; 8; 8; 8; 80; 8; 32].

Definition UNDEFINED : Z := -32768.

(** ["".join(map(chr, bytesData))]: a [str] with one code point below 256
    per byte; such strings are represented by [string]. *)
Definition byte_array_to_string (bytesData : list byte) : string :=
  string_of_list_ascii (map ascii_of_byte bytesData).

(** [string_to_numerical] is only called on the [bytes] fields of the
    header: [int(str.strip())], else [float(str)], else [UNDEFINED]. *)
Definition string_to_numerical (str : list byte) : value :=
  match int_of_bytes (bytes_strip str) with
  | Some n => VInt n
  | None =>
      match float_of_bytes str with
      | Some f => VFloat f
      | None => VInt UNDEFINED
      end
  end.

(** [hex((val + (1 << nbits)) % (1 << nbits))].  The shift comes first
    and is a [ValueError] for a negative [nbits]; then a [str] or [None]
    fails at the addition, a [float] at [hex]. *)
Definition numerical_to_hex_string (val : value) (nbits : Z) : outcome string :=
  if nbits <? 0 then Raises ValueError
  else
    match val with
    | VInt v => hex (VInt ((v + Z.shiftl 1 nbits) mod Z.shiftl 1 nbits))
    | _ => Raises TypeError
    end.

(** ** [class Scaler] *)

Module Scaler.

(** The four attributes are floats, or [None] after a [TypeError]. *)
Record t : Set := mk {
  p_delta : option float;
  d_delta : option float;
  p_min : option float;
  d_min : option float
}.

Definition unset : t :=
  {| p_delta := None; d_delta := None; p_min := None; d_min := None |}.

(** [map(float, (pmax, pmin, dmax, dmin))], unpacked as a whole. *)
Definition convert_bounds (pmax pmin dmax dmin : value)
  : outcome (float * float * float * float) :=
  obind (to_float pmax) (fun a =>
  obind (to_float pmin) (fun b =>
  obind (to_float dmax) (fun c =>
  obind (to_float dmin) (fun d => Returns (a, b, c, d))))).

(** [Scaler(pmax, pmin, dmax, dmin)]: only [TypeError] is handled. *)
Definition __init__ (pmax pmin dmax dmin : value) : outcome t :=
  match convert_bounds pmax pmin dmax dmin with
  | Returns (p_max, pmin', d_max, dmin') =>
      Returns {| p_delta := Some (SFsub prec emax p_max pmin');
                 d_delta := Some (SFsub prec emax d_max dmin');
                 p_min := Some pmin';
                 d_min := Some dmin' |}
  | Raises TypeError => Returns unset
  | Raises e => Raises e
  end.

(** [p_delta * (dvalue - d_min) / d_delta + p_min], on floats. *)
Definition linear (self : t) (dd : float) (dvalue : value) : outcome float :=
  match p_delta self, d_min self, p_min self with
  | Some pd, Some dm, Some pm =>
      obind (float_operand dvalue) (fun x =>
        Returns (SFadd prec emax
                   (SFdiv prec emax (SFmul prec emax pd (SFsub prec emax x dm)) dd)
                   pm))
  | _, _, _ => Raises TypeError
  end.

(** [scale]: the comparison [self.d_delta > 0] comes first and raises on
    [None]. *)
Definition scale (self : t) (dvalue : value) : outcome value :=
  match d_delta self with
  | None => Raises TypeError
  | Some dd =>
      if SFltb (S754_zero false) dd || SFltb dd (S754_zero false)
      then obind (linear self dd dvalue) (fun y => Returns (VFloat (round3 y)))
      else Returns dvalue
  end.

End Scaler.

(** ** The values built by the [to_json_object] methods

    Dictionaries are written in insertion order; every dictionary built by
    [edf.py] has distinct literal keys.  A descriptor's [metadata] entry is
    the descriptor's own dictionary. *)
Unset Elimination Schemes.
Inductive json : Type :=
| JValue (v : value)
| JMetadata (m : gmap string string)
| JList (l : list json)
| JDict (d : list (string * json)).
Set Elimination Schemes.

(** ** [class EdfHeader] *)

Module EdfHeader.

Definition STRING_FIELDS : list string :=
  ["version"; "patient"; "recordId"; "startDate"; "startTime"; "reserved"]%string.
Definition NUM_FIELDS : list string :=
  ["headerSize"; "number_records"; "recordDuration"; "number_signals"]%string.

(** [fields], [fields_sizes] and [size] are the same for every instance;
    [header_dict] is the state. *)
Definition fields : list string :=
  ["version"; "patient"; "recordId"; "startDate"; "startTime"; "headerSize";
   "reserved"; "number_records"; "recordDuration"; "number_signals"]%string.
Definition fields_sizes : list Z := [8; 80; 80; 8; 8; 8; 44; 8; 8; 4].
Definition size : Z := sum_Z fields_sizes.

Record t : Type := mk { header_dict : gmap string value }.

Definition __init__ : t := {| header_dict := ∅ |}.

(** [get]: the value, or [None] for a missing key. *)
Definition get (self : t) (field : string) : value :=
  default VNone (header_dict self !! field).

(** The value stored for key [k] by the conversion loop of [parse]. *)
Definition convert (k : string) (v : list byte) : value :=
  if bool_decide (k ∈ NUM_FIELDS) then string_to_numerical v
  else VStr (byte_array_to_string v).

(** [parse]: the dictionary is built from [zip(fields, field_values)] and
    every value is then replaced by its conversion. *)
Definition parse (header : list byte) : M t unit :=
  fun self =>
    if negb (Z.of_nat (length header) =? size) then (Raises Exception, self)
    else
      match unpack_s fields_sizes header with
      | Raises e => (Raises e, self)
      | Returns field_values =>
          (Returns tt,
           {| header_dict :=
               list_to_map
                 (zip_with (fun k v => (k, convert k v)) fields field_values) |})
      end.

Definition field_descriptions : list string :=
  ["Version Format"; "Local Patient Info"; "Local Recording Info";
   "Recording Start Date"; "Recording Start Time"; "Recording Header Bytes";
   "Reserved"; "Num Data Records"; "Recording Duration (s)"; "Num Signals"]%string.

(** [self[field]] *)
Definition __getitem__ (self : t) (field : string) : outcome value :=
  of_option KeyError (header_dict self !! field).

Definition to_json_object (self : t) : json :=
  JDict
    (("total_header_size"%string, JValue (VInt size))
       :: map (fun '(field, description, sz) =>
                 (field,
                  JDict [("field_description"%string, JValue (VStr description));
                         ("field_size"%string, JValue (VInt sz));
                         ("value"%string, JValue (get self field))]))
              (zip (zip fields field_descriptions) fields_sizes)).

End EdfHeader.

(** ** [class Signal] *)

Module Signal.

Record t : Type := mk {
  metadata : gmap string string;
  samples : list (list Z);
  scaler : option Scaler.t
}.

Definition __init__ : t := {| metadata := ∅; samples := []; scaler := None |}.

Definition meta_data_fields : list string := SIGNAL_HEADER_FIELDS.

(** [self.metadata[key]] *)
Definition item (self : t) (key : string) : outcome string :=
  of_option KeyError (metadata self !! key).

(** [is_numerical] returns a string; only its truth value is used. *)
Definition is_numerical (self : t) : outcome bool :=
  obind (item self "Transducer Type") (fun tt =>
    if negb (String.eqb (str_strip tt) "") then Returns true
    else obind (item self "Physical dimension") (fun pd =>
           Returns (negb (String.eqb (str_strip pd) "")))).

Definition number_samples_per_record (self : t) : outcome Z :=
  match metadata self !! "Samples"%string with
  | None => Returns 0
  | Some s => Py.int (VStr s)
  end.

Definition number_records (self : t) : nat := length (samples self).

Definition get_samples (self : t) : list Z := concat (samples self).

Definition set_metadata (field value : string) : M t unit :=
  fun self =>
    let self1 := {| metadata := <[field := value]> (metadata self);
                    samples := samples self;
                    scaler := scaler self |} in
    if (size (metadata self1) =? length meta_data_fields)%nat then
      match
        obind (item self1 "Physical maximum") (fun pmax =>
        obind (item self1 "Physical minimum") (fun pmin =>
        obind (item self1 "Digital maximum") (fun dmax =>
        obind (item self1 "Digital minimum") (fun dmin =>
          Scaler.__init__ (VStr pmax) (VStr pmin) (VStr dmax) (VStr dmin)))))
      with
      | Returns sc =>
          (Returns tt,
           {| metadata := metadata self1; samples := samples self1;
              scaler := Some sc |})
      | Raises e => (Raises e, self1)
      end
    else (Returns tt, self1).

Fixpoint mapM {A B} (f : A -> outcome B) (l : list A) : outcome (list B) :=
  match l with
  | [] => Returns []
  | x :: l' =>
      obind (f x) (fun y => obind (mapM f l') (fun ys => Returns (y :: ys)))
  end.

(** The per-sample pipeline applied to one record [s] by [format_samples]:
    the chained [map] objects are forced by [list(outcome)]. *)
Definition substitute (char_for_undefined : value) (x : Z) : value :=
  if truthy char_for_undefined
  then (if x =? UNDEFINED then char_for_undefined else VInt x)
  else VInt x.

Definition format_record (self : t) (scale : bool) (char_for_undefined : value)
           (s : list Z) : outcome (list value) :=
  obind (is_numerical self) (fun numerical =>
    if negb numerical then
      mapM (fun x =>
              obind (numerical_to_hex_string (substitute char_for_undefined x) 16)
                    (fun h => Returns (VStr h))) s
    else if scale then
      match scaler self with
      | None => Raises AttributeError
      | Some sc => mapM (fun x => Scaler.scale sc (substitute char_for_undefined x)) s
      end
    else Returns (map (substitute char_for_undefined) s)).

Definition format_samples (self : t) (scale : bool) (char_for_undefined : value)
  : outcome (list (list value)) :=
  if negb scale && negb (truthy char_for_undefined)
  then Returns (map (map VInt) (samples self))
  else mapM (format_record self scale char_for_undefined) (samples self).

Definition add_samples_for_one_record (sample_data : list Z) (self : t) : t :=
  {| metadata := metadata self;
     samples := samples self ++ [sample_data];
     scaler := scaler self |}.

(** The outcome of [self.samples[index]]: the record, or [IndexError]. *)
Inductive record_at : Type :=
| RecordAt (rec : list Z)
| IndexError.

(** [get_record]: list indexing, a negative index counting from the end. *)
Definition get_record (self : t) (index : Z) : record_at :=
  let len := Z.of_nat (length (samples self)) in
  let i := if index <? 0 then index + len else index in
  if (0 <=? i) && (i <? len)
  then match samples self !! Z.to_nat i with
       | Some rec => RecordAt rec
       | None => IndexError
       end
  else IndexError.

Definition total_number_of_samples (self : t) : outcome Z :=
  obind (number_samples_per_record self) (fun c =>
    Returns (c * Z.of_nat (number_records self))).

Definition get_name (self : t) : string :=
  default "UNKNOWN"%string (metadata self !! "Label"%string).

(** [to_json_object(options)], [options] being a tuple or list of strings;
    the values are [format_samples()] with its default arguments. *)
Definition to_json_object (self : t) (options : list string) : outcome json :=
  let with_metadata :=
    if bool_decide ("metadata"%string ∈ options)
    then [("metadata"%string, JMetadata (metadata self))] else [] in
  if bool_decide ("values"%string ∈ options)
  then obind (format_samples self true VNone) (fun values =>
         Returns (JDict (with_metadata
                           ++ [("values"%string,
                                JList (map (fun rec => JList (map JValue rec)) values))])))
  else Returns (JDict with_metadata).

End Signal.

(** ** [class EdfRecording] *)

Module EdfRecording.

Inductive stage : Set :=
| STAGE_OPEN | STAGE_HEADER | STAGE_METADATA | STAGE_PARSING | STAGE_DONE.

Definition DEFAULT_DURATION_IN_SECONDS : Z := 1 * 3600.

(** The attributes assigned by [__init__]; every one starts as [None]
    except [signals].  [edf_file] holds the bytes the open file has not
    delivered yet. *)
Record t : Type := mk {
  binary_content : option (list byte);
  edf_file : option (list byte);
  status : option stage;
  header : option EdfHeader.t;
  number_signals : option Z;
  number_records : option Z;
  signal_header_size : option Z;
  samples_per_record : option Z;
  record_size : option Z;
  signals : list Signal.t
}.

Definition __init__ : t :=
  {| binary_content := None; edf_file := None; status := None; header := None;
     number_signals := None; number_records := None;
     signal_header_size := None; samples_per_record := None;
     record_size := None; signals := [] |}.

(** Attribute assignments. *)
Definition set_binary_content (v : option (list byte)) (r : t) : t :=
  mk v (edf_file r) (status r) (header r) (number_signals r) (number_records r)
     (signal_header_size r) (samples_per_record r) (record_size r) (signals r).
Definition set_edf_file (v : option (list byte)) (r : t) : t :=
  mk (binary_content r) v (status r) (header r) (number_signals r) (number_records r)
     (signal_header_size r) (samples_per_record r) (record_size r) (signals r).
Definition set_status (v : option stage) (r : t) : t :=
  mk (binary_content r) (edf_file r) v (header r) (number_signals r) (number_records r)
     (signal_header_size r) (samples_per_record r) (record_size r) (signals r).
Definition set_header (v : option EdfHeader.t) (r : t) : t :=
  mk (binary_content r) (edf_file r) (status r) v (number_signals r) (number_records r)
     (signal_header_size r) (samples_per_record r) (record_size r) (signals r).
Definition set_number_signals (v : option Z) (r : t) : t :=
  mk (binary_content r) (edf_file r) (status r) (header r) v (number_records r)
     (signal_header_size r) (samples_per_record r) (record_size r) (signals r).
Definition set_number_records (v : option Z) (r : t) : t :=
  mk (binary_content r) (edf_file r) (status r) (header r) (number_signals r) v
     (signal_header_size r) (samples_per_record r) (record_size r) (signals r).
Definition set_signal_header_size (v : option Z) (r : t) : t :=
  mk (binary_content r) (edf_file r) (status r) (header r) (number_signals r)
     (number_records r) v (samples_per_record r) (record_size r) (signals r).
Definition set_samples_per_record (v : option Z) (r : t) : t :=
  mk (binary_content r) (edf_file r) (status r) (header r) (number_signals r)
     (number_records r) (signal_header_size r) v (record_size r) (signals r).
Definition set_record_size (v : option Z) (r : t) : t :=
  mk (binary_content r) (edf_file r) (status r) (header r) (number_signals r)
     (number_records r) (signal_header_size r) (samples_per_record r) v (signals r).
Definition set_signals (v : list Signal.t) (r : t) : t :=
  mk (binary_content r) (edf_file r) (status r) (header r) (number_signals r)
     (number_records r) (signal_header_size r) (samples_per_record r)
     (record_size r) v.

Definition assign (f : t -> t) : M t unit := fun self => (Returns tt, f self).

(** An integer attribute used in arithmetic: [None] is a [TypeError]. *)
Definition int_attr (a : option Z) : M t Z :=
  match a with
  | Some z => ret z
  | None => raise TypeError
  end.

Definition is_done (self : t) : bool :=
  match status self with
  | Some STAGE_DONE => true
  | _ => false
  end.

(** [file.read(count)] on a file opened with ['rb']: everything when
    [count] is [None] or [-1]; a count below [-1] is a [ValueError] and
    the file is left where it was.  The result is the bytes read and the
    bytes the file has still to deliver. *)
Definition file_read (f : list byte) (count : option Z)
  : outcome (list byte * list byte) :=
  match count with
  | None => Returns (f, [])
  | Some n =>
      if n <? -1 then Raises ValueError
      else if n <? 0 then Returns (f, [])
      else Returns (take (Z.to_nat n) f, drop (Z.to_nat n) f)
  end.

(** [__extract__]: a non-empty in-memory buffer comes first, then the
    open file, then nothing. *)
Definition __extract__ (count : option Z) : M t (list byte) :=
  fun self =>
    match binary_content self with
    | Some ((_ :: _) as content) =>
        (Returns (slice content None count),
         set_binary_content (Some (slice content count None)) self)
    | _ =>
        match edf_file self with
        | Some f =>
            match file_read f count with
            | Returns (got, f') => (Returns got, set_edf_file (Some f') self)
            | Raises e => (Raises e, self)
            end
        | None => (Returns [], self)
        end
    end.

(** [for s, m in zip(self.signals, metadata): s.set_metadata(l, m)] *)
Fixpoint set_metadata_each (l : string) (sigs : list Signal.t) (ms : list string)
  : outcome unit * list Signal.t :=
  match sigs, ms with
  | s :: sigs', m :: ms' =>
      match Signal.set_metadata l m s with
      | (Returns _, s') =>
          let '(o, rest) := set_metadata_each l sigs' ms' in (o, s' :: rest)
      | (Raises e, s') => (Raises e, s' :: sigs')
      end
  | _, _ => (Returns tt, sigs)
  end.

(** The body of the loop over [enumerate(SIGNAL_HEADER_FIELDS)], for the
    fields that remain, with the running [end]. *)
Fixpoint parse_fields (todo : list (string * Z)) (header_bytes : list byte)
         (end_ : Z) : M t unit :=
  match todo with
  | [] => ret tt
  | (l, field_size) :: todo' =>
      let start := end_ in
      let* self := get in
      let* n := int_attr (number_signals self) in
      let end_ := start + field_size * n in
      let* metadata_as_bytes :=
        lift (unpack_s (replicate (Z.to_nat n) field_size)
                       (slice header_bytes (Some start) (Some end_))) in
      let metadata := map byte_array_to_string metadata_as_bytes in
      (fun self =>
         let '(o, sigs) := set_metadata_each l (signals self) metadata in
         (o, set_signals sigs self)) ;;;
      parse_fields todo' header_bytes end_
  end.

Definition __parse_metadata__ (header_bytes : list byte) : M t unit :=
  parse_fields (zip SIGNAL_HEADER_FIELDS SIGNAL_HEADER_FIELDS_SIZE) header_bytes 0 ;;;
  let* self := get in
  let* counts := lift (Signal.mapM Signal.number_samples_per_record (signals self)) in
  assign (set_samples_per_record (Some (sum_Z counts))) ;;;
  assign (set_record_size (Some (2 * sum_Z counts))).

(** The loop of [__parse_one_record__] over the signals that remain, with
    the running [start]. *)
Fixpoint distribute (data : list Z) (start : Z) (sigs : list Signal.t)
  : outcome unit * list Signal.t :=
  match sigs with
  | [] => (Returns tt, [])
  | s :: sigs' =>
      match Signal.number_samples_per_record s with
      | Raises e => (Raises e, sigs)
      | Returns c =>
          let end_ := start + c in
          let s' :=
            Signal.add_samples_for_one_record
              (slice data (Some start) (Some end_)) s in
          let '(o, rest) := distribute data end_ sigs' in
          (o, s' :: rest)
      end
  end.

Definition __parse_one_record__ (sample : list byte) : M t unit :=
  match sample with
  | [] => ret tt
  | _ :: _ =>
      let* self := get in
      let* n := int_attr (samples_per_record self) in
      let* data := lift (unpack_h n sample) in
      fun self =>
        let '(o, sigs) := distribute data 0 (signals self) in
        (o, set_signals sigs self)
  end.

(** [self.header.get(field)] *)
Definition header_get (field : string) : M t value :=
  fun self =>
    match header self with
    | None => (Raises AttributeError, self)
    | Some h => (Returns (EdfHeader.get h field), self)
    end.

(** [self.header.parse(bytes)] *)
Definition header_parse (bytes : list byte) : M t unit :=
  fun self =>
    match header self with
    | None => (Raises AttributeError, self)
    | Some h =>
        let '(o, h') := EdfHeader.parse bytes h in
        (o, set_header (Some h') self)
    end.

(** [int(self.record_size if not duration else duration / recordDuration)] *)
Definition requested_records (duration : value) (record_size : option Z)
           (record_duration : value) : outcome Z :=
  if negb (truthy duration)
  then of_option TypeError record_size
  else obind (truediv duration record_duration) Py.int.

(** The value bound to [records_to_read] by a call in the parsing stage. *)
Definition records_to_read (duration : value) : M t Z :=
  let* self := get in
  let* rd := header_get "recordDuration" in
  let* zero := lift (isclose_zero rd) in
  if zero then ret 1
  else lift (requested_records duration (record_size self) rd).

(** One iteration of the loop over [range(0, records_to_read)]. *)
Definition read_slot (bytes_to_read : option Z) : M t unit :=
  let* bytes_extracted := __extract__ bytes_to_read in
  if (0 <? length bytes_extracted)%nat
  then __parse_one_record__ bytes_extracted
  else assign (set_status (Some STAGE_DONE)).

Fixpoint read_slots (n : nat) (bytes_to_read : option Z) : M t unit :=
  match n with
  | O => ret tt
  | S n' => read_slot bytes_to_read ;;; read_slots n' bytes_to_read
  end.

Definition return_status : M t (option stage) :=
  fun self => (Returns (status self), self).

Definition stream (duration : value) : M t (option stage) :=
  let* self := get in
  match status self with
  | Some STAGE_OPEN =>
      assign (set_header (Some EdfHeader.__init__)) ;;;
      let bytes_to_read := EdfHeader.size in
      assign (set_status (Some STAGE_HEADER)) ;;;
      let* bytes := __extract__ (Some bytes_to_read) in
      header_parse bytes ;;;
      let* ns := header_get "number_signals" in
      let* ns := lift (Py.int ns) in
      assign (set_number_signals (Some ns)) ;;;
      let* nr := header_get "number_records" in
      let* nr := lift (Py.int nr) in
      assign (set_number_records (Some nr)) ;;;
      assign (set_signal_header_size (Some (ns * sum_Z SIGNAL_HEADER_FIELDS_SIZE))) ;;;
      assign (set_samples_per_record (Some 0)) ;;;
      assign (set_record_size (Some 0)) ;;;
      assign (set_signals (replicate (Z.to_nat ns) Signal.__init__)) ;;;
      return_status
  | Some STAGE_HEADER =>
      let bytes_to_read := signal_header_size self in
      assign (set_status (Some STAGE_METADATA)) ;;;
      let* bytes := __extract__ bytes_to_read in
      __parse_metadata__ bytes ;;;
      return_status
  | Some STAGE_METADATA | Some STAGE_PARSING =>
      assign (set_status (Some STAGE_PARSING)) ;;;
      let bytes_to_read := record_size self in
      let* n := records_to_read duration in
      read_slots (Z.to_nat n) bytes_to_read ;;;
      return_status
  | Some STAGE_DONE => return_status
  | None => return_status
  end.

(** [open]: the file is represented by its contents. *)
Definition open (file_contents : list byte) (self : t) : t :=
  set_status (Some STAGE_OPEN) (set_edf_file (Some file_contents) self).

(** The [while] loop of [parse_binary], for at most [fuel] iterations:
    [true] when the loop has left within that many. *)
Fixpoint until_done (fuel : nat) : M t bool :=
  fun self =>
    if is_done self then (Returns true, self)
    else
      match fuel with
      | O => (Returns false, self)
      | S fuel' =>
          (stream (VInt DEFAULT_DURATION_IN_SECONDS) ;;; until_done fuel') self
      end.

Definition parse_binary (fuel : nat) (blob : list byte) : M t bool :=
  assign (set_binary_content (Some blob)) ;;;
  assign (set_status (Some STAGE_OPEN)) ;;;
  until_done fuel.

(** The value of [options['slicing_by_index']]: an integer ([-1] stands
    for every signal) or a list of indices. *)
Inductive wanted : Set :=
| WantedInt (z : Z)
| WantedList (l : list Z).

(** The keys of [options] that [to_json_object] looks at: whether
    ['header'] is present, and the values under ['slicing_by_index'] and
    ['signal'] when they are. *)
Record export_options : Set := {
  opt_header : bool;
  opt_slicing_by_index : option wanted;
  opt_signal : option (list string)
}.

Definition DEFAULT_EXPORT_OPTIONS : export_options :=
  {| opt_header := true;
     opt_slicing_by_index := Some (WantedList [0]);
     opt_signal := Some ["metadata"; "values"]%string |}.

(** [wanted_indices == -1 or i in wanted_indices] *)
Definition is_wanted (w : wanted) (i : Z) : outcome bool :=
  match w with
  | WantedInt z => if z =? -1 then Returns true else Raises TypeError
  | WantedList l => Returns (bool_decide (i ∈ l))
  end.

Definition attr_json (a : option Z) : json :=
  JValue match a with Some z => VInt z | None => VNone end.

(** The loop over [range(0, len(self.signals))], from index [i] on. *)
Fixpoint export_signals (w : wanted) (parts : list string) (i : Z)
         (sigs : list Signal.t) : outcome (list json) :=
  match sigs with
  | [] => Returns []
  | s :: sigs' =>
      obind (is_wanted w i) (fun yes =>
        if yes
        then obind (Signal.to_json_object s parts) (fun j =>
               obind (export_signals w parts (i + 1) sigs') (fun js =>
                 Returns (j :: js)))
        else export_signals w parts (i + 1) sigs')
  end.

Definition to_json_object (self : t) (options : export_options) : outcome json :=
  obind
    (if opt_header options then
       match header self with
       | None => Raises AttributeError
       | Some h =>
           Returns [("header"%string, EdfHeader.to_json_object h);
                    ("number_signals"%string, attr_json (number_signals self));
                    ("number_records"%string, attr_json (number_records self));
                    ("signal_header_size"%string, attr_json (signal_header_size self));
                    ("samples_per_record"%string, attr_json (samples_per_record self));
                    ("record_size"%string, attr_json (record_size self))]
       end
     else Returns [])
    (fun with_header =>
       match opt_slicing_by_index options, opt_signal options with
       | Some w, Some parts =>
           obind (export_signals w parts 0 (signals self)) (fun js =>
             Returns (JDict (with_header ++ [("signals"%string, JList js)])))
       | _, _ => Returns (JDict with_header)
       end).

(** [range(0, length, step)] for a positive [step]. *)
Definition range_by (length step : Z) : list Z :=
  map (fun i => Z.of_nat i * step) (seq 0 (Z.to_nat ((length + step - 1) / step))).

Fixpoint parse_records (blocks : list (list byte)) : M t unit :=
  match blocks with
  | [] => ret tt
  | b :: blocks' => __parse_one_record__ b ;;; parse_records blocks'
  end.

(** [__parse_whole_signal_value_pool__]: the pool is cut at the multiples
    of [record_size] and every piece is decoded.  A [record_size] of zero
    makes [range] raise [ValueError]; a negative one gives no piece. *)
Definition __parse_whole_signal_value_pool__ (samples : list byte) : M t unit :=
  let* self := get in
  let* rs := int_attr (record_size self) in
  if rs =? 0 then raise ValueError
  else
    let indexes :=
      if 0 <? rs then range_by (Z.of_nat (length samples)) rs else [] in
    parse_records
      (map (fun x => slice samples (Some x) (Some (x + rs))) indexes).

End EdfRecording.

(** ** A small recording used to exercise the definitions

    Two signals: a numerical one with two samples per record and an
    annotation-like one (blank transducer type and physical dimension) with
    one sample per record; two data records. *)

Module Fixture.

Definition field (w : nat) (s : string) : list byte :=
  let b := list_byte_of_string s in
  b ++ replicate (w - length b) x20.

Definition header_with (records duration n_signals : string) : list byte :=
  field 8 "0" ++ field 80 "X" ++ field 80 "R" ++ field 8 "01.01.01"
    ++ field 8 "00.00.00" ++ field 8 "768" ++ field 44 ""
    ++ field 8 records ++ field 8 duration ++ field 4 n_signals.

Definition header_bytes : list byte := header_with "2" "1" "2".

Definition metadata_bytes : list byte :=
  field 16 "EEG" ++ field 16 "ANN"
    ++ field 80 "AgCl" ++ field 80 ""
    ++ field 8 "uV" ++ field 8 ""
    ++ field 8 "-100" ++ field 8 "-1"
    ++ field 8 "100" ++ field 8 "1"
    ++ field 8 "-32768" ++ field 8 "-32768"
    ++ field 8 "32767" ++ field 8 "32767"
    ++ field 80 "HP:0.1Hz" ++ field 80 ""
    ++ field 8 "2" ++ field 8 "1"
    ++ field 32 "" ++ field 32 "".

(** [100, -32768 | 5] and [-1, 2 | -32768], least significant byte first. *)
Definition record_bytes : list byte :=
  [x64; x00; x00; x80; x05; x00] ++ [xff; xff; x02; x00; x00; x80].

Definition blob : list byte := header_bytes ++ metadata_bytes ++ record_bytes.

(** The metadata block of a file with a single numerical signal. *)
Definition one_signal_metadata (samples : string) : list byte :=
  field 16 "EEG" ++ field 80 "AgCl" ++ field 8 "uV" ++ field 8 "-100"
    ++ field 8 "100" ++ field 8 "-32768" ++ field 8 "32767"
    ++ field 80 "" ++ field 8 samples ++ field 32 "".

(** One signal that declares no samples per record. *)
Definition zero_samples_blob : list byte :=
  header_with "0" "1" "1" ++ one_signal_metadata "0".

(** One signal with one sample per record: the record [7], followed by a
    single stray byte. *)
Definition truncated_blob : list byte :=
  header_with "2" "1" "1" ++ one_signal_metadata "1" ++ [x07; x00] ++ [x09].

(** No signal; records declared to last two hours. *)
Definition long_duration_blob : list byte := header_with "0" "7200" "0".

(** No signal; a record duration that is not a number. *)
Definition bad_duration_blob : list byte := header_with "0" "abc" "0".

Definition opened (content : list byte) : EdfRecording.t :=
  EdfRecording.set_status (Some EdfRecording.STAGE_OPEN)
    (EdfRecording.set_binary_content (Some content) EdfRecording.__init__).

(** The state after [n] calls of [stream(duration)], when none raised. *)
Fixpoint after (n : nat) (duration : value) (r : EdfRecording.t) : EdfRecording.t :=
  match n with
  | O => r
  | S n' => after n' duration (snd (EdfRecording.stream duration r))
  end.

End Fixture.

(** * Vocabulary of the properties *)

(** ** The byte source *)

(** The bytes the next [__extract__] draws from. *)
Definition pending (r : EdfRecording.t) : list byte :=
  match EdfRecording.binary_content r with
  | Some ((_ :: _) as content) => content
  | _ => default [] (EdfRecording.edf_file r)
  end.

(** Exactly one source is attached: an in-memory buffer without a file,
    or a file without a (non-empty) buffer. *)
Definition single_source (r : EdfRecording.t) : Prop :=
  EdfRecording.edf_file r = None
  \/ EdfRecording.binary_content r = None
  \/ EdfRecording.binary_content r = Some [].

(** The next [__extract__(count)] goes to the open file (no byte is left
    in the in-memory buffer) with a count below [-1], which [read]
    refuses. *)
Definition read_refused (count : Z) (r : EdfRecording.t) : bool :=
  match EdfRecording.binary_content r with
  | Some (_ :: _) => false
  | _ =>
      match EdfRecording.edf_file r with
      | Some _ => count <? -1
      | None => false
      end
  end.

(** Successive calls [stream(d)] for [d] in [durations], up to the first
    one that raises. *)
Fixpoint stream_calls (durations : list value) : M EdfRecording.t unit :=
  match durations with
  | [] => Py.ret tt
  | d :: ds => EdfRecording.stream d ;;; stream_calls ds
  end.

(** ** Record blocks *)

(** The slices of [data] of lengths [counts], taken one after another. *)
Fixpoint split_counts (counts : list Z) (data : list Z) : list (list Z) :=
  match counts with
  | [] => []
  | c :: cs => take (Z.to_nat c) data :: split_counts cs (drop (Z.to_nat c) data)
  end.

(** [counts] are the per-record sample counts of the descriptors [sigs]. *)
Definition counted (sigs : list Signal.t) (counts : list Z) : Prop :=
  Forall2 (fun s c => Signal.number_samples_per_record s = Returns c) sigs counts.

Definition append_records (sigs : list Signal.t) (slices : list (list Z))
  : list Signal.t :=
  zip_with (fun s sl => Signal.add_samples_for_one_record sl s) sigs slices.

(** [sample] is a record block for the geometry [counts] of [r]. *)
Definition record_block_for (r : EdfRecording.t) (counts : list Z)
           (sample : list byte) : Prop :=
  counted (EdfRecording.signals r) counts
  /\ Forall (fun c => 0 <= c) counts
  /\ EdfRecording.samples_per_record r = Some (sum_Z counts)
  /\ Z.of_nat (length sample) = 2 * sum_Z counts.

(** Decoding [sample] gives every descriptor one more record: descriptor
    [i] receives a slice of [counts !! i] integers, and the slices, put
    one after another in channel order, are the decoded block. *)
Definition record_distributed (r : EdfRecording.t) (counts : list Z)
           (sample : list byte) : Prop :=
  exists slices,
    Forall2 (fun c sl => Z.of_nat (length sl) = c) counts slices
    /\ concat slices = decode_h sample
    /\ EdfRecording.__parse_one_record__ sample r
       = (Returns tt,
          EdfRecording.set_signals
            (append_records (EdfRecording.signals r) slices) r).

(** ** Records held by the descriptors *)

(** [s'] is [s] with [m] more records. *)
Definition gained (m : nat) (s s' : Signal.t) : Prop :=
  exists new,
    length new = m
    /\ s' = {| Signal.metadata := Signal.metadata s;
               Signal.samples := Signal.samples s ++ new;
               Signal.scaler := Signal.scaler s |}.

(** Every descriptor holds the same number of records. *)
Definition balanced (sigs : list Signal.t) : Prop :=
  exists n, Forall (fun s => Signal.number_records s = n) sigs.

Definition same_samples (s s' : Signal.t) : Prop :=
  Signal.samples s' = Signal.samples s.

(** The attributes that record decoding only reads. *)
Definition same_geometry (r r' : EdfRecording.t) : Prop :=
  EdfRecording.header r' = EdfRecording.header r
  /\ EdfRecording.number_signals r' = EdfRecording.number_signals r
  /\ EdfRecording.samples_per_record r' = EdfRecording.samples_per_record r
  /\ EdfRecording.record_size r' = EdfRecording.record_size r.

(** The geometry computed by the metadata stage for the per-record
    sample counts [counts]. *)
Definition geometry (counts : list Z) (r : EdfRecording.t) : Prop :=
  counted (EdfRecording.signals r) counts
  /\ EdfRecording.samples_per_record r = Some (sum_Z counts)
  /\ EdfRecording.record_size r = Some (2 * sum_Z counts)
  /\ 0 <= sum_Z counts.

(** [k] whole record blocks are pending and nothing else (with records of
    no byte, no block is). *)
Definition whole_records (counts : list Z) (k : nat) (r : EdfRecording.t) : Prop :=
  (2 * sum_Z counts = 0 /\ k = 0%nat)
  \/ (0 < 2 * sum_Z counts
      /\ Z.of_nat (length (pending r)) = Z.of_nat k * (2 * sum_Z counts)).

(** Every record of [s] holds [c] samples. *)
Definition sized (s : Signal.t) (c : Z) : Prop :=
  Forall (fun rec => Z.of_nat (length rec) = c) (Signal.samples s).

(** The place of a stage in [PARSER_STREAM_STAGES]; [None] comes first. *)
Definition stage_rank (st : option EdfRecording.stage) : nat :=
  match st with
  | None => 0
  | Some EdfRecording.STAGE_OPEN => 1
  | Some EdfRecording.STAGE_HEADER => 2
  | Some EdfRecording.STAGE_METADATA => 3
  | Some EdfRecording.STAGE_PARSING => 4
  | Some EdfRecording.STAGE_DONE => 5
  end.

(** ** The metadata block *)

(** The text of the [w] bytes of the block that start at offset [off]. *)
Definition metadata_chunk (hb : list byte) (off w : Z) : string :=
  byte_array_to_string (take (Z.to_nat w) (drop (Z.to_nat off) hb)).

(** The metadata of descriptor [i] after the fields [todo] have been read
    for [n] signals from a block in which they start at offset [end_]. *)
Fixpoint fields_of (todo : list (string * Z)) (hb : list byte) (n i : Z) (end_ : Z)
         (md : gmap string string) : gmap string string :=
  match todo with
  | [] => md
  | (l, w) :: todo' =>
      fields_of todo' hb n i (end_ + w * n)
        (<[l := metadata_chunk hb (end_ + i * w) w]> md)
  end.

(** ** Formatting *)


(** ** Recordings decoded from the blobs of [Fixture] *)

(** The recording read from [Fixture.blob], header parsed. *)
Definition header_parsed_recording : EdfRecording.t :=
  Fixture.after 1 VNone (Fixture.opened Fixture.blob).

(** The recording read from [Fixture.blob], metadata parsed. *)
Definition two_signal_recording : EdfRecording.t :=
  Fixture.after 2 VNone (Fixture.opened Fixture.blob).

(** The recording read from [Fixture.blob] to its end: the numerical
    signal holds [100, -32768] and [-1, 2], the annotation signal [5] and
    [-32768]. *)
Definition parsed_recording : EdfRecording.t :=
  Fixture.after 3 (VInt 3600) (Fixture.opened Fixture.blob).

Definition numerical_signal : Signal.t :=
  default Signal.__init__ (EdfRecording.signals parsed_recording !! 0%nat).

Definition annotation_signal : Signal.t :=
  default Signal.__init__ (EdfRecording.signals parsed_recording !! 1%nat).

(** The recording read from [Fixture.zero_samples_blob], metadata parsed. *)
Definition zero_samples_recording : EdfRecording.t :=
  Fixture.after 2 VNone (Fixture.opened Fixture.zero_samples_blob).

(** The recording read from [Fixture.truncated_blob] after its only whole
    record has been decoded: one stray byte is pending. *)
Definition truncated_recording : EdfRecording.t :=
  Fixture.after 1 (VInt 1) (Fixture.after 2 VNone (Fixture.opened Fixture.truncated_blob)).

(** [Fixture.blob] with a record duration of zero, metadata parsed. *)
Definition zero_duration_recording : EdfRecording.t :=
  Fixture.after 2 VNone
    (Fixture.opened
       (Fixture.header_with "2" "0" "2" ++ Fixture.metadata_bytes ++ Fixture.record_bytes)).

(** A header whose record count is negative and whose record duration is
    not a number. *)
Definition odd_header : list byte := Fixture.header_with "-5" "abc" "2".

(** ** Stage bookkeeping *)

(** A computation that leaves the stage as it is, whatever its outcome. *)
Definition keeps_status {A} (m : M EdfRecording.t A) : Prop :=
  forall s, EdfRecording.status (snd (m s)) = EdfRecording.status s.

(** A computation that leaves the stage as it is or sets it to
    [STAGE_DONE]. *)
Definition keeps_or_ends {A} (m : M EdfRecording.t A) : Prop :=
  forall s,
    EdfRecording.status (snd (m s)) = EdfRecording.status s
    \/ EdfRecording.status (snd (m s)) = Some EdfRecording.STAGE_DONE.

(** A computation whose result, when there is one, is the final stage. *)
Definition returns_status (m : M EdfRecording.t (option EdfRecording.stage)) : Prop :=
  forall s v, fst (m s) = Returns v -> v = EdfRecording.status (snd (m s)).

(** ** Records of the declared size *)

(** The descriptors of [r] declare the non-negative counts [counts], whose
    sum is [samples_per_record], and every record they hold has the
    declared size. *)
Definition sizes_kept (counts : list Z) (r : EdfRecording.t) : Prop :=
  counted (EdfRecording.signals r) counts
  /\ Forall (fun c => 0 <= c) counts
  /\ EdfRecording.samples_per_record r = Some (sum_Z counts)
  /\ Forall2 sized (EdfRecording.signals r) counts.

(** ** Record blocks of a pool *)

(** The first [k] blocks of [rs] bytes of [bytes]. *)
Fixpoint blocks (k rs : nat) (bytes : list byte) : list (list byte) :=
  match k with
  | O => []
  | S k' => take rs bytes :: blocks k' rs (drop rs bytes)
  end.

(** The descriptors after the record blocks [bs] have been decoded one
    after another for the counts [counts]. *)
Fixpoint decode_blocks (counts : list Z) (bs : list (list byte))
         (sigs : list Signal.t) : list Signal.t :=
  match bs with
  | [] => sigs
  | b :: bs' =>
      decode_blocks counts bs'
        (append_records sigs (split_counts counts (decode_h b)))
  end.

(** ** Export *)

(** The descriptors whose index is a member of [l], in the order of the
    descriptors. *)
Definition chosen (l : list Z) (sigs : list Signal.t) : list Signal.t :=
  map snd (List.filter (fun p => bool_decide (Z.of_nat (fst p) ∈ l))
             (zip (seq 0 (length sigs)) sigs)).

(** The dictionary with the single key ['signals'], for the descriptors
    [sigs] exported with the parts [parts]. *)
Definition signals_json (parts : list string) (sigs : list Signal.t) : outcome json :=
  obind (Signal.mapM (fun s => Signal.to_json_object s parts) sigs) (fun js =>
    Returns (JDict [("signals"%string, JList js)])).

(** The options without ['header'], with ['slicing_by_index'] and
    ['signal']. *)
Definition signals_only (w : EdfRecording.wanted) (parts : list string)
  : EdfRecording.export_options :=
  {| EdfRecording.opt_header := false;
     EdfRecording.opt_slicing_by_index := Some w;
     EdfRecording.opt_signal := Some parts |}.

(** ** The scaler of a descriptor *)

(** A descriptor whose metadata has as many keys as there are metadata
    fields has a scaler. *)
Definition scaler_ready (s : Signal.t) : Prop :=
  size (Signal.metadata s) = length Signal.meta_data_fields ->
  Signal.scaler s <> None.

(** * Properties *)

(** ** Slices and the byte source *)

Section Slices.
Context {A : Type}.
Implicit Types l : list A.

Lemma take_clamped l (n : Z) :
  take (Z.to_nat (Z.min n (Z.of_nat (length l)))) l = take (Z.to_nat n) l.
Proof.
  destruct (Z.le_gt_cases n (Z.of_nat (length l))) as [H | H].
  - now rewrite Z.min_l.
  - rewrite Z.min_r, Nat2Z.id by lia.
    rewrite !take_ge; [reflexivity | lia | lia].
Qed.

Lemma slice_prefix l (n : Z) :
  0 <= n -> slice l None (Some n) = take (Z.to_nat n) l.
Proof.
  intros Hn. unfold slice, slice_bound.
  destruct (Z.ltb_spec n 0); [lia |].
  change (Z.to_nat 0) with 0%nat. rewrite drop_0, Z.sub_0_r.
  apply take_clamped.
Qed.

Lemma slice_suffix l (n : Z) :
  0 <= n -> slice l (Some n) None = drop (Z.to_nat n) l.
Proof.
  intros Hn. unfold slice, slice_bound.
  destruct (Z.ltb_spec n 0); [lia |].
  destruct (Z.le_gt_cases n (Z.of_nat (length l))) as [H1 | H1].
  - rewrite Z.min_l by lia. apply take_ge. rewrite length_drop. lia.
  - rewrite Z.min_r by lia. rewrite Nat2Z.id.
    rewrite !drop_ge by lia. apply take_nil.
Qed.

Lemma slice_between l (s e : Z) :
  0 <= s -> s <= e ->
  slice l (Some s) (Some e) = take (Z.to_nat (e - s)) (drop (Z.to_nat s) l).
Proof.
  intros Hs He. unfold slice, slice_bound.
  destruct (Z.ltb_spec s 0); [lia |]. destruct (Z.ltb_spec e 0); [lia |].
  set (len := Z.of_nat (length l)).
  destruct (Z.le_gt_cases s len) as [H1 | H1].
  - rewrite (Z.min_l s) by lia.
    destruct (Z.le_gt_cases e len) as [H2 | H2].
    + now rewrite Z.min_l by lia.
    + rewrite Z.min_r by lia.
      rewrite !take_ge; [reflexivity | |]; rewrite length_drop; lia.
  - rewrite !Z.min_r by lia. rewrite Z.sub_diag.
    rewrite !drop_ge by lia. now rewrite !take_nil.
Qed.
End Slices.

Section Source.
Import EdfRecording.

Lemma extract_returns (n : Z) (r : t) :
  0 <= n ->
  exists r', __extract__ (Some n) r = (Returns (take (Z.to_nat n) (pending r)), r')
    /\ status r' = status r /\ header r' = header r
    /\ number_signals r' = number_signals r
    /\ samples_per_record r' = samples_per_record r
    /\ record_size r' = record_size r
    /\ signals r' = signals r
    /\ (single_source r ->
        single_source r' /\ pending r' = drop (Z.to_nat n) (pending r)).
Proof.
  intros Hn. unfold __extract__, pending, single_source.
  destruct (binary_content r) as [[| b content] |] eqn:Hb.
  - destruct (edf_file r) as [f |] eqn:Hf; cbn.
    + destruct (Z.ltb_spec n (-1)); [lia |].
      destruct (Z.ltb_spec n 0); [lia |].
      eexists; repeat split; cbn; rewrite ?Hb; auto.
    + rewrite take_nil.
      eexists; repeat split; rewrite ?Hb, ?Hf; auto.
      cbn. now rewrite drop_nil.
  - rewrite slice_prefix, slice_suffix by lia.
    eexists; split; [reflexivity |]. cbn.
    do 6 (split; [reflexivity |]).
    intros [Hf | [Hx | Hx]]; try discriminate.
    split; [now left |]. rewrite Hf.
    now destruct (drop (Z.to_nat n) (b :: content)).
  - destruct (edf_file r) as [f |] eqn:Hf; cbn.
    + destruct (Z.ltb_spec n (-1)); [lia |].
      destruct (Z.ltb_spec n 0); [lia |].
      eexists; repeat split; cbn; rewrite ?Hb; auto.
    + rewrite take_nil.
      eexists; repeat split; rewrite ?Hb, ?Hf; auto.
      cbn. now rewrite drop_nil.
Qed.
End Source.

(** ** Distribution of one record block *)

Section Distribution.
Import EdfRecording.

Lemma decode_h_length (n : nat) (buf : list byte) :
  length buf = (2 * n)%nat -> length (decode_h buf) = n.
Proof.
  revert buf. induction n as [| n IH]; intros buf Hlen.
  - now destruct buf.
  - destruct buf as [| lo [| hi rest]]; cbn in Hlen; try lia.
    cbn. f_equal. apply IH. lia.
Qed.

Lemma sum_Z_cons (c : Z) (counts : list Z) :
  sum_Z (c :: counts) = c + sum_Z counts.
Proof. reflexivity. Qed.

Lemma sum_Z_nonneg (counts : list Z) :
  Forall (fun c => 0 <= c) counts -> 0 <= sum_Z counts.
Proof. induction 1; rewrite ?sum_Z_cons; [reflexivity | lia]. Qed.

Lemma distribute_split (data : list Z) :
  forall sigs counts start,
    counted sigs counts -> Forall (fun c => 0 <= c) counts -> 0 <= start ->
    distribute data start sigs
    = (Returns tt,
       append_records sigs (split_counts counts (drop (Z.to_nat start) data))).
Proof.
  intros sigs counts start Hc. revert start.
  induction Hc as [| s c sigs counts Hs Hc IH]; intros start Hpos Hstart.
  - reflexivity.
  - inversion Hpos as [| ? ? Hc0 Hpos']; subst.
    cbn [distribute]. rewrite Hs.
    rewrite (IH (start + c)) by (auto; lia).
    rewrite slice_between by lia.
    cbn [split_counts append_records zip_with].
    rewrite drop_drop.
    replace (start + c - start) with c by lia.
    replace (Z.to_nat (start + c)) with (Z.to_nat start + Z.to_nat c)%nat by lia.
    reflexivity.
Qed.

Lemma split_counts_lengths (counts : list Z) :
  forall data,
    Forall (fun c => 0 <= c) counts ->
    sum_Z counts <= Z.of_nat (length data) ->
    Forall2 (fun c sl => Z.of_nat (length sl) = c) counts (split_counts counts data).
Proof.
  induction counts as [| c cs IH]; intros data Hpos Hlen; cbn.
  - constructor.
  - inversion Hpos as [| ? ? Hc Hpos']; subst. rewrite sum_Z_cons in Hlen.
    pose proof (sum_Z_nonneg cs Hpos').
    constructor.
    + rewrite length_take. lia.
    + apply IH; [assumption |]. rewrite length_drop. lia.
Qed.

Lemma split_counts_concat (counts : list Z) :
  forall data,
    Forall (fun c => 0 <= c) counts ->
    Z.of_nat (length data) = sum_Z counts ->
    concat (split_counts counts data) = data.
Proof.
  induction counts as [| c cs IH]; intros data Hpos Hlen.
  - destruct data; [reflexivity | cbn in Hlen; lia].
  - inversion Hpos as [| ? ? Hc Hpos']; subst.
    pose proof (sum_Z_nonneg cs Hpos').
    rewrite sum_Z_cons in Hlen. cbn [split_counts concat].
    rewrite IH; [apply take_drop | assumption |].
    rewrite length_drop. lia.
Qed.

(** Slice [i] starts where the counts of the earlier descriptors end. *)
Lemma split_counts_lookup (counts : list Z) :
  forall data i c,
    Forall (fun c => 0 <= c) counts ->
    counts !! i = Some c ->
    split_counts counts data !! i
    = Some (take (Z.to_nat c) (drop (Z.to_nat (sum_Z (take i counts))) data)).
Proof.
  induction counts as [| c0 cs IH]; intros data i c Hpos Hi; [discriminate |].
  inversion Hpos as [| ? ? Hc Hpos']; subst.
  destruct i as [| i].
  - cbn in *. now injection Hi as ->.
  - cbn [split_counts take]. rewrite sum_Z_cons. cbn in Hi |- *.
    rewrite (IH _ _ _ Hpos' Hi), drop_drop.
    pose proof (sum_Z_nonneg (take i cs) (Forall_take _ _ _ Hpos')).
    do 3 f_equal. lia.
Qed.

Lemma parse_one_record_split (r : t) (counts : list Z) (sample : list byte) :
  record_block_for r counts sample ->
  0 < sum_Z counts ->
  __parse_one_record__ sample r
  = (Returns tt,
     set_signals (append_records (signals r) (split_counts counts (decode_h sample))) r).
Proof.
  intros (Hc & Hpos & Hspr & Hlen) Hsum.
  destruct sample as [| b sample']; [cbn in Hlen; lia |].
  unfold __parse_one_record__, bind, get, int_attr, lift.
  rewrite Hspr. cbn [ret]. unfold unpack_h.
  rewrite Z.max_l by lia. rewrite (proj2 (Z.eqb_eq _ _) Hlen).
  rewrite (distribute_split _ _ counts 0) by (auto; lia).
  reflexivity.
Qed.
End Distribution.

(** ** Record slots *)

(** Unfold the monadic plumbing of a method body. *)
Ltac run_monad :=
  unfold Py.bind, Py.get, Py.lift, Py.ret, Py.raise, EdfRecording.assign,
    EdfRecording.int_attr, EdfRecording.return_status;
  cbn beta iota.

Ltac run_monad_in H :=
  unfold Py.bind, Py.get, Py.lift, Py.ret, Py.raise, EdfRecording.assign,
    EdfRecording.int_attr, EdfRecording.return_status in H;
  cbn beta iota in H.

Section Slots.
Import EdfRecording.

Lemma gained_refl (s : Signal.t) : gained 0 s s.
Proof. exists []. split; [reflexivity |]. destruct s; cbn. now rewrite app_nil_r. Qed.

Lemma gained_trans (a b : nat) (s1 s2 s3 : Signal.t) :
  gained a s1 s2 -> gained b s2 s3 -> gained (a + b) s1 s3.
Proof.
  intros (n1 & H1 & ->) (n2 & H2 & ->). exists (n1 ++ n2).
  split; [rewrite length_app; lia |]. cbn. now rewrite app_assoc.
Qed.

Lemma gained_one (sl : list Z) (s : Signal.t) :
  gained 1 s (Signal.add_samples_for_one_record sl s).
Proof. now exists [sl]. Qed.

Lemma gained_counted (m : nat) (sigs sigs' : list Signal.t) (counts : list Z) :
  Forall2 (gained m) sigs sigs' -> counted sigs counts -> counted sigs' counts.
Proof.
  intros Hg. revert counts.
  induction Hg as [| s s' sigs sigs' (new & _ & ->) Hg IH]; intros counts Hc;
    inversion Hc; subst; constructor; [assumption |].
  now apply IH.
Qed.

Lemma Forall2_gained_refl (sigs : list Signal.t) : Forall2 (gained 0) sigs sigs.
Proof. induction sigs; constructor; auto using gained_refl. Qed.

Lemma Forall2_gained_trans (a b : nat) (l1 l2 l3 : list Signal.t) :
  Forall2 (gained a) l1 l2 -> Forall2 (gained b) l2 l3 ->
  Forall2 (gained (a + b)) l1 l3.
Proof.
  intros H. revert l3.
  induction H; intros l3 H'; inversion H'; subst; constructor;
    eauto using gained_trans.
Qed.

Lemma gained_balanced (m : nat) (sigs sigs' : list Signal.t) :
  Forall2 (gained m) sigs sigs' -> balanced sigs -> balanced sigs'.
Proof.
  intros Hg [n Hn]. exists (n + m)%nat.
  induction Hg as [| s s' sigs sigs' (new & Hlen & ->) Hg IH]; constructor.
  - inversion Hn; subst. unfold Signal.number_records. cbn.
    rewrite length_app. unfold Signal.number_records in *. lia.
  - inversion Hn; subst. auto.
Qed.

(** Whatever the counts are, a distribution that returns has given every
    descriptor exactly one record. *)
Lemma distribute_returns (data : list Z) :
  forall sigs start sigs',
    distribute data start sigs = (Returns tt, sigs') ->
    Forall2 (gained 1) sigs sigs'.
Proof.
  induction sigs as [| s sigs IH]; intros start sigs' H; cbn in H.
  - injection H as <-. constructor.
  - destruct (Signal.number_samples_per_record s) as [c | e]; [| discriminate].
    destruct (distribute data (start + c) sigs) as [o rest] eqn:Hd.
    injection H as -> <-.
    constructor; [apply gained_one | eauto].
Qed.

Lemma distribute_counted (data : list Z) :
  forall sigs counts start,
    counted sigs counts ->
    exists sigs', distribute data start sigs = (Returns tt, sigs').
Proof.
  intros sigs counts start Hc. revert start.
  induction Hc as [| s c sigs counts Hs Hc IH]; intros start; cbn.
  - eauto.
  - rewrite Hs. destruct (IH (start + c)) as [rest ->]. eauto.
Qed.

Lemma extract_any (count : option Z) (r : t) :
  exists o r',
    __extract__ count r = (o, r')
    /\ status r' = status r /\ signals r' = signals r /\ same_geometry r r'.
Proof.
  unfold __extract__, same_geometry.
  destruct (binary_content r) as [[| b content] |];
    try destruct (edf_file r) as [f |];
    try destruct (file_read f count) as [[got f'] | e];
    do 2 eexists; repeat split.
Qed.

(** A slot that returns has given every descriptor the same number of
    records: one, or none. *)
Lemma read_slot_returns (count : option Z) (r r' : t) :
  read_slot count r = (Returns tt, r') ->
  exists m, Forall2 (gained m) (signals r) (signals r').
Proof.
  unfold read_slot, bind.
  destruct (extract_any count r) as (o & r1 & -> & _ & Hsig & _).
  rewrite <- Hsig. clear Hsig.
  destruct o as [bs | e]; [| discriminate].
  destruct bs as [| b bs]; cbn.
  - intros H. injection H as <-. exists 0%nat. apply Forall2_gained_refl.
  - unfold get, int_attr, lift.
    destruct (samples_per_record r1) as [n |]; cbn; [| discriminate].
    destruct (unpack_h n (b :: bs)) as [data | e]; [| discriminate].
    destruct (distribute data 0 (signals r1)) as [o sigs'] eqn:Hd.
    intros H. injection H as -> <-. cbn.
    exists 1%nat. eapply distribute_returns; eauto.
Qed.

Lemma read_slots_returns (count : option Z) :
  forall n r r',
    read_slots n count r = (Returns tt, r') ->
    exists m, Forall2 (gained m) (signals r) (signals r').
Proof.
  induction n as [| n IH]; intros r r' H; cbn in H.
  - injection H as <-. exists 0%nat. apply Forall2_gained_refl.
  - unfold bind in H.
    destruct (read_slot count r) as [[[] | e] r1] eqn:H1; [| discriminate].
    destruct (read_slot_returns _ _ _ H1) as [a Ha].
    destruct (IH _ _ H) as [b Hb].
    exists (a + b)%nat. eapply Forall2_gained_trans; eauto.
Qed.
End Slots.

Section WholeRecords.
Import EdfRecording.

Variable counts : list Z.
Let rs : Z := 2 * sum_Z counts.

Lemma geometry_kept (m : nat) (r r' : t) :
  geometry counts r -> same_geometry r r' ->
  Forall2 (gained m) (signals r) (signals r') -> geometry counts r'.
Proof.
  intros (Hc & Hs & Hr & Hp) (_ & _ & Hs' & Hr') Hg.
  repeat split; try congruence; eauto using gained_counted.
Qed.

(** A slot that finds a whole block decodes it. *)
Lemma read_slot_full (r : t) :
  geometry counts r -> single_source r ->
  0 < rs -> rs <= Z.of_nat (length (pending r)) ->
  exists r',
    read_slot (Some rs) r = (Returns tt, r')
    /\ status r' = status r /\ same_geometry r r'
    /\ single_source r' /\ pending r' = drop (Z.to_nat rs) (pending r)
    /\ Forall2 (gained 1) (signals r) (signals r').
Proof.
  intros (Hc & Hs & Hr & Hp) Hsrc Hrs Hlen.
  destruct (extract_returns rs r ltac:(lia))
    as (r1 & He & Hst & Hh & Hn & Hs1 & Hr1 & Hsig & Hp1).
  destruct (Hp1 Hsrc) as [Hsrc1 Hpend1].
  unfold read_slot, bind. rewrite He.
  assert (Hl : length (take (Z.to_nat rs) (pending r)) = Z.to_nat rs)
    by (rewrite length_take; lia).
  destruct (take (Z.to_nat rs) (pending r)) as [| b sample] eqn:Hsample;
    [cbn in Hl; lia |].
  cbn [length Nat.ltb Nat.leb __parse_one_record__].
  run_monad. rewrite Hs1, Hs. run_monad.
  unfold unpack_h. rewrite Z.max_l by lia.
  replace (Z.of_nat (length (b :: sample)) =? 2 * sum_Z counts) with true
    by (symmetry; apply Z.eqb_eq; fold rs; lia).
  destruct (distribute_counted (decode_h (b :: sample)) (signals r1) counts 0)
    as [sigs' Hd]; [now rewrite Hsig |].
  rewrite Hd. eexists; split; [reflexivity |].
  unfold same_geometry. cbn.
  repeat split; try assumption.
  rewrite <- Hsig. eapply distribute_returns; eauto.
Qed.

(** A slot that reads nothing ends the stream. *)
Lemma read_slot_nothing (r : t) :
  single_source r -> 0 <= rs -> pending r = [] \/ rs = 0 ->
  exists r',
    read_slot (Some rs) r = (Returns tt, r')
    /\ status r' = Some STAGE_DONE /\ same_geometry r r'
    /\ single_source r' /\ pending r' = pending r
    /\ signals r' = signals r.
Proof.
  intros Hsrc Hrs Hnone.
  destruct (extract_returns rs r Hrs)
    as (r1 & He & Hst & Hh & Hn & Hs1 & Hr1 & Hsig & Hp1).
  destruct (Hp1 Hsrc) as [Hsrc1 Hpend1].
  unfold read_slot, bind. rewrite He.
  assert (Hnil : take (Z.to_nat rs) (pending r) = []).
  { destruct Hnone as [-> | ->]; [apply take_nil | reflexivity]. }
  rewrite Hnil. cbn.
  eexists; split; [reflexivity |]. unfold same_geometry. cbn.
  repeat split; try assumption.
  change (pending r1 = pending r).
  rewrite Hpend1. destruct Hnone as [-> | ->]; [apply drop_nil | reflexivity].
Qed.

Lemma read_slots_whole :
  forall (n k : nat) (r : t),
    geometry counts r -> single_source r -> whole_records counts k r ->
    exists r',
      read_slots n (Some rs) r = (Returns tt, r')
      /\ status r' = (if (n <=? k)%nat then status r else Some STAGE_DONE)
      /\ same_geometry r r'
      /\ single_source r'
      /\ pending r' = drop (Nat.min n k * Z.to_nat rs) (pending r)
      /\ Forall2 (gained (Nat.min n k)) (signals r) (signals r').
Proof.
  induction n as [| n IH]; intros k r Hgeo Hsrc Hwhole.
  - exists r. cbn. unfold same_geometry.
    repeat split; auto using Forall2_gained_refl.
  - assert (Hrs : 0 <= rs) by (destruct Hgeo as (_ & _ & _ & ?); unfold rs; lia).
    cbn [read_slots]. unfold bind.
    destruct k as [| k].
    + (* nothing left: this slot and the later ones end the stream *)
      assert (Hnone : pending r = [] \/ rs = 0).
      { destruct Hwhole as [[? _] | [_ Hlen]]; [now right | left].
        destruct (pending r); [reflexivity | cbn in Hlen; lia]. }
      destruct (read_slot_nothing r Hsrc Hrs Hnone)
        as (r1 & -> & Hst1 & Hgeo1 & Hsrc1 & Hpend1 & Hsig1).
      assert (Hwhole1 : whole_records counts 0 r1).
      { destruct Hwhole as [? | [? Hlen]]; [now left | right].
        now rewrite Hpend1. }
      assert (Hg1 : geometry counts r1).
      { eapply (geometry_kept 0); eauto. rewrite Hsig1.
        apply Forall2_gained_refl. }
      destruct (IH 0%nat r1 Hg1 Hsrc1 Hwhole1)
        as (r' & -> & Hst & Hgeo' & Hsrc' & Hpend' & Hsig').
      exists r'. split; [reflexivity |].
      rewrite Nat.min_0_r in *. cbn [Nat.mul drop] in *.
      split; [rewrite Hst, Hst1; now destruct (n <=? 0)%nat |].
      split; [unfold same_geometry in *; intuition congruence |].
      split; [assumption |].
      split; [congruence |]. now rewrite <- Hsig1.
    + (* a whole block is pending *)
      destruct Hwhole as [[_ ?] | [Hpos Hlen]]; [discriminate |].
      destruct (read_slot_full r Hgeo Hsrc Hpos ltac:(nia))
        as (r1 & -> & Hst1 & Hgeo1 & Hsrc1 & Hpend1 & Hsig1).
      assert (Hwhole1 : whole_records counts k r1).
      { right. split; [assumption |]. rewrite Hpend1, length_drop. nia. }
      assert (Hg1 : geometry counts r1) by (eapply geometry_kept; eauto).
      destruct (IH k r1 Hg1 Hsrc1 Hwhole1)
        as (r' & -> & Hst & Hgeo' & Hsrc' & Hpend' & Hsig').
      exists r'. split; [reflexivity |].
      split; [rewrite Hst, Hst1; reflexivity |].
      split; [unfold same_geometry in *; intuition congruence |].
      split; [assumption |].
      split.
      * rewrite Hpend', Hpend1, drop_drop. f_equal; cbn; lia.
      * change (Nat.min (S n) (S k)) with (1 + Nat.min n k)%nat.
        eapply Forall2_gained_trans; eauto.
Qed.
End WholeRecords.

(** ** The stages of [stream] *)

Section Stages.
Import EdfRecording.

Lemma bind_returns {S A B} (m : M S A) (k : A -> M S B) (s s' : S) (b : B) :
  Py.bind m k s = (Returns b, s') ->
  exists a s1, m s = (Returns a, s1) /\ k a s1 = (Returns b, s').
Proof.
  unfold Py.bind. destruct (m s) as [[a | e] s1]; [eauto | discriminate].
Qed.

Lemma records_to_read_state (d : value) (r : t) :
  snd (records_to_read d r) = r.
Proof.
  unfold records_to_read, header_get. run_monad.
  destruct (header r) as [h |]; [| reflexivity].
  destruct (isclose_zero (EdfHeader.get h "recordDuration")) as [[] | e];
    reflexivity.
Qed.

Lemma records_to_read_status (d : value) (st : option stage) (r : t) :
  fst (records_to_read d (set_status st r)) = fst (records_to_read d r).
Proof.
  unfold records_to_read, header_get. run_monad. cbn [header set_status].
  destruct (header r) as [h |]; [| reflexivity].
  destruct (isclose_zero (EdfHeader.get h "recordDuration")) as [[] | e];
    reflexivity.
Qed.

(** A call in the metadata or parsing stage: the stage becomes
    [STAGE_PARSING], then [records_to_read] slots are read. *)
Lemma stream_parsing (d : value) (r : t) :
  status r = Some STAGE_METADATA \/ status r = Some STAGE_PARSING ->
  stream d r
  = match fst (records_to_read d r) with
    | Returns n =>
        (read_slots (Z.to_nat n) (record_size r) ;;; return_status)
          (set_status (Some STAGE_PARSING) r)
    | Raises e => (Raises e, set_status (Some STAGE_PARSING) r)
    end.
Proof.
  intros Hst. unfold stream. unfold Py.bind at 1, Py.get. cbn beta iota.
  assert (Hbody :
    (assign (set_status (Some STAGE_PARSING)) ;;;
     (let* n := records_to_read d in
      read_slots (Z.to_nat n) (record_size r) ;;; return_status)) r
    = match fst (records_to_read d r) with
      | Returns n =>
          (read_slots (Z.to_nat n) (record_size r) ;;; return_status)
            (set_status (Some STAGE_PARSING) r)
      | Raises e => (Raises e, set_status (Some STAGE_PARSING) r)
      end).
  { unfold Py.bind at 1, assign. cbn beta iota. unfold Py.bind at 1.
    rewrite <- (records_to_read_status d (Some STAGE_PARSING) r).
    pose proof (records_to_read_state d (set_status (Some STAGE_PARSING) r)) as Hs.
    destruct (records_to_read d (set_status (Some STAGE_PARSING) r)) as [[n | e] r1];
      cbn in Hs |- *; now subst r1. }
  destruct Hst as [-> | ->]; exact Hbody.
Qed.

(** *** Signals keep their records through the header and metadata stages *)

Lemma set_metadata_state (l m : string) (s : Signal.t) :
  let s' := snd (Signal.set_metadata l m s) in
  Signal.metadata s' = <[l := m]> (Signal.metadata s)
  /\ Signal.samples s' = Signal.samples s.
Proof.
  unfold Signal.set_metadata. cbn zeta.
  destruct (_ =? _)%nat; [| now split].
  match goal with |- context [match ?o with Returns _ => _ | Raises _ => _ end] =>
    destruct o end; now split.
Qed.

Lemma set_metadata_each_samples (l : string) :
  forall sigs ms, Forall2 same_samples sigs (snd (set_metadata_each l sigs ms)).
Proof.
  assert (Hrefl : forall sigs, Forall2 same_samples sigs sigs)
    by (induction sigs; constructor; auto; reflexivity).
  induction sigs as [| s sigs IH]; intros ms; [constructor |].
  destruct ms as [| m ms]; cbn; [apply Hrefl |].
  pose proof (set_metadata_state l m s) as [_ Hs]. cbn zeta in Hs.
  destruct (Signal.set_metadata l m s) as [[[] | e] s']; cbn in Hs.
  - specialize (IH ms).
    destruct (set_metadata_each l sigs ms) as [o rest]. cbn in *.
    constructor; assumption.
  - constructor; [assumption | apply Hrefl].
Qed.

Lemma same_samples_balanced (sigs sigs' : list Signal.t) :
  Forall2 same_samples sigs sigs' -> balanced sigs -> balanced sigs'.
Proof.
  intros H [n Hn]. exists n.
  induction H as [| s s' sigs sigs' Hs H IH]; constructor;
    inversion Hn; subst; auto.
  unfold Signal.number_records. now rewrite Hs.
Qed.

Lemma parse_fields_samples (hb : list byte) :
  forall todo end_ r,
    Forall2 same_samples (signals r) (signals (snd (parse_fields todo hb end_ r))).
Proof.
  assert (Hrefl : forall sigs, Forall2 same_samples sigs sigs)
    by (induction sigs; constructor; auto; reflexivity).
  induction todo as [| [l w] todo IH]; intros end_ r; cbn [parse_fields].
  - apply Hrefl.
  - run_monad.
    destruct (number_signals r) as [n |]; run_monad; [| apply Hrefl].
    destruct (unpack_s _ _) as [chunks | e]; [| apply Hrefl].
    pose proof (set_metadata_each_samples l (signals r)
                  (map byte_array_to_string chunks)) as H1.
    destruct (set_metadata_each l (signals r) _) as [[[] | e] sigs1]; cbn in H1.
    + specialize (IH (end_ + w * n) (set_signals sigs1 r)). cbn [signals set_signals] in IH.
      revert IH. generalize (signals (snd (parse_fields todo hb (end_ + w * n)
                                             (set_signals sigs1 r)))).
      intros sigs2 H2. clear - H1 H2.
      revert sigs2 H2. induction H1; intros sigs2 H2; inversion H2; subst;
        constructor; unfold same_samples in *; [congruence | auto].
    + exact H1.
Qed.
End Stages.

(** ** Every call keeps the descriptors balanced *)

Ltac bind_inv H :=
  let a := fresh "a" in
  let s := fresh "s" in
  let H1 := fresh "E" in
  apply bind_returns in H as (a & s & H1 & H).

Section Balance.
Import EdfRecording.

Lemma balanced_fresh (n : nat) : balanced (replicate n Signal.__init__).
Proof. exists 0%nat. induction n; constructor; auto. Qed.

Lemma stream_open_signals (d : value) (r r' : t) (v : option stage) :
  status r = Some STAGE_OPEN ->
  stream d r = (Returns v, r') ->
  exists n, signals r' = replicate n Signal.__init__.
Proof.
  intros Hst H. unfold stream in H.
  unfold Py.bind at 1, Py.get in H. cbn beta iota in H. rewrite Hst in H.
  repeat bind_inv H.
  unfold return_status in H. injection H as _ <-.
  match goal with
  | E : assign (set_signals _) _ = _ |- _ => unfold assign in E; injection E as _ <-
  end.
  eexists. reflexivity.
Qed.

Lemma stream_header_samples (d : value) (r r' : t) (v : option stage) :
  status r = Some STAGE_HEADER ->
  stream d r = (Returns v, r') ->
  Forall2 same_samples (signals r) (signals r').
Proof.
  intros Hst H. unfold stream in H.
  unfold Py.bind at 1, Py.get in H. cbn beta iota in H. rewrite Hst in H.
  do 3 bind_inv H.
  unfold return_status in H. injection H as _ <-.
  unfold assign in E. injection E as _ <-.
  destruct (extract_any (signal_header_size r) (set_status (Some STAGE_METADATA) r))
    as (o & r1 & He & _ & Hsig & _).
  rewrite He in E0. injection E0 as -> <-.
  unfold __parse_metadata__ in E1.
  bind_inv E1. do 3 bind_inv E1.
  unfold assign in E1, E3. injection E1 as <-. injection E3 as _ <-.
  unfold Py.lift in E2. injection E2 as _ <-.
  unfold Py.get in E0. injection E0 as _ <-.
  cbn [signals set_record_size set_samples_per_record].
  pose proof (parse_fields_samples a0
                (zip SIGNAL_HEADER_FIELDS SIGNAL_HEADER_FIELDS_SIZE) 0 r1) as Hp.
  rewrite E in Hp. cbn [snd] in Hp.
  cbn [signals set_status] in Hsig. subst.
  cbn [signals set_record_size set_samples_per_record]. now rewrite <- Hsig.
Qed.

Lemma stream_balanced (d : value) (r r' : t) (v : option stage) :
  balanced (signals r) ->
  stream d r = (Returns v, r') ->
  balanced (signals r').
Proof.
  intros Hb H.
  destruct (status r) as [[] |] eqn:Hst.
  - destruct (stream_open_signals d r r' v Hst H) as [n ->].
    apply balanced_fresh.
  - eapply same_samples_balanced; eauto using stream_header_samples.
  - rewrite stream_parsing in H by auto.
    destruct (fst (records_to_read d r)) as [n | e]; [| discriminate].
    bind_inv H. unfold return_status in H. injection H as _ <-.
    destruct a. apply read_slots_returns in E as [m Hm].
    eapply gained_balanced; eauto.
  - rewrite stream_parsing in H by auto.
    destruct (fst (records_to_read d r)) as [n | e]; [| discriminate].
    bind_inv H. unfold return_status in H. injection H as _ <-.
    destruct a. apply read_slots_returns in E as [m Hm].
    eapply gained_balanced; eauto.
  - unfold stream in H. unfold Py.bind at 1, Py.get in H. cbn beta iota in H.
    rewrite Hst in H. injection H as _ <-. assumption.
  - unfold stream in H. unfold Py.bind at 1, Py.get in H. cbn beta iota in H.
    rewrite Hst in H. injection H as _ <-. assumption.
Qed.

Lemma stream_calls_balanced (durations : list value) :
  forall r r',
    balanced (signals r) ->
    stream_calls durations r = (Returns tt, r') ->
    balanced (signals r').
Proof.
  induction durations as [| d ds IH]; intros r r' Hb H; cbn in H.
  - injection H as <-. assumption.
  - bind_inv H. eauto using stream_balanced.
Qed.
End Balance.

(** ** The column-major metadata block *)

Section ColumnMajor.
Import EdfRecording.

Lemma split_widths_length (ws : list Z) :
  forall buf, length (split_widths ws buf) = length ws.
Proof. induction ws; intros buf; cbn; auto. Qed.

Lemma split_widths_replicate (w : nat) :
  forall (n i : nat) (buf : list byte),
    (i < n)%nat ->
    split_widths (replicate n (Z.of_nat w)) buf !! i
    = Some (take w (drop (i * w) buf)).
Proof.
  induction n as [| n IH]; intros i buf Hi; [lia |].
  cbn [replicate split_widths]. rewrite Nat2Z.id.
  destruct i as [| i]; cbn [lookup list_lookup].
  - reflexivity.
  - change (split_widths (replicate n (Z.of_nat w)) (drop w buf) !! i
            = Some (take w (drop (S i * w) buf))).
    rewrite IH by lia. rewrite drop_drop. do 3 f_equal; lia.
Qed.

Lemma take_drop_take {A} (l : list A) (w m t : nat) :
  (m + w <= t)%nat -> take w (drop m (take t l)) = take w (drop m l).
Proof.
  intros H. replace t with (m + (t - m))%nat by lia.
  rewrite <- take_drop_commute, take_take. f_equal. lia.
Qed.

Lemma set_metadata_each_length (l : string) :
  forall sigs ms, length (snd (set_metadata_each l sigs ms)) = length sigs.
Proof.
  intros sigs ms. symmetry.
  eapply Forall2_length, set_metadata_each_samples.
Qed.

Lemma set_metadata_each_returns (l : string) :
  forall sigs ms sigs',
    set_metadata_each l sigs ms = (Returns tt, sigs') ->
    forall i s m,
      sigs !! i = Some s -> ms !! i = Some m ->
      exists s', sigs' !! i = Some s'
        /\ Signal.metadata s' = <[l := m]> (Signal.metadata s).
Proof.
  induction sigs as [| s0 sigs IH]; intros ms sigs' H i s m Hs Hm; [discriminate |].
  destruct ms as [| m0 ms]; [discriminate |].
  cbn [set_metadata_each] in H.
  pose proof (set_metadata_state l m0 s0) as [Hmd _]. cbn zeta in Hmd.
  destruct (Signal.set_metadata l m0 s0) as [[[] | e] s0']; [| discriminate].
  destruct (set_metadata_each l sigs ms) as [o rest] eqn:Hrest.
  injection H as -> <-.
  destruct i as [| i]; cbn in Hs, Hm |- *.
  - injection Hs as <-. injection Hm as <-. eauto.
  - eapply IH; eauto.
Qed.

Lemma parse_fields_returns (hb : list byte) (n : nat) :
  forall todo (end_ : Z) (r r' : t),
    Forall (fun lw => 0 <= snd lw) todo ->
    0 <= end_ ->
    number_signals r = Some (Z.of_nat n) ->
    length (signals r) = n ->
    parse_fields todo hb end_ r = (Returns tt, r') ->
    (exists sigs', r' = set_signals sigs' r)
    /\ length (signals r') = n
    /\ forall i s,
        signals r !! i = Some s ->
        exists s', signals r' !! i = Some s'
          /\ Signal.metadata s'
             = fields_of todo hb (Z.of_nat n) (Z.of_nat i) end_ (Signal.metadata s).
Proof.
  induction todo as [| [l w] todo IH]; intros end_ r r' Hw Hend Hn Hlen H.
  - cbn in H. injection H as <-.
    split; [exists (signals r); now destruct r |].
    split; [assumption |]. intros i s Hs. eauto.
  - apply Forall_cons in Hw as [Hw0 Hw']. cbn [snd] in Hw0. subst n.
    cbn [parse_fields] in H. run_monad_in H. rewrite Hn in H. run_monad_in H.
    destruct (unpack_s _ _) as [chunks | e] eqn:Hu; [| discriminate].
    unfold unpack_s in Hu.
    destruct (_ =? _) eqn:Hsz in Hu; [| discriminate].
    injection Hu as <-.
    rewrite Nat2Z.id in *.
    pose proof (set_metadata_each_length l (signals r)
      (map byte_array_to_string
         (split_widths (replicate (length (signals r)) w)
            (slice hb (Some end_) (Some (end_ + w * Z.of_nat (length (signals r)))))))) as Hl1.
    destruct (set_metadata_each l (signals r) _) as [[[] | e] sigs1] eqn:He;
      [| discriminate].
    cbn [snd] in Hl1.
    destruct (IH (end_ + w * Z.of_nat (length (signals r))) (set_signals sigs1 r) r'
                Hw' ltac:(nia) Hn Hl1 H) as ((sigs' & ->) & Hlen' & Hmd).
    split; [exists sigs'; now destruct r |].
    split; [assumption |].
    intros i s Hs.
    assert (Hi : (i < length (signals r))%nat) by (eapply lookup_lt_Some; eauto).
    (* the chunk handed to descriptor [i] *)
    assert (Hchunk :
      map byte_array_to_string
        (split_widths (replicate (length (signals r)) w)
           (slice hb (Some end_) (Some (end_ + w * Z.of_nat (length (signals r))))))
        !! i = Some (metadata_chunk hb (end_ + Z.of_nat i * w) w)).
    { rewrite list_lookup_fmap.
      rewrite <- (Z2Nat.id w) at 1 by assumption.
      rewrite split_widths_replicate by assumption. cbn [fmap option_fmap option_map].
      unfold metadata_chunk. do 2 f_equal.
      rewrite slice_between by nia.
      rewrite take_drop_take by nia.
      rewrite drop_drop. do 2 f_equal. nia. }
    destruct (set_metadata_each_returns l _ _ _ He i s _ Hs Hchunk) as (s1 & Hs1 & Hmd1).
    destruct (Hmd i s1 Hs1) as (s' & Hs' & Hmd').
    exists s'. split; [assumption |].
    rewrite Hmd', Hmd1. reflexivity.
Qed.

Lemma fields_of_other (hb : list byte) (n i : Z) (l : string) :
  forall todo end_ md,
    l ∉ todo.*1 -> fields_of todo hb n i end_ md !! l = md !! l.
Proof.
  induction todo as [| [l0 w0] todo IH]; intros end_ md Hl; [reflexivity |].
  cbn [fields_of]. cbn in Hl. rewrite not_elem_of_cons in Hl.
  destruct Hl as [Hne Hl].
  rewrite IH by assumption. now apply lookup_insert_ne.
Qed.

(** Field [j] of descriptor [i] comes from offset
    [(sum of the earlier widths) * n + i * w] of the block. *)
Lemma fields_of_lookup (hb : list byte) (n i : Z) :
  forall todo end_ md j l w,
    NoDup (todo.*1) ->
    todo !! j = Some (l, w) ->
    fields_of todo hb n i end_ md !! l
    = Some (metadata_chunk hb (end_ + sum_Z (take j (todo.*2)) * n + i * w) w).
Proof.
  induction todo as [| [l0 w0] todo IH]; intros end_ md j l w Hnd Hj; [discriminate |].
  cbn in Hnd. apply NoDup_cons in Hnd as [Hl0 Hnd].
  cbn [fields_of]. destruct j as [| j]; cbn in Hj.
  - injection Hj as -> ->.
    rewrite fields_of_other by assumption.
    rewrite lookup_insert_eq. do 2 f_equal. cbn. lia.
  - rewrite (IH _ _ j l w Hnd Hj). do 2 f_equal.
    cbn [fmap list_fmap take]. rewrite sum_Z_cons. cbn [snd]. lia.
Qed.
End ColumnMajor.

(** * The properties of the decoder *)

(** ** Record distribution (C1) *)

(** Closed instances: evaluate the descriptors before looking at them. *)
Ltac concrete_counted :=
  unfold counted;
  match goal with
  | |- Forall2 _ ?sigs _ =>
      let x := fresh "sigs" in
      set (x := sigs); vm_compute in x; subst x
  end;
  repeat (constructor; [vm_compute; reflexivity |]);
  constructor.

Ltac concrete_block :=
  unfold record_block_for;
  split; [concrete_counted |];
  split; [repeat constructor; lia |];
  split; vm_compute; reflexivity.

(** C1 as stated fails when the counts add up to zero: the single
    descriptor of [zero_samples_recording] declares no sample per record,
    the record block of [sum = 0] integers is the empty byte string, and
    [__parse_one_record__] leaves the descriptor without a new record
    (its guard [if sample:] skips an empty block). *)
Lemma record_distribution_empty_block :
  record_block_for zero_samples_recording [0] []
  /\ ~ record_distributed zero_samples_recording [0] [].
Proof.
  split; [concrete_block |].
  intros (slices & Hlen & _ & H).
  apply Forall2_length in Hlen.
  destruct slices as [| sl [| ? ?]]; try discriminate Hlen.
  apply (f_equal (fun x => map Signal.number_records (EdfRecording.signals (snd x)))) in H.
  vm_compute in H. discriminate.
Qed.

(** C1 (amended): for descriptors with non-negative per-record sample
    counts [counts] whose sum is positive, decoding one record block of
    [sum counts] 16-bit integers appends to descriptor [i] exactly one
    record, the slice of [counts !! i] integers that starts where the
    counts of the earlier descriptors end; the slices, in channel order,
    make up the whole decoded block (nothing left over, nothing shared). *)
Theorem record_distribution (r : EdfRecording.t) (counts : list Z) (sample : list byte) :
  record_block_for r counts sample ->
  0 < sum_Z counts ->
  record_distributed r counts sample
  /\ forall i s c,
      EdfRecording.signals r !! i = Some s ->
      counts !! i = Some c ->
      EdfRecording.signals (snd (EdfRecording.__parse_one_record__ sample r)) !! i
      = Some (Signal.add_samples_for_one_record
                (take (Z.to_nat c)
                   (drop (Z.to_nat (sum_Z (take i counts))) (decode_h sample))) s).
Proof.
  intros Hblock Hsum.
  pose proof (parse_one_record_split r counts sample Hblock Hsum) as Hrun.
  destruct Hblock as (Hc & Hpos & Hspr & Hlen).
  assert (Hdata : Z.of_nat (length (decode_h sample)) = sum_Z counts).
  { rewrite (decode_h_length (Z.to_nat (sum_Z counts))); lia. }
  split.
  - exists (split_counts counts (decode_h sample)).
    split; [apply split_counts_lengths; [assumption | lia] |].
    split; [now apply split_counts_concat | assumption].
  - intros i s c Hs Hi. rewrite Hrun. cbn [snd EdfRecording.signals EdfRecording.set_signals].
    unfold append_records. rewrite lookup_zip_with, Hs. cbn.
    now rewrite (split_counts_lookup counts _ i c Hpos Hi).
Qed.

Lemma record_distribution_witness :
  record_block_for two_signal_recording [2; 1] (take 6 Fixture.record_bytes)
  /\ 0 < sum_Z [2; 1]
  /\ record_distributed two_signal_recording [2; 1] (take 6 Fixture.record_bytes).
Proof.
  assert (Hblock : record_block_for two_signal_recording [2; 1] (take 6 Fixture.record_bytes))
    by concrete_block.
  assert (Hsum : 0 < sum_Z [2; 1]) by (vm_compute; reflexivity).
  split; [exact Hblock |]. split; [exact Hsum |].
  exact (proj1 (record_distribution _ _ _ Hblock Hsum)).
Defined.

(** On the first record of [Fixture.blob], the numerical signal receives
    [100, -32768] and the annotation signal [5]. *)
Example record_distribution_fixture :
  map Signal.samples
    (EdfRecording.signals
       (snd (EdfRecording.__parse_one_record__ (take 6 Fixture.record_bytes)
               two_signal_recording)))
  = [[[100; -32768]]; [[5]]].
Proof. vm_compute. reflexivity. Qed.

(** ** Column-major metadata (C2) *)

(** C2: a call in the header stage with [n] signals that returns has read
    the metadata block column by column: for every field index [f] (name
    [name], width [w]) and every descriptor [i], the value stored under
    [name] in descriptor [i] is the text of the [w] bytes of the block at
    offset [(sum of the widths before f) * n + i * w].  In particular the
    label of descriptor [i] (offset [i * 16]) and its transducer type
    (offset [16 * n + i * 80]) are both chunk [i] of their columns. *)
Theorem metadata_is_column_major (d : value) (r r' : EdfRecording.t)
        (v : option EdfRecording.stage) (n : nat) :
  EdfRecording.status r = Some EdfRecording.STAGE_HEADER ->
  EdfRecording.number_signals r = Some (Z.of_nat n) ->
  length (EdfRecording.signals r) = n ->
  EdfRecording.signal_header_size r
  = Some (Z.of_nat n * sum_Z SIGNAL_HEADER_FIELDS_SIZE) ->
  EdfRecording.stream d r = (Returns v, r') ->
  let block :=
    take (Z.to_nat (Z.of_nat n * sum_Z SIGNAL_HEADER_FIELDS_SIZE)) (pending r) in
  EdfRecording.status r' = Some EdfRecording.STAGE_METADATA
  /\ length (EdfRecording.signals r') = n
  /\ forall (i f : nat) (name : string) (w : Z),
      (i < n)%nat ->
      SIGNAL_HEADER_FIELDS !! f = Some name ->
      SIGNAL_HEADER_FIELDS_SIZE !! f = Some w ->
      exists s',
        EdfRecording.signals r' !! i = Some s'
        /\ Signal.metadata s' !! name
           = Some (metadata_chunk block
                     (sum_Z (take f SIGNAL_HEADER_FIELDS_SIZE) * Z.of_nat n
                      + Z.of_nat i * w) w).
Proof.
  intros Hst Hn Hlen Hsize H block.
  unfold EdfRecording.stream in H.
  unfold Py.bind at 1, Py.get in H. cbn beta iota in H. rewrite Hst in H.
  apply bind_returns in H as (a1 & r1 & E1 & H).
  apply bind_returns in H as (bytes & r2 & E2 & H).
  apply bind_returns in H as (a3 & r3 & E3 & H).
  unfold EdfRecording.return_status in H. injection H as _ <-.
  unfold EdfRecording.assign in E1. injection E1 as _ <-.
  rewrite Hsize in E2.
  destruct (extract_returns (Z.of_nat n * sum_Z SIGNAL_HEADER_FIELDS_SIZE)
              (EdfRecording.set_status (Some EdfRecording.STAGE_METADATA) r))
    as (r2' & He & Hst2 & _ & Hn2 & _ & _ & Hsig2 & _).
  { change (sum_Z SIGNAL_HEADER_FIELDS_SIZE) with 256. lia. }
  rewrite He in E2. injection E2 as <- <-.
  change (pending (EdfRecording.set_status (Some EdfRecording.STAGE_METADATA) r))
    with (pending r) in *.
  fold block in E3.
  unfold EdfRecording.__parse_metadata__ in E3.
  apply bind_returns in E3 as ([] & r4 & E4 & E3).
  apply bind_returns in E3 as (self & r5 & E5 & E3).
  apply bind_returns in E3 as (cs & r6 & E6 & E3).
  apply bind_returns in E3 as (a7 & r7 & E7 & E3).
  unfold EdfRecording.assign in E3, E7. injection E3 as <-. injection E7 as _ <-.
  unfold Py.lift in E6. injection E6 as _ <-.
  unfold Py.get in E5. injection E5 as _ <-.
  cbn [EdfRecording.signals EdfRecording.status EdfRecording.set_record_size
         EdfRecording.set_samples_per_record].
  cbn [EdfRecording.signals EdfRecording.status EdfRecording.number_signals
         EdfRecording.set_status] in Hst2, Hn2, Hsig2.
  destruct (parse_fields_returns block n
              (zip SIGNAL_HEADER_FIELDS SIGNAL_HEADER_FIELDS_SIZE) 0 r2' r4)
    as ((sigs' & ->) & Hlen' & Hmd); try (congruence || lia || assumption).
  { repeat constructor; cbn; lia. }
  subst r3.
  cbn [EdfRecording.signals EdfRecording.status EdfRecording.set_record_size
         EdfRecording.set_samples_per_record EdfRecording.set_signals] in *.
  split; [assumption |]. split; [assumption |].
  intros i f name w Hi Hname Hw.
  destruct (lookup_lt_is_Some_2 (EdfRecording.signals r2') i) as [s Hs];
    [rewrite Hsig2; lia |].
  destruct (Hmd i s Hs) as (s' & Hs' & Hmd').
  exists s'. split; [assumption |]. rewrite Hmd'.
  rewrite (fields_of_lookup block (Z.of_nat n) (Z.of_nat i) _ 0 _ f name w).
  - do 2 f_equal.
  - apply (bool_decide_unpack _). vm_compute. exact I.
  - apply lookup_zip_with_Some. eauto.
Qed.

Lemma metadata_is_column_major_witness :
  let r := header_parsed_recording in
  let r' := snd (EdfRecording.stream VNone r) in
  let block := take (Z.to_nat (Z.of_nat 2 * sum_Z SIGNAL_HEADER_FIELDS_SIZE)) (pending r) in
  EdfRecording.status r = Some EdfRecording.STAGE_HEADER
  /\ EdfRecording.number_signals r = Some (Z.of_nat 2)
  /\ length (EdfRecording.signals r) = 2%nat
  /\ EdfRecording.signal_header_size r = Some (Z.of_nat 2 * sum_Z SIGNAL_HEADER_FIELDS_SIZE)
  /\ EdfRecording.stream VNone r = (Returns (Some EdfRecording.STAGE_METADATA), r')
  /\ EdfRecording.status r' = Some EdfRecording.STAGE_METADATA
  /\ length (EdfRecording.signals r') = 2%nat
  /\ forall (i f : nat) (name : string) (w : Z),
      (i < 2)%nat ->
      SIGNAL_HEADER_FIELDS !! f = Some name ->
      SIGNAL_HEADER_FIELDS_SIZE !! f = Some w ->
      exists s',
        EdfRecording.signals r' !! i = Some s'
        /\ Signal.metadata s' !! name
           = Some (metadata_chunk block
                     (sum_Z (take f SIGNAL_HEADER_FIELDS_SIZE) * Z.of_nat 2
                      + Z.of_nat i * w) w).
Proof.
  cbn zeta.
  assert (H1 : EdfRecording.status header_parsed_recording
               = Some EdfRecording.STAGE_HEADER) by (vm_compute; reflexivity).
  assert (H2 : EdfRecording.number_signals header_parsed_recording
               = Some (Z.of_nat 2)) by (vm_compute; reflexivity).
  assert (H3 : length (EdfRecording.signals header_parsed_recording) = 2%nat)
    by (vm_compute; reflexivity).
  assert (H4 : EdfRecording.signal_header_size header_parsed_recording
               = Some (Z.of_nat 2 * sum_Z SIGNAL_HEADER_FIELDS_SIZE))
    by (vm_compute; reflexivity).
  assert (H5 : EdfRecording.stream VNone header_parsed_recording
               = (Returns (Some EdfRecording.STAGE_METADATA),
                  snd (EdfRecording.stream VNone header_parsed_recording)))
    by (vm_compute; reflexivity).
  repeat (split; [assumption |]).
  exact (metadata_is_column_major VNone _ _ _ 2%nat H1 H2 H3 H4 H5).
Defined.

(** In [Fixture.blob] the two labels come first, then the two transducer
    types: descriptor 1 is labelled [ANN] and has a blank transducer type. *)
Example column_major_fixture :
  map (fun s => (Signal.metadata s !! "Label"%string,
                 option_map str_strip (Signal.metadata s !! "Transducer Type"%string)))
      (EdfRecording.signals two_signal_recording)
  = [(Some "EEG             ", Some "AgCl"); (Some "ANN             ", Some "")]%string.
Proof. vm_compute. reflexivity. Qed.

(** ** End of the source (C3) *)

(** C3 as stated fails on a truncated final record: in the parsing stage,
    with one byte pending where a record takes two, the slot reads a
    non-empty block that [struct.unpack] rejects, and the call raises
    [struct.error] instead of returning. *)
Lemma truncated_final_record_raises :
  EdfRecording.status truncated_recording = Some EdfRecording.STAGE_PARSING
  /\ EdfRecording.record_size truncated_recording = Some 2
  /\ pending truncated_recording = [x09]
  /\ map Signal.samples (EdfRecording.signals truncated_recording) = [[[7]]]
  /\ fst (EdfRecording.stream (VInt 3600) truncated_recording) = Raises StructError.
Proof. repeat split; vm_compute; reflexivity. Qed.

(** C3 (amended): in the metadata or parsing stage, when the pending bytes
    are [k] whole record blocks (no truncated final record) and the call
    asks for [n] records, the call returns normally; if it runs out of
    source ([k < n]) the stage becomes [STAGE_DONE], otherwise it is
    [STAGE_PARSING]; every descriptor keeps the records it had and gains
    the [min n k] records decoded by the call. *)
Theorem end_of_source_is_not_an_error (d : value) (r : EdfRecording.t)
        (counts : list Z) (n : Z) (k : nat) :
  EdfRecording.status r = Some EdfRecording.STAGE_METADATA
  \/ EdfRecording.status r = Some EdfRecording.STAGE_PARSING ->
  geometry counts r ->
  single_source r ->
  whole_records counts k r ->
  fst (EdfRecording.records_to_read d r) = Returns n ->
  exists r',
    EdfRecording.stream d r = (Returns (EdfRecording.status r'), r')
    /\ EdfRecording.status r'
       = Some (if (Z.to_nat n <=? k)%nat
               then EdfRecording.STAGE_PARSING else EdfRecording.STAGE_DONE)
    /\ Forall2 (gained (Nat.min (Z.to_nat n) k))
         (EdfRecording.signals r) (EdfRecording.signals r')
    /\ single_source r'
    /\ pending r'
       = drop (Nat.min (Z.to_nat n) k * Z.to_nat (2 * sum_Z counts)) (pending r).
Proof.
  intros Hst Hgeo Hsrc Hwhole Hn.
  rewrite (stream_parsing d r Hst), Hn.
  assert (Hgeo' : geometry counts (EdfRecording.set_status (Some EdfRecording.STAGE_PARSING) r))
    by exact Hgeo.
  assert (Hrs : EdfRecording.record_size r = Some (2 * sum_Z counts))
    by (destruct Hgeo as (_ & _ & ? & _); assumption).
  rewrite Hrs.
  destruct (read_slots_whole counts (Z.to_nat n) k
              (EdfRecording.set_status (Some EdfRecording.STAGE_PARSING) r)
              Hgeo' Hsrc Hwhole)
    as (r' & Hrun & Hst' & _ & Hsrc' & Hpend & Hsig).
  exists r'. unfold Py.bind. rewrite Hrun. unfold EdfRecording.return_status.
  split; [reflexivity |].
  split; [rewrite Hst'; now destruct (Z.to_nat n <=? k)%nat |].
  split; [exact Hsig |]. split; [exact Hsrc' | exact Hpend].
Qed.

Lemma end_of_source_is_not_an_error_witness :
  let r := two_signal_recording in
  (EdfRecording.status r = Some EdfRecording.STAGE_METADATA
   \/ EdfRecording.status r = Some EdfRecording.STAGE_PARSING)
  /\ geometry [2; 1] r
  /\ single_source r
  /\ whole_records [2; 1] 2 r
  /\ fst (EdfRecording.records_to_read (VInt 3600) r) = Returns 3600
  /\ exists r',
      EdfRecording.stream (VInt 3600) r = (Returns (EdfRecording.status r'), r')
      /\ EdfRecording.status r' = Some EdfRecording.STAGE_DONE
      /\ Forall2 (gained 2) (EdfRecording.signals r) (EdfRecording.signals r').
Proof.
  cbn zeta.
  assert (H1 : EdfRecording.status two_signal_recording = Some EdfRecording.STAGE_METADATA
               \/ EdfRecording.status two_signal_recording = Some EdfRecording.STAGE_PARSING)
    by (left; vm_compute; reflexivity).
  assert (H2 : geometry [2; 1] two_signal_recording).
  { unfold geometry. split; [concrete_counted |].
    split; [vm_compute; reflexivity |].
    split; [vm_compute; reflexivity |]. vm_compute. discriminate. }
  assert (H3 : single_source two_signal_recording) by (left; vm_compute; reflexivity).
  assert (H4 : whole_records [2; 1] 2 two_signal_recording).
  { right. split; vm_compute; reflexivity. }
  assert (H5 : fst (EdfRecording.records_to_read (VInt 3600) two_signal_recording)
               = Returns 3600) by (vm_compute; reflexivity).
  repeat (split; [assumption |]).
  destruct (end_of_source_is_not_an_error (VInt 3600) _ [2; 1] 3600 2 H1 H2 H3 H4 H5)
    as (r' & Hrun & Hst & Hsig & _).
  exists r'. split; [exact Hrun |]. split; [exact Hst | exact Hsig].
Defined.

(** ** Termination of [parse_binary] (C4) *)

Section ParseBinary.
Import EdfRecording.

Lemma until_done_step (fuel : nat) (r r' : t) (v : option stage) :
  is_done r = false ->
  stream (VInt DEFAULT_DURATION_IN_SECONDS) r = (Returns v, r') ->
  until_done (S fuel) r = until_done fuel r'.
Proof.
  intros Hd Hs. cbn [until_done]. rewrite Hd. unfold Py.bind. now rewrite Hs.
Qed.

(** A state that a call leaves as it is, and that is not done, is never
    left by the loop. *)
Lemma until_done_stuck (r : t) (v : option stage) :
  is_done r = false ->
  stream (VInt DEFAULT_DURATION_IN_SECONDS) r = (Returns v, r) ->
  forall fuel, until_done fuel r = (Returns false, r).
Proof.
  intros Hd Hs. induction fuel as [| fuel IH].
  - cbn [until_done]. now rewrite Hd.
  - now rewrite (until_done_step fuel r r v Hd Hs).
Qed.

(** The loop on a blob whose third call reaches a stuck state. *)
Lemma parse_binary_stuck (blob : list byte) :
  let r0 := Fixture.opened blob in
  let r1 := snd (stream (VInt DEFAULT_DURATION_IN_SECONDS) r0) in
  let r2 := snd (stream (VInt DEFAULT_DURATION_IN_SECONDS) r1) in
  let r3 := snd (stream (VInt DEFAULT_DURATION_IN_SECONDS) r2) in
  is_done r0 = false -> is_done r1 = false -> is_done r2 = false ->
  is_done r3 = false ->
  stream (VInt DEFAULT_DURATION_IN_SECONDS) r0 = (Returns (status r1), r1) ->
  stream (VInt DEFAULT_DURATION_IN_SECONDS) r1 = (Returns (status r2), r2) ->
  stream (VInt DEFAULT_DURATION_IN_SECONDS) r2 = (Returns (status r3), r3) ->
  stream (VInt DEFAULT_DURATION_IN_SECONDS) r3 = (Returns (status r3), r3) ->
  forall fuel, fst (parse_binary fuel blob __init__) = Returns false.
Proof.
  intros r0 r1 r2 r3 D0 D1 D2 D3 S0 S1 S2 S3 fuel.
  change (parse_binary fuel blob __init__) with (until_done fuel r0).
  destruct fuel as [| [| [| fuel]]].
  - cbn [until_done]. now rewrite D0.
  - rewrite (until_done_step _ _ _ _ D0 S0). cbn [until_done]. now rewrite D1.
  - rewrite (until_done_step _ _ _ _ D0 S0), (until_done_step _ _ _ _ D1 S1).
    cbn [until_done]. now rewrite D2.
  - rewrite (until_done_step _ _ _ _ D0 S0), (until_done_step _ _ _ _ D1 S1),
      (until_done_step _ _ _ _ D2 S2).
    now rewrite (until_done_stuck r3 _ D3 S3).
Qed.
End ParseBinary.

(** C4 fails on the code: for a header that declares records longer than
    the one-hour window ([recordDuration = 7200]), or whose duration field
    is not a number (the sentinel -32768), [records_to_read] is
    [int(3600 / recordDuration) = 0]; the call in the parsing stage reads
    nothing and leaves the stage as it is, so the loop of [parse_binary]
    has not ended after any number of iterations. *)
Theorem parse_binary_never_done_on_long_records :
  forall fuel,
    fst (EdfRecording.parse_binary fuel Fixture.long_duration_blob EdfRecording.__init__)
    = Returns false
    /\ fst (EdfRecording.parse_binary fuel Fixture.bad_duration_blob EdfRecording.__init__)
       = Returns false.
Proof.
  intros fuel. split.
  - apply parse_binary_stuck; vm_compute; reflexivity.
  - apply parse_binary_stuck; vm_compute; reflexivity.
Qed.

(** The headers of the two blobs, as the parsing stage sees them. *)
Example long_records_request_nothing :
  fst (EdfRecording.records_to_read (VInt 3600)
         (Fixture.after 2 (VInt 3600) (Fixture.opened Fixture.long_duration_blob)))
  = Returns 0
  /\ fst (EdfRecording.header_get "recordDuration"
            (Fixture.after 2 (VInt 3600) (Fixture.opened Fixture.bad_duration_blob)))
     = Returns (VInt (-32768))
  /\ fst (EdfRecording.records_to_read (VInt 3600)
            (Fixture.after 2 (VInt 3600) (Fixture.opened Fixture.bad_duration_blob)))
     = Returns 0.
Proof. repeat split; vm_compute; reflexivity. Qed.

(** ** The scaler (C5) *)

(** What holds of C5: a scaler whose digital bounds coincide leaves every
    value as it is. *)
Lemma scale_identity_when_flat (sc : Scaler.t) (sign : bool) (x : value) :
  Scaler.d_delta sc = Some (S754_zero sign) ->
  Scaler.scale sc x = Returns x.
Proof. intros H. unfold Scaler.scale. now rewrite H. Qed.

(** The three cases of [test_scaler]. *)
Example scaler_tests :
  obind (Scaler.__init__ (VStr "100.00  ") (VStr "-100.00 ") (VStr "32767   ") (VStr "-32768  "))
        (fun sc => Scaler.scale sc (VInt 550))
  = obind (to_float (VStr "1.68")) (fun f => Returns (VFloat f))
  /\ obind (Scaler.__init__ (VStr "100.00  ") (VStr "-100.00 ") (VStr "32767   ") (VStr "32767  "))
           (fun sc => Scaler.scale sc (VInt 550))
     = Returns (VInt 550)
  /\ obind (Scaler.__init__ (VStr "100.00  ") (VStr "100.00 ") (VStr "32767   ") (VStr "-32768  "))
           (fun sc => Scaler.scale sc (VInt 550))
     = obind (to_float (VStr "100.0")) (fun f => Returns (VFloat f)).
Proof. repeat split; vm_compute; reflexivity. Qed.

(** C5 fails on the code: [__init__] handles [TypeError] only, but a bound
    that is a string without a number makes [float] raise [ValueError],
    which escapes from the constructor; and when the bounds are left unset
    (after a [TypeError], a [None] bound), [scale] compares [None] with [0]
    and raises [TypeError] instead of returning its argument. *)
Theorem scaler_unparsable_bound :
  Scaler.__init__ (VStr "abc") (VStr "-100") (VStr "32767") (VStr "-32768")
  = Raises ValueError
  /\ Scaler.__init__ VNone (VStr "-100") (VStr "32767") (VStr "-32768")
     = Returns Scaler.unset
  /\ forall x, Scaler.scale Scaler.unset x = Raises TypeError.
Proof.
  split; [vm_compute; reflexivity |].
  split; [vm_compute; reflexivity |].
  intros x. reflexivity.
Qed.

(** ** Formatting (C6, C7) *)

Example parsed_recording_samples :
  EdfRecording.status parsed_recording = Some EdfRecording.STAGE_DONE
  /\ Signal.samples numerical_signal = [[100; -32768]; [-1; 2]]
  /\ Signal.samples annotation_signal = [[5]; [-32768]]
  /\ Signal.is_numerical numerical_signal = Returns true
  /\ Signal.is_numerical annotation_signal = Returns false.
Proof. repeat split; vm_compute; reflexivity. Qed.

(** What holds of C6: without scaling, a numerical descriptor shows the
    marker in place of the sentinel. *)
Example marker_without_scaling :
  Signal.format_samples numerical_signal false (VStr "U")
  = Returns [[VInt 100; VStr "U"]; [VInt (-1); VInt 2]].
Proof. vm_compute. reflexivity. Qed.

(** C6 fails on the code: the marker is put in place of the sentinel
    first, but the hexadecimal or scaling step is then applied to every
    element of the record, the marker included.  A string marker makes the
    call raise [TypeError], for the annotation descriptor (in
    [numerical_to_hex_string]) and for the scaled numerical one (in
    [Scaler.scale]); a numeric marker is itself rendered in hexadecimal. *)
Theorem undefined_marker_is_converted :
  Signal.format_samples annotation_signal true (VStr "U") = Raises TypeError
  /\ Signal.format_samples numerical_signal true (VStr "U") = Raises TypeError
  /\ Signal.format_samples annotation_signal true (VInt 7)
     = Returns [[VStr "0x5"]; [VStr "0x7"]].
Proof. repeat split; vm_compute; reflexivity. Qed.


Section Hexadecimal.




End Hexadecimal.



(** ** Records of no duration (C8) *)

Section ZeroDuration.
Import EdfRecording.

Lemma records_to_read_zero (d : value) (r : t) (h : EdfHeader.t) :
  header r = Some h ->
  EdfHeader.get h "recordDuration" = VInt 0
  \/ (exists sign, EdfHeader.get h "recordDuration" = VFloat (S754_zero sign)) ->
  fst (records_to_read d r) = Returns 1.
Proof.
  intros Hh Hz. unfold records_to_read, header_get. run_monad. rewrite Hh.
  destruct Hz as [-> | [sign ->]]; reflexivity.
Qed.

Lemma one_slot (count : option Z) (r : t) :
  (read_slots 1 count ;;; return_status) r = (read_slot count ;;; return_status) r.
Proof.
  cbn [read_slots]. unfold Py.bind, Py.ret.
  now destruct (read_slot count r) as [[[] | e] r1].
Qed.
End ZeroDuration.

(** C8: when the header's record duration is numerically zero (the
    integer [0] or a float zero), a call in the metadata or parsing stage
    processes exactly one record slot whatever duration [d] it is given:
    it is the call that reads one slot; and when a whole record block is
    pending, exactly [record_size] bytes are consumed and every descriptor
    gains exactly one record. *)
Theorem zero_duration_reads_one_record (d : value) (r : EdfRecording.t)
        (h : EdfHeader.t) :
  EdfRecording.status r = Some EdfRecording.STAGE_METADATA
  \/ EdfRecording.status r = Some EdfRecording.STAGE_PARSING ->
  EdfRecording.header r = Some h ->
  EdfHeader.get h "recordDuration" = VInt 0
  \/ (exists sign, EdfHeader.get h "recordDuration" = VFloat (S754_zero sign)) ->
  EdfRecording.stream d r
  = (EdfRecording.read_slot (EdfRecording.record_size r) ;;; EdfRecording.return_status)
      (EdfRecording.set_status (Some EdfRecording.STAGE_PARSING) r)
  /\ forall counts,
      geometry counts r ->
      single_source r ->
      0 < sum_Z counts ->
      2 * sum_Z counts <= Z.of_nat (length (pending r)) ->
      exists r',
        EdfRecording.stream d r = (Returns (Some EdfRecording.STAGE_PARSING), r')
        /\ pending r' = drop (Z.to_nat (2 * sum_Z counts)) (pending r)
        /\ Forall2 (gained 1) (EdfRecording.signals r) (EdfRecording.signals r').
Proof.
  intros Hst Hh Hz.
  assert (Heq : EdfRecording.stream d r
    = (EdfRecording.read_slot (EdfRecording.record_size r) ;;; EdfRecording.return_status)
        (EdfRecording.set_status (Some EdfRecording.STAGE_PARSING) r)).
  { rewrite (stream_parsing d r Hst), (records_to_read_zero d r h Hh Hz).
    change (Z.to_nat 1) with 1%nat. apply one_slot. }
  split; [exact Heq |].
  intros counts Hgeo Hsrc Hpos Hlen. rewrite Heq.
  assert (Hrs : EdfRecording.record_size r = Some (2 * sum_Z counts))
    by (destruct Hgeo as (_ & _ & ? & _); assumption).
  rewrite Hrs.
  destruct (read_slot_full counts
              (EdfRecording.set_status (Some EdfRecording.STAGE_PARSING) r)
              Hgeo Hsrc ltac:(lia) Hlen)
    as (r' & Hrun & Hst' & _ & _ & Hpend & Hsig).
  exists r'. unfold Py.bind. rewrite Hrun. unfold EdfRecording.return_status.
  rewrite Hst'. split; [reflexivity |]. split; [exact Hpend | exact Hsig].
Qed.

Lemma zero_duration_reads_one_record_witness :
  let r := zero_duration_recording in
  let h := default EdfHeader.__init__ (EdfRecording.header r) in
  (EdfRecording.status r = Some EdfRecording.STAGE_METADATA
   \/ EdfRecording.status r = Some EdfRecording.STAGE_PARSING)
  /\ EdfRecording.header r = Some h
  /\ (EdfHeader.get h "recordDuration" = VInt 0
      \/ (exists sign, EdfHeader.get h "recordDuration" = VFloat (S754_zero sign)))
  /\ geometry [2; 1] r
  /\ single_source r
  /\ 0 < sum_Z [2; 1]
  /\ 2 * sum_Z [2; 1] <= Z.of_nat (length (pending r))
  /\ exists r',
      EdfRecording.stream (VInt 3600) r = (Returns (Some EdfRecording.STAGE_PARSING), r')
      /\ pending r' = drop (Z.to_nat (2 * sum_Z [2; 1])) (pending r)
      /\ Forall2 (gained 1) (EdfRecording.signals r) (EdfRecording.signals r').
Proof.
  cbn zeta.
  set (h := default EdfHeader.__init__ (EdfRecording.header zero_duration_recording)).
  assert (H1 : EdfRecording.status zero_duration_recording = Some EdfRecording.STAGE_METADATA
               \/ EdfRecording.status zero_duration_recording = Some EdfRecording.STAGE_PARSING)
    by (left; vm_compute; reflexivity).
  assert (H2 : EdfRecording.header zero_duration_recording = Some h)
    by (vm_compute; reflexivity).
  assert (H3 : EdfHeader.get h "recordDuration" = VInt 0
               \/ (exists sign, EdfHeader.get h "recordDuration" = VFloat (S754_zero sign)))
    by (left; vm_compute; reflexivity).
  assert (H4 : geometry [2; 1] zero_duration_recording).
  { unfold geometry. split; [concrete_counted |].
    split; [vm_compute; reflexivity |].
    split; [vm_compute; reflexivity |]. vm_compute. discriminate. }
  assert (H5 : single_source zero_duration_recording) by (left; vm_compute; reflexivity).
  assert (H6 : 0 < sum_Z [2; 1]) by (vm_compute; reflexivity).
  assert (H7 : 2 * sum_Z [2; 1] <= Z.of_nat (length (pending zero_duration_recording)))
    by (vm_compute; discriminate).
  repeat (split; [assumption |]).
  exact (proj2 (zero_duration_reads_one_record (VInt 3600) _ h H1 H2 H3) [2; 1] H4 H5 H6 H7).
Defined.

(** ** The top-level header (C9) *)

Section Header.

Lemma split_widths_lookup (ws : list Z) :
  forall (buf : list byte) (i : nat) (w : Z),
    Forall (fun w => 0 <= w) ws ->
    ws !! i = Some w ->
    split_widths ws buf !! i
    = Some (take (Z.to_nat w) (drop (Z.to_nat (sum_Z (take i ws))) buf)).
Proof.
  induction ws as [| w0 ws IH]; intros buf i w Hpos Hi; [discriminate |].
  apply Forall_cons in Hpos as [Hw0 Hpos].
  destruct i as [| i]; cbn in Hi.
  - injection Hi as ->. reflexivity.
  - cbn [split_widths take]. rewrite sum_Z_cons.
    change ((?x :: ?l) !! S i) with (l !! i).
    rewrite (IH _ _ _ Hpos Hi), drop_drop.
    pose proof (sum_Z_nonneg (take i ws) (Forall_take _ _ _ Hpos)).
    do 3 f_equal. lia.
Qed.

Lemma keys_of_zip {A B} (g : string -> A -> B) (ks : list string) (vs : list A) :
  length vs = length ks ->
  (zip_with (fun k v => (k, g k v)) ks vs).*1 = ks.
Proof.
  revert vs. induction ks as [| k ks IH]; intros [| v vs] Hlen;
    try discriminate; [reflexivity |].
  cbn. f_equal. apply IH. now injection Hlen.
Qed.

Lemma header_dict_lookup (header : list byte) (self : EdfHeader.t)
      (i : nat) (k : string) (w : Z) :
  length header = 256%nat ->
  EdfHeader.fields !! i = Some k ->
  EdfHeader.fields_sizes !! i = Some w ->
  EdfHeader.header_dict (snd (EdfHeader.parse header self)) !! k
  = Some (EdfHeader.convert k
            (take (Z.to_nat w)
               (drop (Z.to_nat (sum_Z (take i EdfHeader.fields_sizes))) header))).
Proof.
  intros Hlen Hk Hw. unfold EdfHeader.parse, unpack_s.
  change EdfHeader.size with 256. change (sum_Z EdfHeader.fields_sizes) with 256.
  rewrite Hlen. cbn [Z.of_nat Pos.of_succ_nat Z.eqb Pos.eqb negb snd
                      Pos.succ EdfHeader.header_dict].
  change (Z.of_nat 256 =? 256) with true. cbn [negb snd EdfHeader.header_dict].
  apply elem_of_list_to_map_1.
  - rewrite keys_of_zip by (now rewrite split_widths_length).
    apply (bool_decide_unpack _). vm_compute. exact I.
  - apply list_elem_of_lookup. exists i.
    rewrite lookup_zip_with, Hk.
    rewrite (split_widths_lookup _ _ i w); [reflexivity | | assumption].
    repeat constructor; lia.
Qed.
End Header.



(** ** Equal record counts (C10) *)

(** C10: after any sequence of [stream] calls that all return, started
    from a recording whose descriptors hold equally many records (a new
    recording has none), any two descriptors hold the same number of
    records. *)
Theorem descriptors_hold_equally_many_records (durations : list value)
        (r r' : EdfRecording.t) :
  balanced (EdfRecording.signals r) ->
  stream_calls durations r = (Returns tt, r') ->
  forall s1 s2,
    s1 ∈ EdfRecording.signals r' ->
    s2 ∈ EdfRecording.signals r' ->
    Signal.number_records s1 = Signal.number_records s2.
Proof.
  intros Hb Hrun s1 s2 H1 H2.
  destruct (stream_calls_balanced durations r r' Hb Hrun) as [n Hn].
  rewrite Forall_forall in Hn.
  now rewrite (Hn s1 H1), (Hn s2 H2).
Qed.

Lemma descriptors_hold_equally_many_records_witness :
  let durations := [VNone; VNone; VInt 1; VInt 1; VInt 1] in
  let r := Fixture.opened Fixture.blob in
  let r' := snd (stream_calls durations r) in
  balanced (EdfRecording.signals r)
  /\ stream_calls durations r = (Returns tt, r')
  /\ EdfRecording.status r' = Some EdfRecording.STAGE_DONE
  /\ map Signal.number_records (EdfRecording.signals r') = [2%nat; 2%nat]
  /\ forall s1 s2,
      s1 ∈ EdfRecording.signals r' ->
      s2 ∈ EdfRecording.signals r' ->
      Signal.number_records s1 = Signal.number_records s2.
Proof.
  cbn zeta.
  assert (H1 : balanced (EdfRecording.signals (Fixture.opened Fixture.blob)))
    by (exists 0%nat; constructor).
  assert (H2 : stream_calls [VNone; VNone; VInt 1; VInt 1; VInt 1] (Fixture.opened Fixture.blob)
               = (Returns tt,
                  snd (stream_calls [VNone; VNone; VInt 1; VInt 1; VInt 1]
                         (Fixture.opened Fixture.blob))))
    by (vm_compute; reflexivity).
  split; [exact H1 |]. split; [exact H2 |].
  split; [vm_compute; reflexivity |].
  split; [vm_compute; reflexivity |].
  exact (descriptors_hold_equally_many_records _ _ _ H1 H2).
Defined.

(** * Further properties of the code *)

(** ** The byte source ([__extract__]) *)

Section Extract.
Import EdfRecording.

Lemma slice_partition {A} (l : list A) (n : Z) :
  slice l None (Some n) ++ slice l (Some n) None = l.
Proof.
  unfold slice, slice_bound.
  set (len := Z.of_nat (length l)).
  set (c := if n <? 0 then Z.max 0 (n + len) else Z.min n len).
  assert (Hc : 0 <= c <= len) by (subst c; destruct (Z.ltb_spec n 0); lia).
  change (Z.to_nat 0) with 0%nat. rewrite drop_0, Z.sub_0_r.
  rewrite (take_ge (drop (Z.to_nat c) l)) by (rewrite length_drop; lia).
  apply take_drop.
Qed.

Lemma slice_prefix_length {A} (l : list A) (n : Z) :
  0 <= n -> (length (slice l None (Some n)) <= Z.to_nat n)%nat.
Proof. intros Hn. rewrite slice_prefix by assumption. rewrite length_take. lia. Qed.
End Extract.

(** X1: [__extract__(count)] with a single source attached neither loses
    nor repeats a byte, whatever integer [count] is.  It raises in one
    case only: when it goes to the open file with a count below [-1],
    [read] raises [ValueError] and the recording is left as it was.  In
    every other case (an in-memory buffer with any count, a negative one
    included; a file with [-1 <= count]; no source) it returns, and the
    bytes returned followed by the bytes still pending are the bytes that
    were pending; for [0 <= count] at most [count] bytes are returned,
    and the descriptors, the stage and the geometry are left alone. *)
Theorem extract_conserves_bytes (count : Z) (r : EdfRecording.t) :
  single_source r ->
  (read_refused count r = true ->
   EdfRecording.__extract__ (Some count) r = (Raises ValueError, r))
  /\ (read_refused count r = false ->
      exists bs r',
        EdfRecording.__extract__ (Some count) r = (Returns bs, r')
        /\ bs ++ pending r' = pending r
        /\ single_source r'
        /\ (0 <= count -> (length bs <= Z.to_nat count)%nat)
        /\ EdfRecording.status r' = EdfRecording.status r
        /\ EdfRecording.signals r' = EdfRecording.signals r
        /\ same_geometry r r').
Proof.
  intros Hsrc.
  unfold read_refused, EdfRecording.__extract__, pending, single_source,
    same_geometry in *.
  destruct (EdfRecording.binary_content r) as [[| b content] |] eqn:Hb.
  - destruct (EdfRecording.edf_file r) as [f |] eqn:Hf.
    + unfold EdfRecording.file_read. split; intros Hr; rewrite Hr; [reflexivity |].
      destruct (Z.ltb_spec count 0).
      * do 2 eexists. split; [reflexivity |]. cbn. rewrite Hb. cbn.
        rewrite app_nil_r. repeat split; auto. lia.
      * do 2 eexists. split; [reflexivity |]. cbn. rewrite Hb. cbn.
        rewrite take_drop. repeat split; auto. intros _. rewrite length_take. lia.
    + split; [discriminate |]. intros _.
      do 2 eexists. split; [reflexivity |]. rewrite Hb, Hf. cbn.
      repeat split; auto. lia.
  - split; [discriminate |]. intros _.
    destruct Hsrc as [Hf | [Hx | Hx]]; try discriminate.
    do 2 eexists. split; [reflexivity |]. cbn. rewrite Hf.
    split.
    + pose proof (slice_partition (b :: content) count) as Hp.
      destruct (slice (b :: content) (Some count) None) eqn:Hs; cbn.
      * now rewrite app_nil_r in Hp |- *.
      * exact Hp.
    + repeat split; auto. apply slice_prefix_length.
  - destruct (EdfRecording.edf_file r) as [f |] eqn:Hf.
    + unfold EdfRecording.file_read. split; intros Hr; rewrite Hr; [reflexivity |].
      destruct (Z.ltb_spec count 0).
      * do 2 eexists. split; [reflexivity |]. cbn. rewrite Hb. cbn.
        rewrite app_nil_r. repeat split; auto. lia.
      * do 2 eexists. split; [reflexivity |]. cbn. rewrite Hb. cbn.
        rewrite take_drop. repeat split; auto. intros _. rewrite length_take. lia.
    + split; [discriminate |]. intros _.
      do 2 eexists. split; [reflexivity |]. rewrite Hb, Hf. cbn.
      repeat split; auto. lia.
Qed.

Lemma extract_conserves_bytes_witness :
  let from_file := EdfRecording.open Fixture.record_bytes EdfRecording.__init__ in
  single_source two_signal_recording
  /\ (exists bs r',
        EdfRecording.__extract__ (Some (-6)) two_signal_recording = (Returns bs, r')
        /\ bs ++ pending r' = pending two_signal_recording
        /\ single_source r')
  /\ single_source from_file
  /\ EdfRecording.__extract__ (Some (-6)) from_file = (Raises ValueError, from_file)
  /\ exists bs r',
      EdfRecording.__extract__ (Some (-1)) from_file = (Returns bs, r')
      /\ bs ++ pending r' = pending from_file.
Proof.
  cbn zeta.
  assert (H : single_source two_signal_recording) by (left; vm_compute; reflexivity).
  assert (Hf : single_source (EdfRecording.open Fixture.record_bytes EdfRecording.__init__))
    by (right; left; reflexivity).
  split; [exact H |]. split; [| split; [exact Hf | split]].
  - destruct (proj2 (extract_conserves_bytes (-6) _ H))
      as (bs & r' & Hrun & Hcat & Hsrc & _); [vm_compute; reflexivity |].
    exists bs, r'. split; [exact Hrun |]. split; [exact Hcat | exact Hsrc].
  - apply (proj1 (extract_conserves_bytes (-6) _ Hf)). reflexivity.
  - destruct (proj2 (extract_conserves_bytes (-1) _ Hf))
      as (bs & r' & Hrun & Hcat & _); [reflexivity |].
    exists bs, r'. split; [exact Hrun | exact Hcat].
Defined.

(** With a negative count an in-memory buffer gives all its bytes but the
    last ones, which stay pending. *)
Example extract_negative_count :
  fst (EdfRecording.__extract__ (Some (-6)) two_signal_recording)
  = Returns (take 6 Fixture.record_bytes)
  /\ pending (snd (EdfRecording.__extract__ (Some (-6)) two_signal_recording))
     = drop 6 Fixture.record_bytes.
Proof. split; vm_compute; reflexivity. Qed.

(** ** The stages ([stream]) *)

Section StageTransitions.
Import EdfRecording.

Lemma keeps_status_bind {A B} (m : M t A) (k : A -> M t B) :
  keeps_status m -> (forall a, keeps_status (k a)) -> keeps_status (Py.bind m k).
Proof.
  intros Hm Hk s. unfold Py.bind. specialize (Hm s).
  destruct (m s) as [[a | e] s1]; cbn in *; [| assumption].
  rewrite <- Hm. apply Hk.
Qed.

Lemma keeps_or_ends_bind {A B} (m : M t A) (k : A -> M t B) :
  keeps_or_ends m -> (forall a, keeps_or_ends (k a)) -> keeps_or_ends (Py.bind m k).
Proof.
  intros Hm Hk s. unfold Py.bind. specialize (Hm s).
  destruct (m s) as [[a | e] s1]; cbn in *; [| assumption].
  destruct (Hk a s1) as [H | H]; [rewrite H; assumption | now right].
Qed.

Lemma keeps_status_ends {A} (m : M t A) : keeps_status m -> keeps_or_ends m.
Proof. intros H s. left. apply H. Qed.

Lemma returns_status_bind {A} (m : M t A) (k : A -> M t (option stage)) :
  (forall a, returns_status (k a)) -> returns_status (Py.bind m k).
Proof.
  intros Hk s v. unfold Py.bind.
  destruct (m s) as [[a | e] s1]; cbn; [apply Hk | discriminate].
Qed.

Lemma returns_status_return : returns_status return_status.
Proof. intros s v H. cbn in H. now injection H as <-. Qed.

Lemma keeps_status_extract (count : option Z) : keeps_status (__extract__ count).
Proof.
  intros s. destruct (extract_any count s) as (o & r' & -> & H & _). exact H.
Qed.

Lemma keeps_status_lift {A} (o : outcome A) : keeps_status (Py.lift o : M t A).
Proof. intros s. reflexivity. Qed.

Lemma keeps_status_int_attr (a : option Z) : keeps_status (int_attr a).
Proof. intros s. now destruct a. Qed.

Lemma keeps_status_header_get (f : string) : keeps_status (header_get f).
Proof. intros s. unfold header_get. now destruct (header s). Qed.

Lemma keeps_status_header_parse (bs : list byte) : keeps_status (header_parse bs).
Proof.
  intros s. unfold header_parse. destruct (header s) as [h |]; [| reflexivity].
  now destruct (EdfHeader.parse bs h).
Qed.

Lemma keeps_status_parse_fields (hb : list byte) :
  forall todo end_, keeps_status (parse_fields todo hb end_).
Proof.
  induction todo as [| [l w] todo IH]; intros end_; cbn [parse_fields].
  - intros s. reflexivity.
  - apply keeps_status_bind; [intros s; reflexivity |]. intros self.
    apply keeps_status_bind; [apply keeps_status_int_attr |]. intros n.
    apply keeps_status_bind; [apply keeps_status_lift |]. intros chunks.
    apply keeps_status_bind; [| intros _; apply IH].
    intros s. now destruct (set_metadata_each _ _ _).
Qed.

Lemma keeps_status_parse_metadata (hb : list byte) :
  keeps_status (__parse_metadata__ hb).
Proof.
  unfold __parse_metadata__.
  apply keeps_status_bind; [apply keeps_status_parse_fields |]. intros _.
  apply keeps_status_bind; [intros s; reflexivity |]. intros self.
  apply keeps_status_bind; [apply keeps_status_lift |]. intros counts.
  apply keeps_status_bind; [intros s; reflexivity | intros a s; reflexivity].
Qed.

Lemma keeps_status_parse_one_record (sample : list byte) :
  keeps_status (__parse_one_record__ sample).
Proof.
  destruct sample as [| b sample]; [intros s; reflexivity |].
  cbn [__parse_one_record__].
  apply keeps_status_bind; [intros s; reflexivity |]. intros self.
  apply keeps_status_bind; [apply keeps_status_int_attr |]. intros n.
  apply keeps_status_bind; [apply keeps_status_lift |]. intros data.
  intros s. now destruct (distribute _ _ _).
Qed.

Lemma keeps_or_ends_read_slot (count : option Z) : keeps_or_ends (read_slot count).
Proof.
  unfold read_slot.
  apply keeps_or_ends_bind; [apply keeps_status_ends, keeps_status_extract |].
  intros bs. destruct (0 <? length bs)%nat.
  - apply keeps_status_ends, keeps_status_parse_one_record.
  - intros s. now right.
Qed.

Lemma keeps_or_ends_read_slots (count : option Z) :
  forall n, keeps_or_ends (read_slots n count).
Proof.
  induction n as [| n IH]; cbn [read_slots].
  - intros s. now left.
  - apply keeps_or_ends_bind; [apply keeps_or_ends_read_slot | intros _; apply IH].
Qed.

Lemma keeps_status_records_to_read (d : value) : keeps_status (records_to_read d).
Proof. intros s. now rewrite records_to_read_state. Qed.

Lemma returns_status_stream (d : value) : returns_status (stream d).
Proof.
  unfold stream. apply returns_status_bind. intros self.
  destruct (status self) as [[] |];
    repeat (apply returns_status_return || (apply returns_status_bind; intros ?)).
Qed.

Lemma stream_from_open (d : value) (r : t) :
  status r = Some STAGE_OPEN -> status (snd (stream d r)) = Some STAGE_HEADER.
Proof.
  intros Hst. unfold stream. unfold Py.bind at 1, Py.get. cbn beta iota. rewrite Hst.
  unfold Py.bind at 1, assign. cbn beta iota.
  unfold Py.bind at 1. cbn beta iota.
  match goal with |- status (snd (?m ?s)) = _ =>
    assert (H : keeps_status m); [| now rewrite (H s)] end.
  repeat (apply keeps_status_bind; [| intros ?]);
    try (intros s; reflexivity);
    auto using keeps_status_extract, keeps_status_header_parse,
      keeps_status_header_get, keeps_status_lift.
Qed.

Lemma stream_from_header (d : value) (r : t) :
  status r = Some STAGE_HEADER -> status (snd (stream d r)) = Some STAGE_METADATA.
Proof.
  intros Hst. unfold stream. unfold Py.bind at 1, Py.get. cbn beta iota. rewrite Hst.
  unfold Py.bind at 1, assign. cbn beta iota.
  match goal with |- status (snd (?m ?s)) = _ =>
    assert (H : keeps_status m); [| now rewrite (H s)] end.
  apply keeps_status_bind; [apply keeps_status_extract | intros bytes].
  apply keeps_status_bind; [apply keeps_status_parse_metadata | intros _].
  intros s. reflexivity.
Qed.

Lemma stream_from_parsing (d : value) (r : t) :
  status r = Some STAGE_METADATA \/ status r = Some STAGE_PARSING ->
  status (snd (stream d r)) = Some STAGE_PARSING
  \/ status (snd (stream d r)) = Some STAGE_DONE.
Proof.
  intros Hst. rewrite (stream_parsing d r Hst).
  destruct (fst (records_to_read d r)) as [n | e]; [| now left].
  assert (H : keeps_or_ends (read_slots (Z.to_nat n) (record_size r) ;;; return_status)).
  { apply keeps_or_ends_bind; [apply keeps_or_ends_read_slots | intros _].
    intros s. now left. }
  exact (H (set_status (Some STAGE_PARSING) r)).
Qed.

Lemma stream_idle (d : value) (r : t) :
  status r = Some STAGE_DONE \/ status r = None ->
  stream d r = (Returns (status r), r).
Proof.
  intros Hst. unfold stream. unfold Py.bind at 1, Py.get. cbn beta iota.
  destruct Hst as [Hst | Hst]; rewrite Hst; unfold return_status; now rewrite Hst.
Qed.
End StageTransitions.

(** X2: every call of [stream], whether it returns or raises, moves the stage
    as follows: from [STAGE_OPEN] to [STAGE_HEADER], from [STAGE_HEADER]
    to [STAGE_METADATA], from [STAGE_METADATA] or [STAGE_PARSING] to
    [STAGE_PARSING] or [STAGE_DONE]; in [STAGE_DONE], and before a source
    is attached, the call changes nothing.  The stage is assigned before
    the bytes of the stage are parsed, so a call that raises has advanced
    it all the same; the result of a call that returns is the stage it
    leaves. *)
Theorem stream_stage_transitions (d : value) (r : EdfRecording.t) :
  let r' := snd (EdfRecording.stream d r) in
  match EdfRecording.status r with
  | Some EdfRecording.STAGE_OPEN =>
      EdfRecording.status r' = Some EdfRecording.STAGE_HEADER
  | Some EdfRecording.STAGE_HEADER =>
      EdfRecording.status r' = Some EdfRecording.STAGE_METADATA
  | Some EdfRecording.STAGE_METADATA | Some EdfRecording.STAGE_PARSING =>
      EdfRecording.status r' = Some EdfRecording.STAGE_PARSING
      \/ EdfRecording.status r' = Some EdfRecording.STAGE_DONE
  | Some EdfRecording.STAGE_DONE | None =>
      EdfRecording.stream d r = (Returns (EdfRecording.status r), r)
  end
  /\ (forall v, fst (EdfRecording.stream d r) = Returns v -> v = EdfRecording.status r')
  /\ (stage_rank (EdfRecording.status r) <= stage_rank (EdfRecording.status r'))%nat.
Proof.
  cbn zeta.
  assert (Hmain :
    match EdfRecording.status r with
    | Some EdfRecording.STAGE_OPEN =>
        EdfRecording.status (snd (EdfRecording.stream d r)) = Some EdfRecording.STAGE_HEADER
    | Some EdfRecording.STAGE_HEADER =>
        EdfRecording.status (snd (EdfRecording.stream d r)) = Some EdfRecording.STAGE_METADATA
    | Some EdfRecording.STAGE_METADATA | Some EdfRecording.STAGE_PARSING =>
        EdfRecording.status (snd (EdfRecording.stream d r)) = Some EdfRecording.STAGE_PARSING
        \/ EdfRecording.status (snd (EdfRecording.stream d r)) = Some EdfRecording.STAGE_DONE
    | Some EdfRecording.STAGE_DONE | None =>
        EdfRecording.stream d r = (Returns (EdfRecording.status r), r)
    end).
  { destruct (EdfRecording.status r) as [[] |] eqn:Hst;
      auto using stream_from_open, stream_from_header, stream_from_parsing.
    - rewrite (stream_idle d r) by auto. now rewrite Hst.
    - rewrite (stream_idle d r) by auto. now rewrite Hst. }
  split; [exact Hmain |].
  split; [intros v Hv; now apply returns_status_stream |].
  destruct (EdfRecording.status r) as [[] |] eqn:Hst;
    try (rewrite Hmain; cbn; lia);
    try (destruct Hmain as [-> | ->]; cbn; lia).
  rewrite Hmain. cbn [snd]. now rewrite Hst.
Qed.

Section OpenAndHeader.
Import EdfRecording.

Lemma header_parse_ok (bs : list byte) (h : EdfHeader.t) :
  length bs = 256%nat ->
  EdfHeader.parse bs h = (Returns tt, snd (EdfHeader.parse bs h)).
Proof.
  intros Hlen. unfold EdfHeader.parse, unpack_s.
  change EdfHeader.size with 256. change (sum_Z EdfHeader.fields_sizes) with 256.
  rewrite Hlen. reflexivity.
Qed.

Lemma header_parse_short (bs : list byte) (h : EdfHeader.t) :
  length bs <> 256%nat -> EdfHeader.parse bs h = (Raises Exception, h).
Proof.
  intros Hlen. unfold EdfHeader.parse. change EdfHeader.size with 256.
  destruct (Z.eqb_spec (Z.of_nat (length bs)) 256); [lia | reflexivity].
Qed.

Lemma mapM_counted (sigs : list Signal.t) :
  forall counts,
    Signal.mapM Signal.number_samples_per_record sigs = Returns counts ->
    counted sigs counts.
Proof.
  induction sigs as [| s sigs IH]; intros counts H; cbn in H.
  - injection H as <-. constructor.
  - destruct (Signal.number_samples_per_record s) as [c | e] eqn:Hs; [| discriminate].
    cbn in H.
    destruct (Signal.mapM Signal.number_samples_per_record sigs) as [cs | e];
      [| discriminate].
    cbn in H. injection H as <-. constructor; auto. now apply IH.
Qed.
End OpenAndHeader.

(** X3: a call in the open stage on a source with fewer than 256 bytes raises
    the header-size [Exception]; the stage has been set to [STAGE_HEADER]
    and the header to an empty [EdfHeader] before, and the signal count
    and the descriptors are as they were. *)
Theorem stream_open_short_source (d : value) (r : EdfRecording.t) :
  EdfRecording.status r = Some EdfRecording.STAGE_OPEN ->
  (length (pending r) < 256)%nat ->
  let r' := snd (EdfRecording.stream d r) in
  fst (EdfRecording.stream d r) = Raises Exception
  /\ EdfRecording.status r' = Some EdfRecording.STAGE_HEADER
  /\ EdfRecording.header r' = Some EdfHeader.__init__
  /\ EdfRecording.number_signals r' = EdfRecording.number_signals r
  /\ EdfRecording.signals r' = EdfRecording.signals r.
Proof.
  intros Hst Hlen. cbn zeta.
  set (r1 := EdfRecording.set_status (Some EdfRecording.STAGE_HEADER)
               (EdfRecording.set_header (Some EdfHeader.__init__) r)).
  destruct (extract_returns EdfHeader.size r1 ltac:(vm_compute; discriminate))
    as (r2 & He & Hst2 & Hh2 & Hn2 & _ & _ & Hsig2 & _).
  assert (Hrun : EdfRecording.stream d r
                 = (Raises Exception,
                    EdfRecording.set_header (Some EdfHeader.__init__) r2)).
  { unfold EdfRecording.stream. unfold Py.bind at 1, Py.get. cbn beta iota. rewrite Hst.
    unfold Py.bind at 1, EdfRecording.assign. cbn beta iota.
    unfold Py.bind at 1. cbn beta iota. fold r1.
    unfold Py.bind at 1. rewrite He.
    unfold Py.bind at 1, EdfRecording.header_parse. rewrite Hh2.
    change (EdfRecording.header r1) with (Some EdfHeader.__init__). cbn beta iota.
    rewrite header_parse_short; [reflexivity |].
    change (pending r1) with (pending r). rewrite length_take.
    change (Z.to_nat EdfHeader.size) with 256%nat. lia. }
  rewrite Hrun. cbn [fst snd].
  split; [reflexivity |]. split; [exact Hst2 |]. split; [reflexivity |].
  split; [exact Hn2 | exact Hsig2].
Qed.

Lemma stream_open_short_source_witness :
  let r := Fixture.opened (take 100 Fixture.blob) in
  EdfRecording.status r = Some EdfRecording.STAGE_OPEN
  /\ (length (pending r) < 256)%nat
  /\ fst (EdfRecording.stream VNone r) = Raises Exception
  /\ EdfRecording.status (snd (EdfRecording.stream VNone r))
     = Some EdfRecording.STAGE_HEADER.
Proof.
  cbn zeta.
  assert (H1 : EdfRecording.status (Fixture.opened (take 100 Fixture.blob))
               = Some EdfRecording.STAGE_OPEN) by reflexivity.
  assert (H2 : (length (pending (Fixture.opened (take 100 Fixture.blob))) < 256)%nat)
    by (vm_compute; lia).
  split; [exact H1 |]. split; [exact H2 |].
  destruct (stream_open_short_source VNone _ H1 H2) as (Hr & Hs & _).
  split; [exact Hr | exact Hs].
Defined.

Section OpenStage.
Import EdfRecording.

Lemma stream_open_run (d : value) (r r2 : t) (h : EdfHeader.t) (ns nr : Z) :
  status r = Some STAGE_OPEN ->
  __extract__ (Some EdfHeader.size)
    (set_status (Some STAGE_HEADER) (set_header (Some EdfHeader.__init__) r))
  = (Returns (take (Z.to_nat EdfHeader.size) (pending r)), r2) ->
  header r2 = Some EdfHeader.__init__ ->
  EdfHeader.parse (take (Z.to_nat EdfHeader.size) (pending r)) EdfHeader.__init__
  = (Returns tt, h) ->
  Py.int (EdfHeader.get h "number_signals") = Returns ns ->
  Py.int (EdfHeader.get h "number_records") = Returns nr ->
  stream d r
  = (Returns (status r2),
     set_signals (replicate (Z.to_nat ns) Signal.__init__)
       (set_record_size (Some 0)
          (set_samples_per_record (Some 0)
             (set_signal_header_size (Some (ns * sum_Z SIGNAL_HEADER_FIELDS_SIZE))
                (set_number_records (Some nr)
                   (set_number_signals (Some ns) (set_header (Some h) r2))))))).
Proof.
  intros Hst He Hh2 Hp Hns Hnr.
  unfold stream. unfold Py.bind at 1, Py.get. cbn beta iota. rewrite Hst.
  unfold Py.bind at 1, assign. cbn beta iota.
  unfold Py.bind at 1. cbn beta iota.
  unfold Py.bind at 1. rewrite He.
  unfold Py.bind at 1, header_parse. rewrite Hh2, Hp.
  unfold Py.bind at 1, header_get. cbn [header set_header]. cbn beta iota.
  unfold Py.bind at 1, Py.lift. rewrite Hns.
  unfold Py.bind at 1. cbn beta iota.
  unfold Py.bind at 1. cbn [header set_header set_number_signals]. cbn beta iota.
  unfold Py.bind at 1. rewrite Hnr.
  reflexivity.
Qed.
End OpenStage.

(** X4: a call in the open stage on a source that holds at least 256 bytes
    reads exactly 256 of them, parses them as the header and returns
    ['header']: the signal and record counts are the integers of the
    header entries, the size of the metadata block is 256 bytes per
    signal, the record geometry is zero, and there is one new descriptor
    per signal (none when the count is negative). *)
Theorem stream_open_reads_header (d : value) (r : EdfRecording.t) (ns nr : Z) :
  EdfRecording.status r = Some EdfRecording.STAGE_OPEN ->
  single_source r ->
  (256 <= length (pending r))%nat ->
  let h := snd (EdfHeader.parse (take 256 (pending r)) EdfHeader.__init__) in
  Py.int (EdfHeader.get h "number_signals") = Returns ns ->
  Py.int (EdfHeader.get h "number_records") = Returns nr ->
  exists r',
    EdfRecording.stream d r = (Returns (Some EdfRecording.STAGE_HEADER), r')
    /\ EdfRecording.status r' = Some EdfRecording.STAGE_HEADER
    /\ EdfRecording.header r' = Some h
    /\ EdfRecording.number_signals r' = Some ns
    /\ EdfRecording.number_records r' = Some nr
    /\ EdfRecording.signal_header_size r' = Some (ns * 256)
    /\ EdfRecording.samples_per_record r' = Some 0
    /\ EdfRecording.record_size r' = Some 0
    /\ EdfRecording.signals r' = replicate (Z.to_nat ns) Signal.__init__
    /\ single_source r'
    /\ pending r' = drop 256 (pending r).
Proof.
  intros Hst Hsrc Hlen h Hns Hnr.
  set (r1 := EdfRecording.set_status (Some EdfRecording.STAGE_HEADER)
               (EdfRecording.set_header (Some EdfHeader.__init__) r)).
  destruct (extract_returns EdfHeader.size r1 ltac:(vm_compute; discriminate))
    as (r2 & He & Hst2 & Hh2 & _ & _ & _ & _ & Hp2).
  destruct (Hp2 Hsrc) as [Hsrc2 Hpend2].
  change (pending r1) with (pending r) in He, Hpend2.
  assert (Hp : EdfHeader.parse (take (Z.to_nat EdfHeader.size) (pending r))
                 EdfHeader.__init__ = (Returns tt, h)).
  { apply header_parse_ok. rewrite length_take.
    change (Z.to_nat EdfHeader.size) with 256%nat. lia. }
  eexists. split.
  - rewrite (stream_open_run d r r2 h ns nr Hst He Hh2 Hp Hns Hnr).
    rewrite Hst2. reflexivity.
  - cbn. repeat split; try assumption; reflexivity.
Qed.

Lemma stream_open_reads_header_witness :
  let r := Fixture.opened (odd_header ++ Fixture.metadata_bytes) in
  exists r',
    EdfRecording.stream VNone r = (Returns (Some EdfRecording.STAGE_HEADER), r')
    /\ EdfRecording.number_signals r' = Some 2
    /\ EdfRecording.number_records r' = Some (-5)
    /\ EdfRecording.signal_header_size r' = Some 512
    /\ length (EdfRecording.signals r') = 2%nat
    /\ pending r' = Fixture.metadata_bytes.
Proof.
  cbn zeta.
  set (r := Fixture.opened (odd_header ++ Fixture.metadata_bytes)).
  assert (H1 : EdfRecording.status r = Some EdfRecording.STAGE_OPEN) by reflexivity.
  assert (H2 : single_source r) by (left; reflexivity).
  assert (H3 : (256 <= length (pending r))%nat) by (vm_compute; lia).
  assert (H4 : Py.int (EdfHeader.get
                         (snd (EdfHeader.parse (take 256 (pending r)) EdfHeader.__init__))
                         "number_signals") = Returns 2) by (vm_compute; reflexivity).
  assert (H5 : Py.int (EdfHeader.get
                         (snd (EdfHeader.parse (take 256 (pending r)) EdfHeader.__init__))
                         "number_records") = Returns (-5)) by (vm_compute; reflexivity).
  destruct (stream_open_reads_header VNone r 2 (-5) H1 H2 H3 H4 H5)
    as (r' & Hrun & _ & _ & Hns & Hnr & Hsz & _ & _ & Hsig & _ & Hpend).
  exists r'. split; [exact Hrun |]. split; [exact Hns |]. split; [exact Hnr |].
  split; [exact Hsz |]. split; [rewrite Hsig; reflexivity |].
  rewrite Hpend. vm_compute. reflexivity.
Defined.

(** X5: a call in the header stage that returns has returned ['metadata'] and
    left the geometry of the records behind: the samples of one record
    are the sum of the counts the descriptors now declare, a record takes
    two bytes per sample, and the descriptors are as many as before and
    hold the records they held. *)
Theorem stream_header_sets_geometry (d : value) (r r' : EdfRecording.t)
        (v : option EdfRecording.stage) :
  EdfRecording.status r = Some EdfRecording.STAGE_HEADER ->
  EdfRecording.stream d r = (Returns v, r') ->
  v = Some EdfRecording.STAGE_METADATA
  /\ EdfRecording.status r' = Some EdfRecording.STAGE_METADATA
  /\ Forall2 same_samples (EdfRecording.signals r) (EdfRecording.signals r')
  /\ exists counts,
      counted (EdfRecording.signals r') counts
      /\ EdfRecording.samples_per_record r' = Some (sum_Z counts)
      /\ EdfRecording.record_size r' = Some (2 * sum_Z counts).
Proof.
  intros Hst H.
  pose proof (stream_from_header d r Hst) as Hs'.
  pose proof (returns_status_stream d r v) as Hv.
  rewrite H in Hs', Hv. cbn [fst snd] in Hs', Hv.
  split; [rewrite (Hv eq_refl); exact Hs' |]. split; [exact Hs' |].
  split; [exact (stream_header_samples d r r' v Hst H) |].
  unfold EdfRecording.stream in H.
  unfold Py.bind at 1, Py.get in H. cbn beta iota in H. rewrite Hst in H.
  do 3 bind_inv H.
  unfold EdfRecording.return_status in H. injection H as _ <-.
  unfold EdfRecording.__parse_metadata__ in E1.
  bind_inv E1. do 3 bind_inv E1.
  unfold EdfRecording.assign in E1, E5. injection E1 as _ <-. injection E5 as _ <-.
  unfold Py.get in E3. injection E3 as <- <-.
  unfold Py.lift in E4.
  destruct (Signal.mapM Signal.number_samples_per_record (EdfRecording.signals s2))
    as [counts |] eqn:Hc; [| discriminate E4].
  injection E4 as <- <-.
  exists counts. split; [| split; reflexivity].
  apply mapM_counted. exact Hc.
Qed.

Lemma stream_header_sets_geometry_witness :
  EdfRecording.status header_parsed_recording = Some EdfRecording.STAGE_HEADER
  /\ EdfRecording.stream VNone header_parsed_recording
     = (Returns (Some EdfRecording.STAGE_METADATA), two_signal_recording)
  /\ exists counts,
      counted (EdfRecording.signals two_signal_recording) counts
      /\ EdfRecording.record_size two_signal_recording = Some (2 * sum_Z counts).
Proof.
  assert (H1 : EdfRecording.status header_parsed_recording
               = Some EdfRecording.STAGE_HEADER) by (vm_compute; reflexivity).
  assert (H2 : EdfRecording.stream VNone header_parsed_recording
               = (Returns (Some EdfRecording.STAGE_METADATA), two_signal_recording))
    by (vm_compute; reflexivity).
  split; [exact H1 |]. split; [exact H2 |].
  destruct (stream_header_sets_geometry VNone _ _ _ H1 H2)
    as (_ & _ & _ & counts & Hc & _ & Hrs).
  exists counts. split; [exact Hc | exact Hrs].
Defined.

(** ** Records of the declared size *)

Section RecordSizes.
Import EdfRecording.

Lemma append_records_sized (sigs : list Signal.t) (counts : list Z) :
  Forall2 sized sigs counts ->
  forall slices,
    Forall2 (fun c sl => Z.of_nat (length sl) = c) counts slices ->
    Forall2 sized (append_records sigs slices) counts.
Proof.
  induction 1 as [| s c sigs counts Hs _ IH]; intros slices Hl.
  - inversion Hl; subst. constructor.
  - inversion Hl as [| ? sl ? slices' Hsl Hl']; subst.
    cbn. constructor; [| apply IH; assumption].
    unfold sized in *. cbn. apply Forall_app. split; [assumption |].
    constructor; [reflexivity | constructor].
Qed.

Lemma append_records_counted (sigs : list Signal.t) (counts : list Z) :
  counted sigs counts ->
  forall slices,
    Forall2 (fun c sl => Z.of_nat (length sl) = c) counts slices ->
    counted (append_records sigs slices) counts.
Proof.
  induction 1 as [| s c sigs counts Hs _ IH]; intros slices Hl.
  - inversion Hl; subst. constructor.
  - inversion Hl as [| ? sl ? slices' Hsl Hl']; subst.
    cbn. constructor; [exact Hs | apply IH; assumption].
Qed.

Lemma parse_one_record_sized (counts : list Z) (sample : list byte) (r r' : t) :
  sizes_kept counts r ->
  __parse_one_record__ sample r = (Returns tt, r') ->
  sizes_kept counts r'.
Proof.
  intros (Hc & Hpos & Hspr & Hsz) H.
  destruct sample as [| b sample]; [injection H as <-; repeat split; assumption |].
  cbn [__parse_one_record__] in H. run_monad_in H. rewrite Hspr in H.
  run_monad_in H. unfold unpack_h in H.
  pose proof (sum_Z_nonneg counts Hpos) as Hsum.
  destruct (Z.eqb_spec (Z.of_nat (length (b :: sample))) (2 * Z.max (sum_Z counts) 0))
    as [Hlen |]; [| discriminate H].
  rewrite Z.max_l in Hlen by lia.
  rewrite (distribute_split _ _ counts 0) in H by (auto; lia).
  injection H as <-. change (Z.to_nat 0) with 0%nat. rewrite drop_0.
  assert (Hd : length (decode_h (b :: sample)) = Z.to_nat (sum_Z counts))
    by (apply decode_h_length; lia).
  assert (Hl : Forall2 (fun c sl => Z.of_nat (length sl) = c) counts
                 (split_counts counts (decode_h (b :: sample))))
    by (apply split_counts_lengths; [assumption | lia]).
  split; [| split; [assumption | split; [assumption |]]]; cbn [signals set_signals].
  - apply append_records_counted; assumption.
  - apply append_records_sized; assumption.
Qed.

Lemma read_slot_sized (counts : list Z) (count : option Z) (r r' : t) :
  sizes_kept counts r ->
  read_slot count r = (Returns tt, r') ->
  sizes_kept counts r'.
Proof.
  intros Hk H. unfold read_slot in H. bind_inv H.
  destruct (extract_any count r) as (o & r1 & He & _ & Hsig & _ & _ & Hspr & _).
  rewrite He in E. injection E as -> <-.
  assert (Hk1 : sizes_kept counts r1).
  { unfold sizes_kept in *. now rewrite Hsig, Hspr. }
  destruct (0 <? length a)%nat.
  - eapply parse_one_record_sized; eauto.
  - unfold assign in H. injection H as <-. exact Hk1.
Qed.

Lemma read_slots_sized (counts : list Z) (count : option Z) :
  forall n r r',
    sizes_kept counts r ->
    read_slots n count r = (Returns tt, r') ->
    sizes_kept counts r'.
Proof.
  induction n as [| n IH]; intros r r' Hk H; cbn [read_slots] in H.
  - injection H as <-. assumption.
  - bind_inv H. destruct a. eauto using read_slot_sized.
Qed.

Lemma length_concat_sized (c : Z) (recs : list (list Z)) :
  Forall (fun rec => Z.of_nat (length rec) = c) recs ->
  Z.of_nat (length (concat recs)) = c * Z.of_nat (length recs).
Proof.
  induction 1 as [| rec recs Hrec _ IH]; cbn [concat length]; [lia |].
  rewrite length_app. lia.
Qed.
End RecordSizes.

(** X6: in the metadata and parsing stages every record a call appends to
    descriptor [i] holds exactly the [counts !! i] samples the descriptor
    declares (the counts being non-negative and [samples_per_record]
    their sum): if the records held before the call have that size, the
    records held after a call that returns have it too, and
    [total_number_of_samples()] is then the length of [get_samples()]. *)
Theorem records_have_the_declared_size (d : value) (r r' : EdfRecording.t)
        (v : option EdfRecording.stage) (counts : list Z) :
  EdfRecording.status r = Some EdfRecording.STAGE_METADATA
  \/ EdfRecording.status r = Some EdfRecording.STAGE_PARSING ->
  counted (EdfRecording.signals r) counts ->
  Forall (fun c => 0 <= c) counts ->
  EdfRecording.samples_per_record r = Some (sum_Z counts) ->
  Forall2 sized (EdfRecording.signals r) counts ->
  EdfRecording.stream d r = (Returns v, r') ->
  Forall2 sized (EdfRecording.signals r') counts
  /\ Forall (fun s => Signal.total_number_of_samples s
                      = Returns (Z.of_nat (length (Signal.get_samples s))))
       (EdfRecording.signals r').
Proof.
  intros Hst Hc Hpos Hspr Hsz H.
  rewrite stream_parsing in H by assumption.
  destruct (fst (EdfRecording.records_to_read d r)) as [n | e]; [| discriminate H].
  bind_inv H. unfold EdfRecording.return_status in H. injection H as _ <-.
  destruct a.
  apply (read_slots_sized counts) in E; [| repeat split; assumption].
  destruct E as (Hc' & _ & _ & Hsz'). split; [exact Hsz' |].
  clear - Hc' Hsz'. revert Hsz'.
  induction Hc' as [| sg c sigs counts Hs _ IH]; intros Hsz'; [constructor |].
  inversion Hsz'; subst. constructor; [| auto].
  unfold Signal.total_number_of_samples, Signal.get_samples, Signal.number_records.
  rewrite Hs. cbn. f_equal. symmetry. now apply length_concat_sized.
Qed.

Lemma records_have_the_declared_size_witness :
  let r := two_signal_recording in
  exists r',
    EdfRecording.stream (VInt 1) r = (Returns (Some EdfRecording.STAGE_PARSING), r')
    /\ Forall2 sized (EdfRecording.signals r') [2; 1]
    /\ map Signal.total_number_of_samples (EdfRecording.signals r')
       = [Returns 2; Returns 1].
Proof.
  cbn zeta.
  assert (H1 : EdfRecording.status two_signal_recording = Some EdfRecording.STAGE_METADATA
               \/ EdfRecording.status two_signal_recording = Some EdfRecording.STAGE_PARSING)
    by (left; vm_compute; reflexivity).
  assert (H2 : counted (EdfRecording.signals two_signal_recording) [2; 1])
    by concrete_counted.
  assert (H3 : Forall (fun c => 0 <= c) [2; 1]) by (repeat constructor; lia).
  assert (H4 : EdfRecording.samples_per_record two_signal_recording = Some (sum_Z [2; 1]))
    by (vm_compute; reflexivity).
  assert (H5 : Forall2 sized (EdfRecording.signals two_signal_recording) [2; 1]).
  { set (sigs := EdfRecording.signals two_signal_recording). vm_compute in sigs.
    subst sigs. repeat constructor. }
  set (r' := snd (EdfRecording.stream (VInt 1) two_signal_recording)).
  assert (H6 : EdfRecording.stream (VInt 1) two_signal_recording
               = (Returns (Some EdfRecording.STAGE_PARSING), r'))
    by (vm_compute; reflexivity).
  exists r'. split; [exact H6 |].
  destruct (records_have_the_declared_size (VInt 1) _ _ _ [2; 1] H1 H2 H3 H4 H5 H6)
    as [Hsz _].
  split; [exact Hsz |]. vm_compute. reflexivity.
Defined.

(** ** The loop of [parse_binary] on whole records *)

Section Termination.
Import EdfRecording.

Lemma records_to_read_geometry (d : value) (r r' : t) :
  same_geometry r r' ->
  fst (records_to_read d r') = fst (records_to_read d r).
Proof.
  intros (Hh & _ & _ & Hr). unfold records_to_read, header_get. run_monad.
  rewrite Hh, Hr. destruct (header r) as [h |]; [| reflexivity].
  destruct (isclose_zero (EdfHeader.get h "recordDuration")) as [[] | e];
    reflexivity.
Qed.

Lemma stream_whole_records (d : value) (r : t) (counts : list Z) (n : Z) (k : nat) :
  status r = Some STAGE_METADATA \/ status r = Some STAGE_PARSING ->
  geometry counts r -> single_source r -> whole_records counts k r ->
  fst (records_to_read d r) = Returns n ->
  exists r',
    stream d r = (Returns (status r'), r')
    /\ status r' = Some (if (Z.to_nat n <=? k)%nat then STAGE_PARSING else STAGE_DONE)
    /\ same_geometry r r'
    /\ single_source r'
    /\ pending r' = drop (Nat.min (Z.to_nat n) k * Z.to_nat (2 * sum_Z counts)) (pending r)
    /\ Forall2 (gained (Nat.min (Z.to_nat n) k)) (signals r) (signals r').
Proof.
  intros Hst Hgeo Hsrc Hwhole Hn.
  rewrite (stream_parsing d r Hst), Hn.
  assert (Hrs : record_size r = Some (2 * sum_Z counts))
    by (destruct Hgeo as (_ & _ & ? & _); assumption).
  rewrite Hrs.
  destruct (read_slots_whole counts (Z.to_nat n) k (set_status (Some STAGE_PARSING) r)
              Hgeo Hsrc Hwhole)
    as (r' & Hrun & Hst' & Hsame & Hsrc' & Hpend & Hsig).
  exists r'. unfold Py.bind. rewrite Hrun. unfold return_status.
  split; [reflexivity |].
  split; [rewrite Hst'; now destruct (Z.to_nat n <=? k)%nat |].
  split; [exact Hsame |]. split; [exact Hsrc' |]. split; [exact Hpend | exact Hsig].
Qed.

Lemma until_done_whole_records (counts : list Z) (n : Z) :
  1 <= n ->
  forall (fuel k : nat) (r : t),
    (k < fuel)%nat ->
    status r = Some STAGE_METADATA \/ status r = Some STAGE_PARSING ->
    geometry counts r -> single_source r -> whole_records counts k r ->
    fst (records_to_read (VInt DEFAULT_DURATION_IN_SECONDS) r) = Returns n ->
    exists r',
      until_done fuel r = (Returns true, r')
      /\ status r' = Some STAGE_DONE
      /\ same_geometry r r'
      /\ pending r' = drop (k * Z.to_nat (2 * sum_Z counts)) (pending r)
      /\ Forall2 (gained k) (signals r) (signals r').
Proof.
  intros Hn. induction fuel as [| fuel IH]; intros k r Hk Hst Hgeo Hsrc Hwhole Hreq;
    [lia |].
  assert (Hnd : is_done r = false)
    by (unfold is_done; destruct Hst as [-> | ->]; reflexivity).
  destruct (stream_whole_records _ r counts n k Hst Hgeo Hsrc Hwhole Hreq)
    as (r1 & Hrun & Hst1 & Hsame1 & Hsrc1 & Hpend1 & Hsig1).
  rewrite (until_done_step fuel r r1 _ Hnd Hrun).
  destruct (Nat.leb_spec (Z.to_nat n) k) as [Hle | Hgt].
  - (* the call has decoded [n] records and more blocks may be pending *)
    rewrite Nat.min_l in Hpend1, Hsig1 by assumption.
    assert (Hpos : 0 < 2 * sum_Z counts /\
                   Z.of_nat (length (pending r)) = Z.of_nat k * (2 * sum_Z counts)).
    { destruct Hwhole as [[_ ->] | H]; [lia | exact H]. }
    assert (Hgeo1 : geometry counts r1) by (eapply geometry_kept; eauto).
    assert (Hwhole1 : whole_records counts (k - Z.to_nat n) r1).
    { right. split; [apply Hpos |]. destruct Hpos as [Hpos Hlen].
      rewrite Hpend1, length_drop.
      rewrite Nat2Z.inj_sub, Nat2Z.inj_mul, Z2Nat.id by nia.
      rewrite Nat2Z.inj_sub by lia. nia. }
    assert (Hreq1 : fst (records_to_read (VInt DEFAULT_DURATION_IN_SECONDS) r1)
                    = Returns n)
      by (rewrite (records_to_read_geometry _ r r1 Hsame1); exact Hreq).
    destruct (IH (k - Z.to_nat n)%nat r1 ltac:(lia) ltac:(now right)
                Hgeo1 Hsrc1 Hwhole1 Hreq1)
      as (r' & Hrun' & Hst' & Hsame' & Hpend' & Hsig').
    exists r'. split; [exact Hrun' |]. split; [exact Hst' |].
    split; [unfold same_geometry in *; intuition congruence |].
    split.
    { rewrite Hpend', Hpend1, drop_drop. f_equal. nia. }
    replace k with (Z.to_nat n + (k - Z.to_nat n))%nat at 1 by lia.
    eapply Forall2_gained_trans; eauto.
  - (* the call has run out of source *)
    rewrite Nat.min_r in Hpend1, Hsig1 by lia.
    exists r1. split.
    + destruct fuel; cbn [until_done]; unfold is_done; now rewrite Hst1.
    + split; [exact Hst1 |]. split; [exact Hsame1 |].
      split; [exact Hpend1 | exact Hsig1].
Qed.
End Termination.

(** X7: once the metadata is parsed, the loop of [parse_binary] ends on every
    source that holds [k] whole record blocks, provided the parsing stage
    asks for at least one record per call: within [k + 1] iterations the
    stage is ['exhausted'], every descriptor has gained exactly the [k]
    records of the source, and no byte is pending when records have a
    positive size (with records of no byte the source is left unread). *)
Theorem parse_loop_ends_on_whole_records (r : EdfRecording.t) (counts : list Z)
        (n : Z) (k fuel : nat) :
  EdfRecording.status r = Some EdfRecording.STAGE_METADATA
  \/ EdfRecording.status r = Some EdfRecording.STAGE_PARSING ->
  geometry counts r ->
  single_source r ->
  whole_records counts k r ->
  fst (EdfRecording.records_to_read (VInt EdfRecording.DEFAULT_DURATION_IN_SECONDS) r)
  = Returns n ->
  1 <= n ->
  (k < fuel)%nat ->
  exists r',
    EdfRecording.until_done fuel r = (Returns true, r')
    /\ EdfRecording.status r' = Some EdfRecording.STAGE_DONE
    /\ Forall2 (gained k) (EdfRecording.signals r) (EdfRecording.signals r')
    /\ (0 < sum_Z counts -> pending r' = [])
    /\ (sum_Z counts = 0 -> pending r' = pending r).
Proof.
  intros Hst Hgeo Hsrc Hwhole Hreq Hn Hk.
  destruct (until_done_whole_records counts n Hn fuel k r Hk Hst Hgeo Hsrc Hwhole Hreq)
    as (r' & Hrun & Hst' & _ & Hpend & Hsig).
  exists r'. split; [exact Hrun |]. split; [exact Hst' |]. split; [exact Hsig |].
  rewrite Hpend. split.
  - intros Hpos. apply drop_ge.
    destruct Hwhole as [[Hz _] | [_ Hlen]]; [lia |].
    apply Nat2Z.inj_le. rewrite Nat2Z.inj_mul, Z2Nat.id by lia. lia.
  - intros ->. cbn. rewrite Nat.mul_0_r. reflexivity.
Qed.

Lemma parse_loop_ends_on_whole_records_witness :
  let r := two_signal_recording in
  exists r',
    EdfRecording.until_done 3 r = (Returns true, r')
    /\ EdfRecording.status r' = Some EdfRecording.STAGE_DONE
    /\ Forall2 (gained 2) (EdfRecording.signals r) (EdfRecording.signals r')
    /\ pending r' = [].
Proof.
  cbn zeta.
  assert (H1 : EdfRecording.status two_signal_recording = Some EdfRecording.STAGE_METADATA
               \/ EdfRecording.status two_signal_recording = Some EdfRecording.STAGE_PARSING)
    by (left; vm_compute; reflexivity).
  assert (H2 : geometry [2; 1] two_signal_recording).
  { unfold geometry. split; [concrete_counted |].
    split; [vm_compute; reflexivity |].
    split; [vm_compute; reflexivity |]. vm_compute. discriminate. }
  assert (H3 : single_source two_signal_recording) by (left; vm_compute; reflexivity).
  assert (H4 : whole_records [2; 1] 2 two_signal_recording).
  { right. split; vm_compute; reflexivity. }
  assert (H5 : fst (EdfRecording.records_to_read
                      (VInt EdfRecording.DEFAULT_DURATION_IN_SECONDS) two_signal_recording)
               = Returns 3600) by (vm_compute; reflexivity).
  destruct (parse_loop_ends_on_whole_records two_signal_recording [2; 1] 3600 2 3
              H1 H2 H3 H4 H5 ltac:(lia) ltac:(lia))
    as (r' & Hrun & Hst & Hsig & Hpend & _).
  exists r'. split; [exact Hrun |]. split; [exact Hst |]. split; [exact Hsig |].
  apply Hpend. vm_compute. reflexivity.
Defined.

(** ** Descriptors ([Signal]) *)

Section Descriptors.


Lemma mapM_length {A B} (f : A -> outcome B) (l : list A) :
  forall ys, Signal.mapM f l = Returns ys -> length ys = length l.
Proof.
  induction l as [| x l IH]; intros ys H; cbn in H.
  - now injection H as <-.
  - destruct (f x) as [y | e]; [| discriminate H]. cbn in H.
    destruct (Signal.mapM f l) as [ys' | e]; [| discriminate H]. cbn in H.
    injection H as <-. cbn. f_equal. now apply IH.
Qed.

Lemma mapM_shape {A B} (f : A -> outcome (list B)) (len : A -> nat) (l : list A) :
  (forall x y, f x = Returns y -> length y = len x) ->
  forall ys, Signal.mapM f l = Returns ys -> map (@length B) ys = map len l.
Proof.
  intros Hf. induction l as [| x l IH]; intros ys H; cbn in H.
  - now injection H as <-.
  - destruct (f x) as [y | e] eqn:Hx; [| discriminate H]. cbn in H.
    destruct (Signal.mapM f l) as [ys' | e]; [| discriminate H]. cbn in H.
    injection H as <-. cbn. f_equal; [now apply Hf | now apply IH].
Qed.

Lemma format_record_length (s : Signal.t) (scale : bool) (marker : value)
      (rec : list Z) (out : list value) :
  Signal.format_record s scale marker rec = Returns out ->
  length out = length rec.
Proof.
  unfold Signal.format_record. intros H.
  destruct (Signal.is_numerical s) as [[] | e]; cbn in H; [| | discriminate H].
  - destruct scale.
    + destruct (Signal.scaler s) as [sc |]; [| discriminate H].
      now apply mapM_length in H.
    + injection H as <-. apply length_map.
  - now apply mapM_length in H.
Qed.
End Descriptors.

(** X8: [get_record] after [add_samples_for_one_record]: the new record is
    the last one, at index [-1] and at the index that was the number of
    records; the records held before keep their non-negative indices,
    while their negative indices move down by one; an index is refused
    exactly when it is outside [-n, n) for the [n] records held. *)
Theorem get_record_after_append (s : Signal.t) (rec : list Z) (i : Z) :
  let s' := Signal.add_samples_for_one_record rec s in
  let n := Z.of_nat (Signal.number_records s) in
  Signal.get_record s' (-1) = Signal.RecordAt rec
  /\ Signal.get_record s' n = Signal.RecordAt rec
  /\ (0 <= i < n -> Signal.get_record s' i = Signal.get_record s i)
  /\ (- n <= i < 0 -> Signal.get_record s' (i - 1) = Signal.get_record s i)
  /\ (Signal.get_record s i = Signal.IndexError <-> i < - n \/ n <= i).
Proof.
  cbn zeta. unfold Signal.get_record, Signal.add_samples_for_one_record,
    Signal.number_records. cbn [Signal.samples].
  rewrite length_app. cbn [length].
  set (recs := Signal.samples s). set (n := length recs).
  assert (Hlast : (recs ++ [rec]) !! n = Some rec)
    by (rewrite lookup_app_r by lia; now rewrite Nat.sub_diag).
  split; [| split; [| split; [| split]]].
  - change (-1 <? 0) with true. cbn beta iota.
    replace (-1 + Z.of_nat (n + 1)) with (Z.of_nat n) by lia.
    rewrite Nat2Z.id, Hlast.
    destruct (Z.leb_spec 0 (Z.of_nat n)); [| lia].
    destruct (Z.ltb_spec (Z.of_nat n) (Z.of_nat (n + 1))); [reflexivity | lia].
  - destruct (Z.ltb_spec (Z.of_nat n) 0); [lia |].
    rewrite Nat2Z.id, Hlast.
    destruct (Z.leb_spec 0 (Z.of_nat n)); [| lia].
    destruct (Z.ltb_spec (Z.of_nat n) (Z.of_nat (n + 1))); [reflexivity | lia].
  - intros Hi. destruct (Z.ltb_spec i 0); [lia |].
    destruct (Z.leb_spec 0 i); [| lia].
    destruct (Z.ltb_spec i (Z.of_nat (n + 1))); [| lia].
    destruct (Z.ltb_spec i (Z.of_nat n)); [| lia]. cbn [andb].
    rewrite lookup_app_l by (subst n; lia). reflexivity.
  - intros Hi. destruct (Z.ltb_spec (i - 1) 0); [| lia].
    destruct (Z.ltb_spec i 0); [| lia].
    replace (i - 1 + Z.of_nat (n + 1)) with (i + Z.of_nat n) by lia.
    destruct (Z.leb_spec 0 (i + Z.of_nat n)); [| lia].
    destruct (Z.ltb_spec (i + Z.of_nat n) (Z.of_nat (n + 1))); [| lia].
    destruct (Z.ltb_spec (i + Z.of_nat n) (Z.of_nat n)); [| lia]. cbn [andb].
    rewrite lookup_app_l by (subst n; lia). reflexivity.
  - destruct (Z.ltb_spec i 0).
    + destruct (Z.leb_spec 0 (i + Z.of_nat n)); cbn [andb]; [| split; [lia | reflexivity]].
      destruct (Z.ltb_spec (i + Z.of_nat n) (Z.of_nat n)); [| lia].
      destruct (lookup_lt_is_Some_2 recs (Z.to_nat (i + Z.of_nat n)) ltac:(subst n; lia))
        as [x ->].
      split; [discriminate | lia].
    + destruct (Z.leb_spec 0 i); [| lia]. cbn [andb].
      destruct (Z.ltb_spec i (Z.of_nat n)); [| split; [lia | reflexivity]].
      destruct (lookup_lt_is_Some_2 recs (Z.to_nat i) ltac:(subst n; lia)) as [x ->].
      split; [discriminate | lia].
Qed.

(** X9: [format_samples] keeps the shape of the records: when it returns,
    whatever the flags and the metadata, it returns as many records as
    the descriptor holds, each with as many values as the record has
    samples. *)
Theorem format_samples_keeps_the_shape (s : Signal.t) (scale : bool) (marker : value)
        (out : list (list value)) :
  Signal.format_samples s scale marker = Returns out ->
  map (@length value) out = map (@length Z) (Signal.samples s).
Proof.
  unfold Signal.format_samples. intros H.
  destruct (negb scale && negb (truthy marker)).
  - injection H as <-. rewrite map_map. apply map_ext. intros rec. apply length_map.
  - eapply mapM_shape; [| exact H]. intros rec y. apply format_record_length.
Qed.

Lemma format_samples_keeps_the_shape_witness :
  exists out,
    Signal.format_samples numerical_signal true VNone = Returns out
    /\ map (@length value) out = [2; 2]%nat.
Proof.
  set (o := Signal.format_samples numerical_signal true VNone).
  assert (Ho : exists out, o = Returns out).
  { vm_compute in o. subst o. eexists. reflexivity. }
  destruct Ho as [out Ho]. exists out. split; [exact Ho |].
  rewrite (format_samples_keeps_the_shape numerical_signal true VNone out Ho).
  vm_compute. reflexivity.
Defined.

(** ** The scaler *)

Section FlatScaler.

Lemma SFsub_diag (d : float) :
  SFsub prec emax d d = S754_zero false \/ SFsub prec emax d d = S754_nan.
Proof.
  destruct d as [[] | [] | | s m e]; cbn; auto.
  left. unfold SFsub. cbn zeta. rewrite Z.sub_diag. reflexivity.
Qed.
End FlatScaler.

(** X10: a scaler built from equal digital bounds never divides: whatever the
    physical bounds and whatever float the digital bounds are (finite,
    infinite or not a number), [d_delta] is zero or not a number, both
    comparisons with 0 fail, and [scale] returns its argument as it is,
    of any type. *)
Theorem scaler_with_equal_digital_bounds (pmax pmin dmax dmin x : value)
        (a b d : float) :
  to_float pmax = Returns a ->
  to_float pmin = Returns b ->
  to_float dmax = Returns d ->
  to_float dmin = Returns d ->
  exists sc,
    Scaler.__init__ pmax pmin dmax dmin = Returns sc
    /\ Scaler.scale sc x = Returns x.
Proof.
  intros Ha Hb Hc Hd. unfold Scaler.__init__, Scaler.convert_bounds.
  rewrite Ha, Hb, Hc, Hd. cbn [obind]. eexists. split; [reflexivity |].
  unfold Scaler.scale. cbn [Scaler.d_delta].
  destruct (SFsub_diag d) as [-> | ->]; reflexivity.
Qed.

Lemma scaler_with_equal_digital_bounds_witness :
  exists sc,
    Scaler.__init__ (VStr "100") (VStr "-100") (VStr " 1e3") (VInt 1000) = Returns sc
    /\ Scaler.scale sc (VStr "NaN") = Returns (VStr "NaN").
Proof.
  assert (Ha : to_float (VStr "100") = Returns (S754_finite false 7036874417766400 (-46)))
    by (vm_compute; reflexivity).
  assert (Hb : to_float (VStr "-100") = Returns (S754_finite true 7036874417766400 (-46)))
    by (vm_compute; reflexivity).
  assert (Hc : to_float (VStr " 1e3") = Returns (S754_finite false 8796093022208000 (-43)))
    by (vm_compute; reflexivity).
  assert (Hd : to_float (VInt 1000) = Returns (S754_finite false 8796093022208000 (-43)))
    by (vm_compute; reflexivity).
  exact (scaler_with_equal_digital_bounds _ _ _ _ (VStr "NaN") _ _ _ Ha Hb Hc Hd).
Defined.

(** ** Hexadecimal rendering *)

Section HexDigits.



End HexDigits.



(** ** The keys of a parsed header *)

Section HeaderKeys.

Lemma header_dict_parsed (header : list byte) (self : EdfHeader.t) :
  length header = 256%nat ->
  snd (EdfHeader.parse header self)
  = {| EdfHeader.header_dict :=
        list_to_map
          (zip_with (fun k v => (k, EdfHeader.convert k v)) EdfHeader.fields
             (split_widths EdfHeader.fields_sizes header)) |}.
Proof.
  intros Hlen. unfold EdfHeader.parse, unpack_s.
  change EdfHeader.size with 256. change (sum_Z EdfHeader.fields_sizes) with 256.
  rewrite Hlen. reflexivity.
Qed.

Lemma convert_not_None (k : string) (v : list byte) : EdfHeader.convert k v <> VNone.
Proof.
  unfold EdfHeader.convert, string_to_numerical.
  destruct (bool_decide _); [| discriminate].
  destruct (int_of_bytes _); [discriminate |].
  destruct (float_of_bytes _); discriminate.
Qed.
End HeaderKeys.

(** X12: after [parse] has accepted a 256-byte buffer the dictionary has the
    ten field names as its keys and no other, whatever it held before:
    [header[k]] returns for these and raises [KeyError] for any other
    name, and [get] answers [None] for a name that is not a field and
    never for one that is. *)
Theorem parsed_header_has_exactly_the_fields (header : list byte) (self : EdfHeader.t)
        (k : string) :
  length header = 256%nat ->
  let h := snd (EdfHeader.parse header self) in
  (k ∈ EdfHeader.fields ->
   exists v, EdfHeader.__getitem__ h k = Returns v
             /\ EdfHeader.get h k = v /\ v <> VNone)
  /\ (k ∉ EdfHeader.fields ->
      EdfHeader.__getitem__ h k = Raises KeyError /\ EdfHeader.get h k = VNone)
  /\ h = snd (EdfHeader.parse header EdfHeader.__init__).
Proof.
  intros Hlen h. split; [| split].
  - intros Hk. apply list_elem_of_lookup in Hk as [i Hi].
    destruct (lookup_lt_is_Some_2 EdfHeader.fields_sizes i) as [w Hw].
    { apply lookup_lt_Some in Hi. exact Hi. }
    pose proof (header_dict_lookup header self i k w Hlen Hi Hw) as Hd.
    fold h in Hd. eexists. unfold EdfHeader.__getitem__, EdfHeader.get.
    rewrite Hd. cbn. split; [reflexivity |]. split; [reflexivity |].
    apply convert_not_None.
  - intros Hk. subst h. rewrite (header_dict_parsed header self Hlen).
    unfold EdfHeader.__getitem__, EdfHeader.get. cbn [EdfHeader.header_dict].
    rewrite (not_elem_of_list_to_map_1 _ k); [split; reflexivity |].
    rewrite keys_of_zip by (now rewrite split_widths_length). exact Hk.
  - subst h. now rewrite !header_dict_parsed.
Qed.

Lemma parsed_header_has_exactly_the_fields_witness :
  let h := snd (EdfHeader.parse odd_header EdfHeader.__init__) in
  EdfHeader.__getitem__ h "Label" = Raises KeyError
  /\ EdfHeader.get h "Label" = VNone
  /\ exists v, EdfHeader.__getitem__ h "recordDuration" = Returns v /\ v <> VNone.
Proof.
  cbn zeta.
  assert (Hlen : length odd_header = 256%nat) by (vm_compute; reflexivity).
  destruct (parsed_header_has_exactly_the_fields odd_header EdfHeader.__init__
              "Label" Hlen) as (_ & Hout & _).
  destruct (parsed_header_has_exactly_the_fields odd_header EdfHeader.__init__
              "recordDuration" Hlen) as (Hin & _ & _).
  destruct Hout as [H1 H2].
  { apply (bool_decide_unpack _). vm_compute. exact I. }
  destruct Hin as (v & Hv & _ & Hn).
  { apply (bool_decide_unpack _). vm_compute. exact I. }
  split; [exact H1 |]. split; [exact H2 |]. exists v. split; [exact Hv | exact Hn].
Defined.

(** ** Export ([to_json_object]) *)

Section JsonExport.
Import EdfRecording.

Lemma export_signals_list (l : list Z) (parts : list string) :
  forall (sigs : list Signal.t) (i0 : nat),
    export_signals (WantedList l) parts (Z.of_nat i0) sigs
    = Signal.mapM (fun s => Signal.to_json_object s parts)
        (map snd (List.filter (fun p => bool_decide (Z.of_nat (fst p) ∈ l))
                    (zip (seq i0 (length sigs)) sigs))).
Proof.
  induction sigs as [| s sigs IH]; intros i0; [reflexivity |].
  cbn [export_signals is_wanted obind length seq zip_with List.filter fst].
  replace (Z.of_nat i0 + 1) with (Z.of_nat (S i0)) by lia.
  rewrite IH. destruct (bool_decide (Z.of_nat i0 ∈ l)); reflexivity.
Qed.

Lemma export_signals_all (parts : list string) :
  forall (sigs : list Signal.t) (i : Z),
    export_signals (WantedInt (-1)) parts i sigs
    = Signal.mapM (fun s => Signal.to_json_object s parts) sigs.
Proof.
  induction sigs as [| s sigs IH]; intros i; [reflexivity |].
  cbn [export_signals is_wanted obind Signal.mapM]. change (-1 =? -1) with true.
  cbn beta iota. now rewrite IH.
Qed.

Lemma chosen_outside (l : list Z) :
  forall (sigs : list Signal.t) (i0 : nat),
    (forall i, i ∈ l -> i < Z.of_nat i0 \/ Z.of_nat (i0 + length sigs) <= i) ->
    map snd (List.filter (fun p => bool_decide (Z.of_nat (fst p) ∈ l))
               (zip (seq i0 (length sigs)) sigs)) = [].
Proof.
  induction sigs as [| s sigs IH]; intros i0 Hl; [reflexivity |].
  cbn [length seq zip_with List.filter fst].
  rewrite bool_decide_eq_false_2.
  - apply IH. intros i Hi. destruct (Hl i Hi) as [H | H]; cbn [length] in H; lia.
  - intros Hi. destruct (Hl _ Hi) as [H | H]; cbn [length] in H; lia.
Qed.
End JsonExport.

(** X13: what [to_json_object] selects through ['slicing_by_index']: with a
    list, the descriptors whose index is a member of the list, in
    descriptor order and once each; an index that is negative or too
    large selects nothing, so [[-1]] exports no signal although the
    integer [-1] exports them all; any other integer is a [TypeError] as
    soon as there is a descriptor; and with the default options a
    recording whose header has not been read cannot be exported. *)
Theorem export_selects_signals_by_index (self : EdfRecording.t) (parts : list string)
        (l : list Z) (z : Z) :
  let sigs := EdfRecording.signals self in
  EdfRecording.to_json_object self (signals_only (EdfRecording.WantedList l) parts)
  = signals_json parts (chosen l sigs)
  /\ EdfRecording.to_json_object self (signals_only (EdfRecording.WantedInt (-1)) parts)
     = signals_json parts sigs
  /\ ((forall i, i ∈ l -> i < 0 \/ Z.of_nat (length sigs) <= i) -> chosen l sigs = [])
  /\ (z <> -1 ->
      EdfRecording.to_json_object self (signals_only (EdfRecording.WantedInt z) parts)
      = match sigs with
        | [] => signals_json parts []
        | _ :: _ => Raises TypeError
        end)
  /\ (EdfRecording.header self = None ->
      EdfRecording.to_json_object self EdfRecording.DEFAULT_EXPORT_OPTIONS
      = Raises AttributeError).
Proof.
  cbn zeta. unfold EdfRecording.to_json_object, signals_only, signals_json, chosen.
  cbn [EdfRecording.opt_header EdfRecording.opt_slicing_by_index
       EdfRecording.opt_signal obind app].
  split; [| split; [| split; [| split]]].
  - change 0 with (Z.of_nat 0) at 1.
    now rewrite (export_signals_list l parts (EdfRecording.signals self) 0).
  - now rewrite export_signals_all.
  - intros Hl. apply (chosen_outside l _ 0%nat). exact Hl.
  - intros Hz. destruct (EdfRecording.signals self) as [| s sigs]; [reflexivity |].
    cbn [EdfRecording.export_signals EdfRecording.is_wanted].
    destruct (Z.eqb_spec z (-1)); [contradiction | reflexivity].
  - intros Hh. cbn. rewrite Hh. reflexivity.
Qed.

(** X14: a descriptor whose metadata lacks ['Transducer Type'] can be
    formatted only while it holds no record: [is_numerical] is consulted
    once per record, so with a record held, and scaling or a marker asked
    for, [format_samples] raises [KeyError]; with no record it returns the
    empty list. *)
Theorem format_samples_needs_metadata (s : Signal.t) (scale : bool) (marker : value) :
  Signal.metadata s !! "Transducer Type"%string = None ->
  scale = true \/ truthy marker = true ->
  Signal.format_samples s scale marker
  = match Signal.samples s with
    | [] => Returns []
    | _ :: _ => Raises KeyError
    end.
Proof.
  intros Hm Hflags. unfold Signal.format_samples.
  assert (Hf : negb scale && negb (truthy marker) = false)
    by (destruct Hflags as [-> | ->]; [reflexivity | apply andb_false_r]).
  rewrite Hf. destruct (Signal.samples s) as [| rec recs]; [reflexivity |].
  cbn [Signal.mapM]. unfold Signal.format_record, Signal.is_numerical, Signal.item.
  rewrite Hm. reflexivity.
Qed.

Lemma format_samples_needs_metadata_witness :
  Signal.format_samples (Signal.add_samples_for_one_record [1] Signal.__init__) true VNone
  = Raises KeyError
  /\ Signal.format_samples Signal.__init__ true VNone = Returns [].
Proof.
  split.
  - exact (format_samples_needs_metadata
             (Signal.add_samples_for_one_record [1] Signal.__init__) true VNone
             eq_refl (or_introl eq_refl)).
  - exact (format_samples_needs_metadata Signal.__init__ true VNone
             eq_refl (or_introl eq_refl)).
Defined.

(** X15: [byte_array_to_string] loses nothing: the text has one character per
    byte, and its characters, read as bytes again, are the bytes it was
    made from (so two different byte strings never give the same text). *)
Theorem byte_array_to_string_is_lossless (bytesData : list byte) :
  String.length (byte_array_to_string bytesData) = length bytesData
  /\ list_byte_of_string (byte_array_to_string bytesData) = bytesData.
Proof.
  unfold byte_array_to_string, list_byte_of_string.
  rewrite list_ascii_of_string_of_list_ascii, map_map. split.
  - induction bytesData as [| b l IH]; cbn; [reflexivity | now rewrite IH].
  - rewrite <- (map_id bytesData) at 2. apply map_ext. apply byte_of_ascii_of_byte.
Qed.

(** ** The whole pool and the stream *)

Section Blocks.

Lemma blocks_by_index (n : nat) :
  forall (k : nat) (bytes : list byte),
    map (fun i => take n (drop (i * n) bytes)) (seq 0 k) = blocks k n bytes.
Proof.
  induction k as [| k IH]; intros bytes; [reflexivity |].
  cbn [blocks]. rewrite <- IH, <- cons_seq, <- fmap_S_seq.
  cbn [map]. rewrite drop_0. f_equal.
  change (map ?f (S <$> ?l)) with (map f (map S l)). rewrite map_map.
  apply map_ext. intros i. rewrite drop_drop. do 2 f_equal; lia.
Qed.

Lemma blocks_sizes (n : nat) :
  forall (k : nat) (bytes : list byte),
    length bytes = (k * n)%nat ->
    Forall (fun b => length b = n) (blocks k n bytes) /\ length (blocks k n bytes) = k.
Proof.
  induction k as [| k IH]; intros bytes Hlen; cbn [blocks].
  - split; constructor.
  - destruct (IH (drop n bytes)) as [H1 H2]; [rewrite length_drop; lia |].
    split; [| cbn; now rewrite H2].
    constructor; [rewrite length_take; lia | exact H1].
Qed.
End Blocks.

Section WholePool.
Import EdfRecording.

Variable counts : list Z.
Hypothesis counts_nonneg : Forall (fun c => 0 <= c) counts.
Hypothesis sum_pos : 0 < sum_Z counts.
Let rs : Z := 2 * sum_Z counts.

Lemma block_decoded (sample : list byte) (r : t) :
  geometry counts r ->
  Z.of_nat (length sample) = rs ->
  __parse_one_record__ sample r
  = (Returns tt,
     set_signals (append_records (signals r) (split_counts counts (decode_h sample))) r)
  /\ geometry counts
       (set_signals (append_records (signals r) (split_counts counts (decode_h sample))) r).
Proof.
  intros (Hc & Hs & Hr & Hp) Hlen. split.
  - apply parse_one_record_split; [| assumption]. repeat split; assumption.
  - repeat split; try assumption. cbn [signals set_signals].
    apply append_records_counted; [assumption |].
    apply split_counts_lengths; [assumption |].
    rewrite (decode_h_length (Z.to_nat (sum_Z counts))); subst rs; lia.
Qed.

Lemma parse_records_decoded :
  forall (bs : list (list byte)) (r : t),
    geometry counts r ->
    Forall (fun b => Z.of_nat (length b) = rs) bs ->
    exists r',
      parse_records bs r = (Returns tt, r')
      /\ signals r' = decode_blocks counts bs (signals r).
Proof.
  induction bs as [| b bs IH]; intros r Hgeo Hbs; cbn [parse_records decode_blocks].
  - exists r. split; reflexivity.
  - apply Forall_cons in Hbs as [Hb Hbs].
    destruct (block_decoded b r Hgeo Hb) as [Hrun Hgeo1].
    unfold Py.bind. rewrite Hrun.
    destruct (IH _ Hgeo1 Hbs) as (r' & Hrun' & Hsig').
    exists r'. split; [exact Hrun' | exact Hsig'].
Qed.

Lemma read_slots_decoded :
  forall (k : nat) (r : t),
    geometry counts r -> single_source r ->
    Z.of_nat (length (pending r)) = Z.of_nat k * rs ->
    exists r',
      read_slots k (Some rs) r = (Returns tt, r')
      /\ signals r' = decode_blocks counts (blocks k (Z.to_nat rs) (pending r)) (signals r).
Proof.
  induction k as [| k IH]; intros r Hgeo Hsrc Hlen; cbn [read_slots blocks decode_blocks].
  - exists r. split; reflexivity.
  - destruct (extract_returns rs r ltac:(subst rs; lia))
      as (r1 & He & _ & Hh & Hn & Hs1 & Hr1 & Hsig & Hp1).
    destruct (Hp1 Hsrc) as [Hsrc1 Hpend1].
    assert (Hl : Z.of_nat (length (take (Z.to_nat rs) (pending r))) = rs)
      by (rewrite length_take; subst rs; nia).
    assert (Hgeo1 : geometry counts r1).
    { destruct Hgeo as (Hc & Hs & Hr & Hp).
      repeat split; try congruence; now rewrite Hsig. }
    destruct (block_decoded _ r1 Hgeo1 Hl) as [Hrun Hgeo2].
    unfold Py.bind at 1. unfold read_slot, Py.bind at 1. rewrite He.
    destruct (take (Z.to_nat rs) (pending r)) as [| b0 sample] eqn:Htake;
      [cbn in Hl; subst rs; lia |].
    cbn [length Nat.ltb Nat.leb]. rewrite Hrun.
    set (r2 := set_signals _ r1) in *.
    destruct (IH r2) as (r' & Hrun' & Hsig').
    + exact Hgeo2.
    + exact Hsrc1.
    + change (pending r2) with (pending r1). rewrite Hpend1, length_drop.
      subst rs. nia.
    + exists r'. split; [exact Hrun' |]. rewrite Hsig'.
      change (pending r2) with (pending r1). rewrite Hpend1.
      subst r2. cbn [signals set_signals]. now rewrite Hsig.
Qed.

Lemma pool_blocks (samples : list byte) :
  forall k : nat,
    map (fun x => slice samples (Some x) (Some (x + rs)))
        (map (fun i => Z.of_nat i * rs) (seq 0 k))
    = map (fun i => take (Z.to_nat rs) (drop (i * Z.to_nat rs) samples)) (seq 0 k).
Proof.
  intros k. rewrite map_map. apply map_ext. intros i.
  rewrite slice_between by (subst rs; nia).
  f_equal; [lia |]. f_equal. subst rs. nia.
Qed.

Lemma decode_blocks_gained :
  forall (bs : list (list byte)) (sigs : list Signal.t),
    counted sigs counts ->
    Forall (fun b => Z.of_nat (length b) = rs) bs ->
    Forall2 (gained (length bs)) sigs (decode_blocks counts bs sigs).
Proof.
  induction bs as [| b bs IH]; intros sigs Hc Hbs; cbn [decode_blocks length].
  - apply Forall2_gained_refl.
  - apply Forall_cons in Hbs as [Hb Hbs].
    assert (Hl : Forall2 (fun c sl => Z.of_nat (length sl) = c) counts
                   (split_counts counts (decode_h b))).
    { apply split_counts_lengths; [assumption |].
      rewrite (decode_h_length (Z.to_nat (sum_Z counts))); subst rs; lia. }
    change (S (length bs)) with (1 + length bs)%nat.
    apply Forall2_gained_trans with (l2 := append_records sigs (split_counts counts (decode_h b))).
    + clear - Hc Hl. revert Hl. generalize (split_counts counts (decode_h b)).
      induction Hc as [| s c sigs counts Hs _ IHc]; intros sl Hl;
        inversion Hl; subst; cbn; constructor; auto using gained_one.
    + apply IH; [| assumption]. now apply append_records_counted.
Qed.

End WholePool.

(** X16: [__parse_whole_signal_value_pool__], which no method calls, agrees
    with the stream: given the [k] whole record blocks that are pending
    (for non-negative counts with a positive sum) it returns, and leaves
    in the descriptors exactly the records that [k] slots of the parsing
    stage leave there, [k] more for every descriptor. *)
Theorem whole_pool_agrees_with_stream (r : EdfRecording.t) (counts : list Z) (k : nat) :
  geometry counts r ->
  single_source r ->
  Forall (fun c => 0 <= c) counts ->
  0 < sum_Z counts ->
  Z.of_nat (length (pending r)) = Z.of_nat k * (2 * sum_Z counts) ->
  exists r1 r2,
    EdfRecording.__parse_whole_signal_value_pool__ (pending r) r = (Returns tt, r1)
    /\ EdfRecording.read_slots k (EdfRecording.record_size r) r = (Returns tt, r2)
    /\ EdfRecording.signals r1 = EdfRecording.signals r2
    /\ Forall2 (gained k) (EdfRecording.signals r) (EdfRecording.signals r1).
Proof.
  intros Hgeo Hsrc Hpos Hsum Hlen.
  set (rs := 2 * sum_Z counts) in *.
  assert (Hrs : EdfRecording.record_size r = Some rs) by apply Hgeo.
  assert (Hn : length (pending r) = (k * Z.to_nat rs)%nat) by (subst rs; nia).
  destruct (blocks_sizes (Z.to_nat rs) k (pending r) Hn) as [Hsz Hk].
  assert (Hsz' : Forall (fun b => Z.of_nat (length b) = rs)
                   (blocks k (Z.to_nat rs) (pending r))).
  { eapply Forall_impl; [exact Hsz |]. cbn. intros b Hb. subst rs. lia. }
  destruct (parse_records_decoded counts Hpos Hsum _ r Hgeo Hsz') as (r1 & Hrun1 & Hsig1).
  destruct (read_slots_decoded counts Hpos Hsum k r Hgeo Hsrc Hlen)
    as (r2 & Hrun2 & Hsig2).
  exists r1, r2. split; [| split; [| split]].
  - unfold EdfRecording.__parse_whole_signal_value_pool__. run_monad.
    rewrite Hrs. run_monad.
    destruct (Z.eqb_spec rs 0); [subst rs; lia |].
    destruct (Z.ltb_spec 0 rs); [| subst rs; lia].
    unfold EdfRecording.range_by.
    replace (Z.to_nat ((Z.of_nat (length (pending r)) + rs - 1) / rs)) with k.
    + rewrite (pool_blocks counts), blocks_by_index; [exact Hrun1 | assumption].
    + rewrite Hlen.
      replace (Z.of_nat k * rs + rs - 1) with (Z.of_nat k * rs + (rs - 1)) by lia.
      rewrite Z.div_add_l by lia. rewrite Z.div_small by lia. lia.
  - rewrite Hrs. exact Hrun2.
  - now rewrite Hsig1, Hsig2.
  - rewrite Hsig1. rewrite <- Hk at 1.
    apply decode_blocks_gained; [assumption | assumption | apply Hgeo | exact Hsz'].
Qed.

Lemma whole_pool_agrees_with_stream_witness :
  let r := two_signal_recording in
  exists r1 r2,
    EdfRecording.__parse_whole_signal_value_pool__ Fixture.record_bytes r = (Returns tt, r1)
    /\ EdfRecording.read_slots 2 (Some 6) r = (Returns tt, r2)
    /\ EdfRecording.signals r1 = EdfRecording.signals r2
    /\ Forall2 (gained 2) (EdfRecording.signals r) (EdfRecording.signals r1).
Proof.
  cbn zeta.
  assert (H1 : geometry [2; 1] two_signal_recording).
  { unfold geometry. split; [concrete_counted |].
    split; [vm_compute; reflexivity |].
    split; [vm_compute; reflexivity |]. vm_compute. discriminate. }
  assert (H2 : single_source two_signal_recording) by (left; vm_compute; reflexivity).
  assert (H3 : Forall (fun c => 0 <= c) [2; 1]) by (repeat constructor; lia).
  assert (H4 : 0 < sum_Z [2; 1]) by (vm_compute; reflexivity).
  assert (H5 : Z.of_nat (length (pending two_signal_recording))
               = Z.of_nat 2 * (2 * sum_Z [2; 1])) by (vm_compute; reflexivity).
  assert (H6 : pending two_signal_recording = Fixture.record_bytes)
    by (vm_compute; reflexivity).
  assert (H7 : EdfRecording.record_size two_signal_recording = Some 6)
    by (vm_compute; reflexivity).
  destruct (whole_pool_agrees_with_stream two_signal_recording [2; 1] 2 H1 H2 H3 H4 H5)
    as (r1 & r2 & Hp & Hs & He & Hg).
  rewrite H6 in Hp. rewrite H7 in Hs.
  exists r1, r2. split; [exact Hp |]. split; [exact Hs |]. split; [exact He | exact Hg].
Defined.

(** X17: without a duration ([None], [0] or any other false value) a call in
    the metadata or parsing stage asks for [record_size] records, the
    number of bytes of one record: on a source of [k] whole record blocks
    whose header declares a non-zero record duration it decodes
    [min record_size k] records, and ends the stream when the source
    holds fewer than [record_size] of them. *)
Theorem stream_without_duration_reads_record_size_records
        (d : value) (r : EdfRecording.t) (h : EdfHeader.t) (counts : list Z) (k : nat) :
  truthy d = false ->
  EdfRecording.status r = Some EdfRecording.STAGE_METADATA
  \/ EdfRecording.status r = Some EdfRecording.STAGE_PARSING ->
  geometry counts r ->
  single_source r ->
  whole_records counts k r ->
  EdfRecording.header r = Some h ->
  isclose_zero (EdfHeader.get h "recordDuration") = Returns false ->
  let n := Z.to_nat (2 * sum_Z counts) in
  exists r',
    EdfRecording.stream d r = (Returns (EdfRecording.status r'), r')
    /\ EdfRecording.status r'
       = Some (if (n <=? k)%nat
               then EdfRecording.STAGE_PARSING else EdfRecording.STAGE_DONE)
    /\ Forall2 (gained (Nat.min n k)) (EdfRecording.signals r) (EdfRecording.signals r').
Proof.
  intros Hd Hst Hgeo Hsrc Hwhole Hh Hrd n.
  assert (Hreq : fst (EdfRecording.records_to_read d r) = Returns (2 * sum_Z counts)).
  { unfold EdfRecording.records_to_read, EdfRecording.header_get. run_monad.
    rewrite Hh, Hrd. cbn beta iota.
    unfold EdfRecording.requested_records. rewrite Hd. cbn [negb].
    destruct Hgeo as (_ & _ & -> & _). reflexivity. }
  destruct (stream_whole_records d r counts _ k Hst Hgeo Hsrc Hwhole Hreq)
    as (r' & Hrun & Hst' & _ & _ & _ & Hsig).
  exists r'. split; [exact Hrun |]. split; [exact Hst' | exact Hsig].
Qed.

Lemma stream_without_duration_reads_record_size_records_witness :
  let r := two_signal_recording in
  EdfRecording.record_size r = Some 6
  /\ fst (EdfRecording.records_to_read VNone r) = Returns 6
  /\ exists r',
      EdfRecording.stream VNone r = (Returns (Some EdfRecording.STAGE_DONE), r')
      /\ Forall2 (gained 2) (EdfRecording.signals r) (EdfRecording.signals r').
Proof.
  cbn zeta.
  assert (H1 : EdfRecording.status two_signal_recording = Some EdfRecording.STAGE_METADATA
               \/ EdfRecording.status two_signal_recording = Some EdfRecording.STAGE_PARSING)
    by (left; vm_compute; reflexivity).
  assert (H2 : geometry [2; 1] two_signal_recording).
  { unfold geometry. split; [concrete_counted |].
    split; [vm_compute; reflexivity |].
    split; [vm_compute; reflexivity |]. vm_compute. discriminate. }
  assert (H3 : single_source two_signal_recording) by (left; vm_compute; reflexivity).
  assert (H4 : whole_records [2; 1] 2 two_signal_recording).
  { right. split; vm_compute; reflexivity. }
  set (h := snd (EdfHeader.parse Fixture.header_bytes EdfHeader.__init__)).
  assert (H5 : EdfRecording.header two_signal_recording = Some h)
    by (vm_compute; reflexivity).
  assert (H6 : isclose_zero (EdfHeader.get h "recordDuration") = Returns false)
    by (vm_compute; reflexivity).
  split; [vm_compute; reflexivity |]. split; [vm_compute; reflexivity |].
  destruct (stream_without_duration_reads_record_size_records
              VNone two_signal_recording h [2; 1] 2 eq_refl H1 H2 H3 H4 H5 H6)
    as (r' & Hrun & Hst & Hsig).
  exists r'. rewrite Hst in Hrun. split; [exact Hrun | exact Hsig].
Defined.

(** ** The scaler follows the metadata *)

Section ScalerReady.
Import EdfRecording.

Lemma set_metadata_ready (l m : string) (s s' : Signal.t) :
  Signal.set_metadata l m s = (Returns tt, s') -> scaler_ready s'.
Proof.
  unfold Signal.set_metadata, scaler_ready. cbn zeta.
  cbn [Signal.metadata Signal.samples Signal.scaler].
  destruct (size (<[l:=m]> (Signal.metadata s)) =? length Signal.meta_data_fields)%nat
    eqn:Hsz.
  - match goal with |- context [match ?o with Returns _ => _ | Raises _ => _ end] =>
      destruct o as [sc | e] end; cbn beta iota; intros H; [| discriminate H].
    injection H as <-. cbn. discriminate.
  - intros H. injection H as <-. cbn [Signal.metadata]. intros Hten.
    apply Nat.eqb_neq in Hsz. contradiction.
Qed.

Lemma set_metadata_each_ready (l : string) :
  forall sigs ms sigs',
    Forall scaler_ready sigs ->
    set_metadata_each l sigs ms = (Returns tt, sigs') ->
    Forall scaler_ready sigs'.
Proof.
  induction sigs as [| s sigs IH]; intros ms sigs' Hall H.
  - cbn in H. injection H as <-. constructor.
  - destruct ms as [| m ms]; cbn [set_metadata_each] in H.
    + injection H as <-. assumption.
    + apply Forall_cons in Hall as [_ Hall].
      destruct (Signal.set_metadata l m s) as [[[] | e] s1] eqn:Hs;
        [| discriminate H].
      destruct (set_metadata_each l sigs ms) as [o rest] eqn:Hrest.
      injection H as -> <-.
      constructor; [eapply set_metadata_ready; eauto | eapply IH; eauto].
Qed.

Lemma parse_fields_ready (hb : list byte) :
  forall todo end_ r r',
    Forall scaler_ready (signals r) ->
    parse_fields todo hb end_ r = (Returns tt, r') ->
    Forall scaler_ready (signals r').
Proof.
  induction todo as [| [l w] todo IH]; intros end_ r r' Hall H; cbn [parse_fields] in H.
  - injection H as <-. assumption.
  - do 4 bind_inv H.
    unfold Py.get in E. injection E as <- <-.
    destruct (number_signals r) as [n |]; cbn in E0; [| discriminate E0].
    injection E0 as <- <-.
    unfold Py.lift in E1.
    destruct (unpack_s _ _) as [chunks | e]; [| discriminate E1].
    injection E1 as <- <-.
    destruct (set_metadata_each l (signals r) (map byte_array_to_string chunks))
      as [o sigs1] eqn:Hs.
    injection E2 as -> <-. destruct a2.
    eapply IH; [| exact H]. cbn [signals set_signals].
    eapply set_metadata_each_ready; eauto.
Qed.

Lemma gained_ready (m : nat) (sigs sigs' : list Signal.t) :
  Forall2 (gained m) sigs sigs' -> Forall scaler_ready sigs -> Forall scaler_ready sigs'.
Proof.
  induction 1 as [| s s' sigs sigs' (new & _ & ->) _ IH]; intros Hall;
    [constructor |].
  apply Forall_cons in Hall as [Hs Hall]. constructor; [exact Hs | auto].
Qed.

Lemma stream_ready (d : value) (r r' : t) (v : option stage) :
  Forall scaler_ready (signals r) ->
  stream d r = (Returns v, r') ->
  Forall scaler_ready (signals r').
Proof.
  intros Hall H.
  destruct (status r) as [[] |] eqn:Hst.
  - destruct (stream_open_signals d r r' v Hst H) as [n ->].
    apply Forall_forall. intros s Hs. apply elem_of_replicate in Hs as [-> _].
    intros Hten. vm_compute in Hten. discriminate Hten.
  - unfold stream in H.
    unfold Py.bind at 1, Py.get in H. cbn beta iota in H. rewrite Hst in H.
    do 3 bind_inv H.
    unfold return_status in H. injection H as _ <-.
    unfold assign in E. injection E as _ <-.
    destruct (extract_any (signal_header_size r) (set_status (Some STAGE_METADATA) r))
      as (o & r1 & He & _ & Hsig & _).
    rewrite He in E0. injection E0 as -> <-.
    unfold __parse_metadata__ in E1.
    bind_inv E1. do 3 bind_inv E1.
    unfold assign in E1, E3. injection E1 as _ <-. injection E3 as _ <-.
    unfold Py.lift in E2.
    destruct (Signal.mapM _ _) as [counts |]; [| discriminate E2].
    injection E2 as _ <-.
    unfold Py.get in E0. injection E0 as _ <-.
    cbn [signals set_record_size set_samples_per_record].
    match type of E with _ = (Returns ?u, _) => destruct u end.
    eapply parse_fields_ready; [| exact E].
    rewrite Hsig. exact Hall.
  - rewrite stream_parsing in H by auto.
    destruct (fst (records_to_read d r)) as [n | e]; [| discriminate H].
    bind_inv H. unfold return_status in H. injection H as _ <-.
    destruct a. apply read_slots_returns in E as [m Hm].
    eapply gained_ready; eauto.
  - rewrite stream_parsing in H by auto.
    destruct (fst (records_to_read d r)) as [n | e]; [| discriminate H].
    bind_inv H. unfold return_status in H. injection H as _ <-.
    destruct a. apply read_slots_returns in E as [m Hm].
    eapply gained_ready; eauto.
  - rewrite (stream_idle d r) in H by auto. injection H as _ <-. assumption.
  - rewrite (stream_idle d r) in H by auto. injection H as _ <-. assumption.
Qed.
End ScalerReady.

(** X18: the scaler follows the metadata: through any sequence of [stream]
    calls that return, started from a recording in which every
    descriptor with ten metadata keys has a scaler (a new recording has
    no descriptor), every descriptor with ten metadata keys has a scaler,
    so that [format_samples] never finds [None] in its place. *)
Theorem complete_metadata_has_a_scaler (durations : list value) :
  forall (r r' : EdfRecording.t),
    Forall scaler_ready (EdfRecording.signals r) ->
    stream_calls durations r = (Returns tt, r') ->
    Forall scaler_ready (EdfRecording.signals r').
Proof.
  induction durations as [| d ds IH]; intros r r' Hall H; cbn in H.
  - injection H as <-. assumption.
  - bind_inv H. eauto using stream_ready.
Qed.

Lemma complete_metadata_has_a_scaler_witness :
  Forall (fun s => size (Signal.metadata s) = 10%nat /\ Signal.scaler s <> None)
    (EdfRecording.signals two_signal_recording).
Proof.
  assert (H0 : Forall scaler_ready
                 (EdfRecording.signals (Fixture.opened Fixture.blob))) by constructor.
  assert (H1 : stream_calls [VNone; VNone] (Fixture.opened Fixture.blob)
               = (Returns tt, two_signal_recording)) by (vm_compute; reflexivity).
  pose proof (complete_metadata_has_a_scaler [VNone; VNone] _ _ H0 H1) as Hready.
  assert (Hten : Forall (fun s => size (Signal.metadata s) = 10%nat)
                   (EdfRecording.signals two_signal_recording)).
  { set (sigs := EdfRecording.signals two_signal_recording). vm_compute in sigs.
    subst sigs. repeat constructor. }
  revert Hready Hten. generalize (EdfRecording.signals two_signal_recording).
  induction l as [| s l IH]; intros Hready Hten; [constructor |].
  apply Forall_cons in Hready as [Hs Hready]. apply Forall_cons in Hten as [Ht Hten].
  constructor; [split; [exact Ht | exact (Hs Ht)] | exact (IH Hready Hten)].
Defined.
